(** * NumOS disk-image builders: a shallow embedding and its properties

    The two FAT32 image builders of the repository, [tools/build_disk.py]
    (class [Fat32DiskBuilder], an image patched in memory) and
    [tools/create_disk_fixed.py] (an image streamed to the output file), are
    embedded as Rocq functions over byte lists.  Python integers are [Z],
    [bytes]/[bytearray] values are lists of [Z] in the range 0..255, Python
    exceptions are the [Raise] case of [result], and the wall clock read by
    [datetime.now()] is an explicit argument. *)

From Stdlib Require Import ZArith Lia String Ascii List.
From stdpp Require Import base tactics option list list_numbers relations.

Local Open Scope Z_scope.

(** ** Python values and exceptions *)

Inductive exn : Type :=
| IndexError            (* list or bytearray index out of range *)
| StructError           (* struct.error: value or buffer out of range *)
| UnicodeEncodeError    (* str.encode('ascii') on a non-ASCII character *)
| DirectoryFull         (* Exception("Directory full, cannot add ...") *)
| SystemExit (code : Z) (* sys.exit(code) *).

Inductive result (A : Type) : Type :=
| Ok (a : A)
| Raise (e : exn).
Arguments Ok {A} a.
Arguments Raise {A} e.

#[global] Instance result_ret : MRet result := fun _ a => Ok a.
#[global] Instance result_bind : MBind result := fun _ _ f m =>
  match m with
  | Ok a => f a
  | Raise e => Raise e
  end.

Definition is_ok {A} (r : result A) : bool :=
  match r with Ok _ => true | Raise _ => false end.

(** [len l] is Python's [len(l)]. *)
Definition len {A} (l : list A) : Z := Z.of_nat (length l).

(** [bytearray(n)] and [bytes(n)]: [n] zero bytes. *)
Definition bytearray (n : Z) : list Z := replicate (Z.to_nat n) 0.

(** [a[s:e]] for non-negative [s] and [e]: both ends are clamped to the
    length, and the slice is empty when [e <= s]. *)
Definition slice {A} (a : list A) (s e : Z) : list A :=
  take (Z.to_nat (e - s)) (drop (Z.to_nat s) a).

(** [a[s:e] = d] on a bytearray, for non-negative [s] and [e]: the clamped
    range is replaced by [d], whatever the length of [d]; a range that starts
    past the end appends [d]. *)
Definition slice_set {A} (a : list A) (s e : Z) (d : list A) : list A :=
  take (Z.to_nat s) a ++ d ++ drop (Z.to_nat (Z.max s e)) a.

(** The position an index denotes in a sequence of length [n]: negative
    indices count from the end, anything else is out of range. *)
Definition py_index (n i : Z) : option nat :=
  if (0 <=? i) && (i <? n) then Some (Z.to_nat i)
  else if (- n <=? i) && (i <? 0) then Some (Z.to_nat (n + i))
  else None.

(** [a[i]] *)
Definition getitem (a : list Z) (i : Z) : result Z :=
  match py_index (len a) i with
  | Some k => match a !! k with Some x => Ok x | None => Raise IndexError end
  | None => Raise IndexError
  end.

(** [a[i] = x] *)
Definition setitem (a : list Z) (i : Z) (x : Z) : result (list Z) :=
  match py_index (len a) i with
  | Some k => Ok (<[k := x]> a)
  | None => Raise IndexError
  end.

(** The [n] little-endian bytes of [v]. *)
Fixpoint le_bytes (n : nat) (v : Z) : list Z :=
  match n with
  | O => []
  | S n' => v mod 256 :: le_bytes n' (v / 256)
  end.

(** The value of little-endian bytes. *)
Fixpoint le_value (bs : list Z) : Z :=
  match bs with
  | [] => 0
  | x :: bs' => x + 256 * le_value bs'
  end.

(** [struct.pack] of one unsigned little-endian field of [n] bytes
    ("<B": 1, "<H": 2, "<L" and "<I": 4); the value must fit. *)
Definition pack (n : nat) (v : Z) : result (list Z) :=
  if (0 <=? v) && (v <? 2 ^ (8 * Z.of_nat n)) then Ok (le_bytes n v)
  else Raise StructError.

(** [struct.pack_into] of one such field at a non-negative offset; the field
    must lie within the buffer. *)
Definition pack_into (n : nat) (buf : list Z) (offset v : Z) : result (list Z) :=
  bs ← pack n v;
  if (0 <=? offset) && (offset + Z.of_nat n <=? len buf)
  then Ok (slice_set buf offset (offset + Z.of_nat n) bs)
  else Raise StructError.

(** A loop [for x in xs: s = body(x, s)] that an exception leaves. *)
Fixpoint for_each {A S} (xs : list A) (body : A → S → result S) (s : S) : result S :=
  match xs with
  | [] => Ok s
  | x :: xs' => s' ← body x s; for_each xs' body s'
  end.

(** [range(lo, hi)] *)
Definition range (lo hi : Z) : list Z := seqZ lo (hi - lo).

(** [range(0, n, step)] for a positive [step]. *)
Definition range_step (n step : Z) : list Z :=
  (λ k, k * step) <$> seqZ 0 ((n + step - 1) / step).

(** Python strings as lists of code points; the model reads a Rocq string
    as the text whose code points are its bytes. *)
Definition str (s : string) : list Z :=
  (λ c, Z.of_N (N_of_ascii c)) <$> list_ascii_of_string s.

(** [s.upper()] on ASCII text.  Characters outside ASCII are left alone
    here, while Python maps a few of them to ASCII letters (sharp s to SS,
    dotless i to I, long s to S, the ligature fi to FI).  A name with such
    a character among those the 8.3 name keeps is encoded by the code and
    fails to encode here; wherever this model returns a name it is the
    name the code computes. *)
Definition upper (s : list Z) : list Z :=
  (λ c, if (97 <=? c) && (c <=? 122) then c - 32 else c) <$> s.

(** [s.encode('ascii')] *)
Definition encode_ascii (s : list Z) : result (list Z) :=
  if forallb (λ c, (0 <=? c) && (c <? 128)) s then Ok s else Raise UnicodeEncodeError.

(** [s.ljust(n)] *)
Definition ljust (n : Z) (s : list Z) : list Z :=
  s ++ replicate (Z.to_nat (n - len s)) 32.

(** [s.rfind(ch)] for a single character: the last position, or -1. *)
Definition rfind (ch : Z) (s : list Z) : Z :=
  fold_left (λ acc ic, if snd ic =? ch then fst ic else acc)
            (zip (seqZ 0 (len s)) s) (-1).

(** [os.path.splitext] (POSIX): the extension starts at the last dot of the
    last path component, unless only dots precede it there. *)
Definition splitext (p : list Z) : list Z * list Z :=
  let sepIndex := rfind 47 p in
  let dotIndex := rfind 46 p in
  if sepIndex <? dotIndex then
    if existsb (λ c, negb (c =? 46)) (slice p (sepIndex + 1) dotIndex)
    then (slice p 0 dotIndex, drop (Z.to_nat dotIndex) p)
    else (p, [])
  else (p, []).

(** [os.path.basename] (POSIX) *)
Definition basename (p : list Z) : list Z :=
  drop (Z.to_nat (rfind 47 p + 1)) p.

(** What [datetime.now()] returns, as far as the builders read it. *)
Record datetime : Type := mk_datetime {
  year : Z; month : Z; day : Z; hour : Z; minute : Z; second : Z
}.

(** The local file system the builders read: a path names a regular file
    with its content, or nothing. *)
Definition filesystem : Type := string → option (list Z).

(** ** FAT32 vocabulary shared by both builders *)

(** A FAT entry at or above this value ends a chain. *)
Definition EOC_MIN : Z := 0x0FFFFFF8.

(** The 32-bit FAT entry of cluster [c] in a serialized FAT. *)
Definition fat_entry_at (fat : list Z) (c : Z) : Z :=
  le_value (slice fat (4 * c) (4 * c + 4)).

(** Following a chain through FAT entries given by [entry]: the clusters
    visited from [c] up to and including the one marked end-of-chain.
    [None] when the chain leaves the table or does not end within [fuel]
    steps. *)
Fixpoint follow_chain (fuel : nat) (entry : Z → option Z) (c : Z) : option (list Z) :=
  match fuel with
  | O => None
  | S fuel' =>
      match entry c with
      | None => None
      | Some e =>
          if EOC_MIN <=? e then Some [c]
          else cons c <$> follow_chain fuel' entry e
      end
  end.

(** The fields of a 32-byte directory entry a reader decodes. *)
Definition entry_first_cluster (e : list Z) : Z :=
  le_value (slice e 20 22) * 65536 + le_value (slice e 26 28).
Definition entry_size (e : list Z) : Z := le_value (slice e 28 32).

(** A directory slot is free when its first byte is 0x00 or 0xE5. *)
Definition slot_free (dir_data : list Z) (i : Z) : bool :=
  match dir_data !! Z.to_nat i with
  | Some x => (x =? 0x00) || (x =? 0xE5)
  | None => false
  end.

(** ** tools/build_disk.py *)

Module BuildDisk.

(** The attributes of [Fat32DiskBuilder] that [__init__] sets to constants
    and nothing reassigns. *)
Definition sector_size : Z := 512.
Definition sectors_per_cluster : Z := 8.
Definition reserved_sectors : Z := 32.
Definition fat_count : Z := 2.
Definition root_cluster : Z := 2.
Definition sectors_per_fat : Z := 256.
Definition fat_start_sector : Z := reserved_sectors.
Definition data_start_sector : Z := fat_start_sector + fat_count * sectors_per_fat.
Definition bytes_per_cluster : Z := sector_size * sectors_per_cluster.

(** The attributes that depend on the requested size or change during a
    build. *)
Record Fat32DiskBuilder : Type := mk_builder {
  size_mb : Z;
  disk_image : list Z;
  fat_table : list Z;
  next_free_cluster : Z
}.

Definition size_bytes (b : Fat32DiskBuilder) : Z := size_mb b * 1024 * 1024.
Definition total_sectors (b : Fat32DiskBuilder) : Z := size_bytes b / sector_size.

Definition set_disk_image (img : list Z) (b : Fat32DiskBuilder) : Fat32DiskBuilder :=
  mk_builder (size_mb b) img (fat_table b) (next_free_cluster b).
Definition set_fat_table (fat : list Z) (b : Fat32DiskBuilder) : Fat32DiskBuilder :=
  mk_builder (size_mb b) (disk_image b) fat (next_free_cluster b).
Definition set_next_free_cluster (c : Z) (b : Fat32DiskBuilder) : Fat32DiskBuilder :=
  mk_builder (size_mb b) (disk_image b) (fat_table b) c.

(** [Fat32DiskBuilder.__init__] *)
Definition init (size_mb : Z) : Fat32DiskBuilder :=
  {| size_mb := size_mb;
     disk_image := bytearray (size_mb * 1024 * 1024);
     fat_table := replicate (Z.to_nat (sectors_per_fat * sector_size / 4)) 0;
     next_free_cluster := 3 |}.

(** The 512-byte buffer [create_boot_sector] fills in; of the builder it
    reads [total_sectors] only. *)
Definition boot_sector_bytes (total_sectors : Z) : result (list Z) :=
  let boot_sector := bytearray 512 in
  let boot_sector := slice_set boot_sector 0 3 [0xEB; 0x58; 0x90] in
  let boot_sector := slice_set boot_sector 3 11 (str "NumOS   ") in
  boot_sector ← pack_into 2 boot_sector 11 sector_size;
  boot_sector ← pack_into 1 boot_sector 13 sectors_per_cluster;
  boot_sector ← pack_into 2 boot_sector 14 reserved_sectors;
  boot_sector ← pack_into 1 boot_sector 16 fat_count;
  boot_sector ← pack_into 2 boot_sector 17 0;
  boot_sector ← pack_into 2 boot_sector 19 0;
  boot_sector ← pack_into 1 boot_sector 21 0xF8;
  boot_sector ← pack_into 2 boot_sector 22 0;
  boot_sector ← pack_into 2 boot_sector 24 63;
  boot_sector ← pack_into 2 boot_sector 26 255;
  boot_sector ← pack_into 4 boot_sector 28 0;
  boot_sector ← pack_into 4 boot_sector 32 total_sectors;
  boot_sector ← pack_into 4 boot_sector 36 sectors_per_fat;
  boot_sector ← pack_into 2 boot_sector 40 0;
  boot_sector ← pack_into 2 boot_sector 42 0;
  boot_sector ← pack_into 4 boot_sector 44 root_cluster;
  boot_sector ← pack_into 2 boot_sector 48 1;
  boot_sector ← pack_into 2 boot_sector 50 6;
  boot_sector ← for_each (range 52 64) (λ i buf, setitem buf i 0) boot_sector;
  boot_sector ← pack_into 1 boot_sector 64 0x80;
  boot_sector ← pack_into 1 boot_sector 65 0;
  boot_sector ← pack_into 1 boot_sector 66 0x29;
  boot_sector ← pack_into 4 boot_sector 67 0x12345678;
  let boot_sector := slice_set boot_sector 71 82 (str "NumOS FAT32") in
  let boot_sector := slice_set boot_sector 82 90 (str "FAT32   ") in
  pack_into 2 boot_sector 510 0xAA55.

Definition create_boot_sector (b : Fat32DiskBuilder) : result Fat32DiskBuilder :=
  boot_sector ← boot_sector_bytes (total_sectors b);
  Ok (set_disk_image (slice_set (disk_image b) 0 512 boot_sector) b).

Definition fsinfo_bytes : result (list Z) :=
  let fsinfo := bytearray 512 in
  fsinfo ← pack_into 4 fsinfo 0 0x41615252;
  fsinfo ← pack_into 4 fsinfo 484 0x61417272;
  fsinfo ← pack_into 4 fsinfo 488 0xFFFFFFFF;
  fsinfo ← pack_into 4 fsinfo 492 3;
  pack_into 2 fsinfo 510 0xAA55.

Definition create_fsinfo (b : Fat32DiskBuilder) : result Fat32DiskBuilder :=
  fsinfo ← fsinfo_bytes;
  Ok (set_disk_image (slice_set (disk_image b) 512 1024 fsinfo) b).

Definition initialize_fat (b : Fat32DiskBuilder) : result Fat32DiskBuilder :=
  fat ← setitem (fat_table b) 0 (Z.lor 0x0FFFFF00 0xF8);
  fat ← setitem fat 1 0x0FFFFFFF;
  fat ← setitem fat 2 0x0FFFFFFF;
  Ok (set_fat_table fat b).

(** The first loop of [write_fat_tables]: every entry packed as "<L", in
    order. *)
Fixpoint pack_entries (fat : list Z) : result (list Z) :=
  match fat with
  | [] => Ok []
  | entry :: fat' => bs ← pack 4 entry; rest ← pack_entries fat'; Ok (bs ++ rest)
  end.

(** The bytes of one FAT copy: the packed entries, then zero bytes up to a
    sector boundary (the [while] loop, in closed form). *)
Definition fat_bytes (fat : list Z) : result (list Z) :=
  fat_data ← pack_entries fat;
  Ok (fat_data ++ bytearray ((- len fat_data) mod sector_size)).

Definition write_fat_tables (b : Fat32DiskBuilder) : result Fat32DiskBuilder :=
  fat_data ← fat_bytes (fat_table b);
  for_each (range 0 fat_count) (λ i b,
    let start_offset := (fat_start_sector + i * sectors_per_fat) * sector_size in
    let end_offset := start_offset + len fat_data in
    Ok (set_disk_image (slice_set (disk_image b) start_offset end_offset fat_data) b)) b.

Definition cluster_to_sector (cluster : Z) : Z :=
  data_start_sector + (cluster - 2) * sectors_per_cluster.

Definition allocate_cluster (b : Fat32DiskBuilder) : result (Z * Fat32DiskBuilder) :=
  let cluster := next_free_cluster b in
  fat ← setitem (fat_table b) cluster 0x0FFFFFFF;
  Ok (cluster, set_next_free_cluster (cluster + 1) (set_fat_table fat b)).

(** The cluster [create_root_directory] starts the root directory with: the
    volume label entry, then zeros. *)
Definition root_directory_bytes : result (list Z) :=
  let root_data := bytearray bytes_per_cluster in
  let volume_entry := bytearray 32 in
  let volume_entry := slice_set volume_entry 0 11 (str "NumOS FAT32") in
  volume_entry ← setitem volume_entry 11 0x08;
  Ok (slice_set root_data 0 32 volume_entry).

Definition create_root_directory (b : Fat32DiskBuilder) : result Fat32DiskBuilder :=
  root_data ← root_directory_bytes;
  let root_sector := cluster_to_sector root_cluster in
  let start_offset := root_sector * sector_size in
  let end_offset := start_offset + bytes_per_cluster in
  Ok (set_disk_image (slice_set (disk_image b) start_offset end_offset root_data) b).

(** Lines 167-170 of [add_file_to_directory]: the 11-byte 8.3 name. *)
Definition fat_filename_of (filename : list Z) : result (list Z) :=
  let '(name, ext) := splitext (upper filename) in
  let name := ljust 8 (slice name 0 8) in
  let ext := match ext with [] => str "   " | _ => ljust 3 (slice ext 1 4) end in
  encode_ascii (name ++ ext).

(** Lines 187-189, the body of the loop that extends a chain; the state is
    [current_cluster] and the builder. *)
Definition link_next (st : Z * Fat32DiskBuilder) : result (Z * Fat32DiskBuilder) :=
  let '(current_cluster, b) := st in
  '(next_cluster, b) ← allocate_cluster b;
  fat ← setitem (fat_table b) current_cluster next_cluster;
  Ok (next_cluster, set_fat_table fat b).

(** Lines 178-189: the chain of a file of [file_size] bytes; the result is
    [first_cluster] and the builder. *)
Definition allocate_chain (file_size clusters_needed : Z) (b : Fat32DiskBuilder)
  : result (Z * Fat32DiskBuilder) :=
  if 0 <? file_size then
    '(first_cluster, b) ← allocate_cluster b;
    '(_, b) ← for_each (range 1 clusters_needed) (λ _, link_next) (first_cluster, b);
    Ok (first_cluster, b)
  else Ok (0, b).

(** Lines 196-201: chunk [i] of the payload, padded to a cluster. *)
Definition padded_chunk (file_data : list Z) (i : Z) : list Z :=
  let file_size := len file_data in
  let chunk_start := i * bytes_per_cluster in
  let chunk_end := Z.min ((i + 1) * bytes_per_cluster) file_size in
  let chunk_data := slice file_data chunk_start chunk_end in
  chunk_data ++ bytearray (bytes_per_cluster - len chunk_data).

(** One iteration of the loop of lines 192-203. *)
Definition write_chunk (file_data : list Z) (first_cluster i : Z) (image : list Z) : list Z :=
  let cluster := first_cluster + i in
  let start_offset := cluster_to_sector cluster * sector_size in
  let chunk_data := padded_chunk file_data i in
  slice_set image start_offset (start_offset + bytes_per_cluster) chunk_data.

(** Lines 192-203: the payload, cluster by cluster. *)
Definition write_file_data (file_data : list Z) (first_cluster clusters_needed : Z)
    (image : list Z) : list Z :=
  fold_left (λ image i, write_chunk file_data first_cluster i image)
            (range 0 clusters_needed) image.

(** Lines 219-220: the FAT time and date words of a clock reading. *)
Definition time_val (now : datetime) : Z :=
  Z.lor (Z.lor (Z.shiftl (hour now) 11) (Z.shiftl (minute now) 5)) (second now / 2).
Definition date_val (now : datetime) : Z :=
  Z.lor (Z.lor (Z.shiftl (year now - 1980) 9) (Z.shiftl (month now) 5)) (day now).

(** Lines 213-229: the directory entry. *)
Definition make_entry (now : datetime) (fat_filename : list Z)
    (first_cluster file_size : Z) : result (list Z) :=
  let entry := bytearray 32 in
  let entry := slice_set entry 0 11 fat_filename in
  entry ← setitem entry 11 0x20;
  let time_val := time_val now in
  let date_val := date_val now in
  entry ← pack_into 2 entry 14 time_val;
  entry ← pack_into 2 entry 16 date_val;
  entry ← pack_into 2 entry 18 date_val;
  entry ← pack_into 2 entry 20 (Z.shiftr first_cluster 16);
  entry ← pack_into 2 entry 22 time_val;
  entry ← pack_into 2 entry 24 date_val;
  entry ← pack_into 2 entry 26 (Z.land first_cluster 0xFFFF);
  pack_into 4 entry 28 file_size.

(** The slot the [for] loop of line 211 stops at, if any. *)
Definition find_free_slot (dir_data : list Z) : option Z :=
  List.find (slot_free dir_data) (range_step (len dir_data) 32).

(** Lines 211-239: the entry goes into the first free slot; the [else] of
    the [for] raises when the loop found none. *)
Definition insert_entry (now : datetime) (fat_filename : list Z)
    (first_cluster file_size : Z) (dir_data : list Z) : result (list Z) :=
  match find_free_slot dir_data with
  | Some i =>
      entry ← make_entry now fat_filename first_cluster file_size;
      let dir_data := slice_set dir_data i (i + 32) entry in
      if i + 32 <? len dir_data then
        next ← getitem dir_data (i + 32);
        if negb (next =? 0xE5) then setitem dir_data (i + 32) 0x00
        else Ok dir_data
      else Ok dir_data
  | None => Raise DirectoryFull
  end.

(** [add_file_to_directory] with [directory_cluster] left at its default,
    the root; [now] is what [datetime.now()] returns when it is called. *)
Definition add_file_to_directory (now : datetime) (filename : list Z)
    (file_data : list Z) (b : Fat32DiskBuilder) : result Fat32DiskBuilder :=
  let directory_cluster := root_cluster in
  fat_filename ← fat_filename_of filename;
  let file_size := len file_data in
  let clusters_needed := (file_size + bytes_per_cluster - 1) / bytes_per_cluster in
  '(first_cluster, b) ← allocate_chain file_size clusters_needed b;
  let b := set_disk_image
             (write_file_data file_data first_cluster clusters_needed (disk_image b)) b in
  let dir_sector := cluster_to_sector directory_cluster in
  let dir_offset := dir_sector * sector_size in
  let dir_data := slice (disk_image b) dir_offset (dir_offset + bytes_per_cluster) in
  dir_data ← insert_entry now fat_filename first_cluster file_size dir_data;
  Ok (set_disk_image
        (slice_set (disk_image b) dir_offset (dir_offset + bytes_per_cluster) dir_data) b).

(** [add_file]: a path that does not exist is skipped. *)
Definition add_file (fs : filesystem) (now : datetime) (local_path : string)
    (disk_filename : option string) (b : Fat32DiskBuilder) : result Fat32DiskBuilder :=
  match fs local_path with
  | None => Ok b
  | Some file_data =>
      let disk_filename :=
        match disk_filename with
        | Some n => str n
        | None => basename (str local_path)
        end in
      add_file_to_directory now disk_filename file_data b
  end.

(** [save] writes [disk_image] to the output path. *)
Definition save (b : Fat32DiskBuilder) : list Z := disk_image b.

Definition config_data : list Z := str
"# NumOS Configuration File
kernel_debug=1
heap_size=16777216
timer_freq=100
vga_mode=text

# Boot options
auto_mount_fat32=1
show_boot_info=1
".

Definition readme_data : list Z := str
"NumOS - 64-bit Operating System

This is a demonstration FAT32 filesystem containing:
- KERNEL.BIN: The NumOS kernel binary
- CONFIG.TXT: System configuration file
- README.TXT: This file

Commands to try:
- ls: List files
- cat filename: Display file contents
- help: Show all available commands

Enjoy exploring NumOS!
".

(** The additional files, each with the clock reading of its own insertion. *)
Fixpoint add_files (fs : filesystem) (clock : nat → datetime) (k : nat)
    (paths : list string) (b : Fat32DiskBuilder) : result Fat32DiskBuilder :=
  match paths with
  | [] => Ok b
  | p :: paths' => b ← add_file fs (clock k) p None b; add_files fs clock (S k) paths' b
  end.

(** Lines 278-282 of [main]: the filesystem structure. *)
Definition create_filesystem_structure (builder : Fat32DiskBuilder)
  : result Fat32DiskBuilder :=
  builder ← create_boot_sector builder;
  builder ← create_fsinfo builder;
  builder ← initialize_fat builder;
  create_root_directory builder.

(** The build of [main] for a builder of [mb] megabytes ([main] passes 32):
    the result is the content of the output file.  [kernel_path] and
    [additional_files] are the parsed command line; [clock k] is what
    [datetime.now()] returns during the [k]-th insertion attempt, counting
    the kernel as 0, the additional files from 1, then CONFIG.TXT and
    README.TXT. *)
Definition build (mb : Z) (fs : filesystem) (clock : nat → datetime)
    (kernel_path : string) (additional_files : list string) : result (list Z) :=
  let builder := init mb in
  builder ← create_filesystem_structure builder;
  builder ← add_file fs (clock 0%nat) kernel_path (Some "KERNEL.BIN"%string) builder;
  builder ← add_files fs clock 1 additional_files builder;
  let n := length additional_files in
  builder ← add_file_to_directory (clock (S n)) (str "CONFIG.TXT") config_data builder;
  builder ← add_file_to_directory (clock (S (S n))) (str "README.TXT") readme_data builder;
  builder ← write_fat_tables builder;
  Ok (save builder).

Definition main := build 32.

(** *** Reading an image back

    What a FAT32 reader computes from a builder state or from the image
    that [save] wrote; the properties below are stated with these. *)

(** The byte offset of a cluster in the image, through [cluster_to_sector]. *)
Definition cluster_offset (cluster : Z) : Z := cluster_to_sector cluster * sector_size.

(** The bytes of one cluster; shorter than a cluster when the image ends
    early. *)
Definition read_cluster (image : list Z) (cluster : Z) : list Z :=
  slice image (cluster_offset cluster) (cluster_offset cluster + bytes_per_cluster).

(** The entry of a cluster in the in-memory [fat_table]. *)
Definition table_entry (fat : list Z) (c : Z) : option Z :=
  if 0 <=? c then fat !! Z.to_nat c else None.

(** The entry of a cluster in FAT copy [copy] (0 or 1) of an image. *)
Definition disk_entry (image : list Z) (copy c : Z) : option Z :=
  if (0 <=? c) && (c <? sectors_per_fat * sector_size / 4) then
    let fat_offset := (fat_start_sector + copy * sectors_per_fat) * sector_size in
    Some (le_value (slice image (fat_offset + 4 * c) (fat_offset + 4 * c + 4)))
  else None.

(** The clusters of the chain that starts at [first_cluster], and the bytes
    they hold, in chain order. *)
Definition chain_of (entry : Z → option Z) (first_cluster : Z) : option (list Z) :=
  follow_chain (Z.to_nat (sectors_per_fat * sector_size / 4)) entry first_cluster.

Definition read_chain (entry : Z → option Z) (image : list Z) (first_cluster : Z)
  : option (list Z) :=
  chain ← chain_of entry first_cluster;
  Some (concat (read_cluster image <$> chain)).

(** The root directory cluster of a builder's image. *)
Definition root_dir (b : Fat32DiskBuilder) : list Z :=
  read_cluster (disk_image b) root_cluster.

(** The 32-byte slot at byte offset [i] of a directory cluster. *)
Definition dir_slot (dir_data : list Z) (i : Z) : list Z := slice dir_data i (i + 32).

(** [clusters_needed] as [add_file_to_directory] computes it. *)
Definition clusters_needed (file_size : Z) : Z :=
  (file_size + bytes_per_cluster - 1) / bytes_per_cluster.

(** What holds of a builder from [create_root_directory] on, for a size of
    one megabyte or more: the FAT has its full length, the counter is past
    the root cluster and within the FAT, and the image reaches the next free
    cluster. *)
Definition builder_inv (b : Fat32DiskBuilder) : Prop :=
  len (fat_table b) = sectors_per_fat * sector_size / 4 ∧
  3 ≤ next_free_cluster b ≤ len (fat_table b) ∧
  cluster_offset (next_free_cluster b) ≤ len (disk_image b).

(** Every FAT entry fits the 32 bits [write_fat_tables] packs it into. *)
Definition fat_packable (fat : list Z) : Prop :=
  ∀ k e, fat !! k = Some e → 0 ≤ e < 2 ^ 32.

(** [fat] links the [n] clusters from [fc] on into one chain. *)
Definition linked (fat : list Z) (fc n : Z) : Prop :=
  (∀ i, 0 ≤ i < n - 1 → fat !! Z.to_nat (fc + i) = Some (fc + i + 1)) ∧
  fat !! Z.to_nat (fc + n - 1) = Some 0x0FFFFFFF.

(** [fat'] differs from [fat] at most at the clusters from [lo] up to, not
    including, [hi]. *)
Definition same_outside (fat fat' : list Z) (lo hi : Z) : Prop :=
  length fat' = length fat ∧
  ∀ k, 0 ≤ k → (k < lo ∨ hi ≤ k) → fat' !! Z.to_nat k = fat !! Z.to_nat k.

(** The first cluster [add_file_to_directory] records for a payload. *)
Definition first_cluster_of (b : Fat32DiskBuilder) (file_data : list Z) : Z :=
  if decide (0 < len file_data) then next_free_cluster b else 0.

(** The clusters the loop of lines 192-203 writes, in order. *)
Definition data_clusters (first_cluster clusters_needed : Z) : list Z :=
  (λ i, first_cluster + i) <$> range 0 clusters_needed.

(** [i] is the offset of one of the slots the scan of line 211 visits. *)
Definition is_slot (dir_data : list Z) (i : Z) : Prop :=
  ∃ k, 0 ≤ k ∧ i = 32 * k ∧ i < len dir_data.

(** [i] is the first slot whose first byte is 0x00 or 0xE5. *)
Definition first_free (dir_data : list Z) (i : Z) : Prop :=
  is_slot dir_data i ∧ slot_free dir_data i = true ∧
  ∀ j, is_slot dir_data j → j < i → slot_free dir_data j = false.

(** No slot is free. *)
Definition no_free (dir_data : list Z) : Prop :=
  ∀ j, is_slot dir_data j → slot_free dir_data j = false.

(** The payload [file_data] sits in the clusters from [fc] on: they are
    allocated, linked into one chain, and hold the padded chunks. *)
Definition file_at (b : Fat32DiskBuilder) (fc : Z) (file_data : list Z) : Prop :=
  let n := clusters_needed (len file_data) in
  0 < len file_data ∧ 3 ≤ fc ∧ fc + n ≤ next_free_cluster b ∧
  linked (fat_table b) fc n ∧
  ∀ i, 0 ≤ i < n → read_cluster (disk_image b) (fc + i) = padded_chunk file_data i.

(** A clock reading whose date a FAT timestamp can hold (1980 to 2107);
    the fields have the ranges of Python's [datetime]. *)
Definition fat_clock (now : datetime) : Prop :=
  1980 ≤ year now ≤ 2107 ∧ 1 ≤ month now ≤ 12 ∧ 1 ≤ day now ≤ 31 ∧
  0 ≤ hour now ≤ 23 ∧ 0 ≤ minute now ≤ 59 ∧ 0 ≤ second now ≤ 59.

(** One later successful insertion. *)
Definition add_step (b b' : Fat32DiskBuilder) : Prop :=
  ∃ now filename file_data, add_file_to_directory now filename file_data b = Ok b'.

End BuildDisk.

(** ** tools/create_disk_fixed.py *)

Module CreateDiskFixed.

Definition BYTES_PER_SECTOR : Z := 512.
Definition SECTORS_PER_CLUSTER : Z := 8.
Definition RESERVED_SECTORS : Z := 32.
Definition NUM_FATS : Z := 2.
Definition BYTES_PER_CLUSTER : Z := SECTORS_PER_CLUSTER * BYTES_PER_SECTOR.

(** The value both [create_boot_sector] and [main] assign to [fat_size]. *)
Definition fat_size : Z := 160.

Section DiskSize.

(** The module constant [DISK_SIZE_MB]; the script sets it to 32. *)
Variable disk_size_mb : Z.

Definition create_boot_sector : result (list Z) :=
  let boot := bytearray 512 in
  let boot := slice_set boot 0 3 [0xEB; 0x58; 0x90] in
  let boot := slice_set boot 3 11 (str "NUMOS1.0") in
  boot ← pack_into 2 boot 11 BYTES_PER_SECTOR;
  boot ← pack_into 1 boot 13 SECTORS_PER_CLUSTER;
  boot ← pack_into 2 boot 14 RESERVED_SECTORS;
  boot ← pack_into 1 boot 16 NUM_FATS;
  boot ← pack_into 2 boot 17 0;
  boot ← pack_into 2 boot 19 0;
  boot ← pack_into 1 boot 21 0xF8;
  boot ← pack_into 2 boot 22 0;
  boot ← pack_into 2 boot 24 63;
  boot ← pack_into 2 boot 26 16;
  boot ← pack_into 4 boot 28 0;
  let total_sectors := (disk_size_mb * 1024 * 1024) / BYTES_PER_SECTOR in
  boot ← pack_into 4 boot 32 total_sectors;
  boot ← pack_into 4 boot 36 fat_size;
  boot ← pack_into 2 boot 40 0;
  boot ← pack_into 2 boot 42 0;
  boot ← pack_into 4 boot 44 2;
  boot ← pack_into 2 boot 48 1;
  boot ← pack_into 2 boot 50 6;
  let boot := slice_set boot 52 64 (bytearray 12) in
  boot ← pack_into 1 boot 64 0x80;
  boot ← pack_into 1 boot 65 0;
  boot ← pack_into 1 boot 66 0x29;
  boot ← pack_into 4 boot 67 0x12345678;
  let boot := slice_set boot 71 82 (str "NUMOS DISK ") in
  let boot := slice_set boot 82 90 (str "FAT32   ") in
  let boot := slice_set boot 510 512 [0x55; 0xAA] in
  Ok boot.

Definition create_fsinfo : result (list Z) :=
  let fsinfo := bytearray 512 in
  fsinfo ← pack_into 4 fsinfo 0 0x41615252;
  fsinfo ← pack_into 4 fsinfo 484 0x61417272;
  fsinfo ← pack_into 4 fsinfo 488 0xFFFFFFFF;
  fsinfo ← pack_into 4 fsinfo 492 2;
  pack_into 4 fsinfo 508 0xAA550000.

(** [create_fat]; [total_sectors] is not used by the body. *)
Definition create_fat (total_sectors fat_size file_size : Z) : result (list Z) :=
  let fat := bytearray (fat_size * BYTES_PER_SECTOR) in
  fat ← pack_into 4 fat 0 0x0FFFFFF8;
  fat ← pack_into 4 fat 4 0x0FFFFFFF;
  fat ← pack_into 4 fat 8 0x0FFFFFFF;
  fat ← pack_into 4 fat 12 0x0FFFFFFF;
  fat ← pack_into 4 fat 16 0x0FFFFFFF;
  fat ← pack_into 4 fat 20 0x0FFFFFFF;
  if 0 <? file_size then
    let clusters_needed := (file_size + BYTES_PER_CLUSTER - 1) / BYTES_PER_CLUSTER in
    for_each (range 0 clusters_needed) (λ i fat,
      let cluster_idx := 6 + i in
      if i =? clusters_needed - 1
      then pack_into 4 fat (cluster_idx * 4) 0x0FFFFFFF
      else pack_into 4 fat (cluster_idx * 4) (cluster_idx + 1)) fat
  else Ok fat.

(** [create_directory_entry]; [attr] is a byte at every call. *)
Definition create_directory_entry (name : list Z) (attr cluster size : Z)
  : result (list Z) :=
  let entry := bytearray 32 in
  name ← encode_ascii (ljust 11 name);
  let entry := slice_set entry 0 11 (slice name 0 11) in
  entry ← setitem entry 11 attr;
  entry ← setitem entry 12 0;
  entry ← setitem entry 13 0;
  let entry := slice_set entry 14 16 [0x00; 0x00] in
  let entry := slice_set entry 16 18 [0x21; 0x00] in
  let entry := slice_set entry 18 20 [0x21; 0x00] in
  entry ← pack_into 2 entry 20 (Z.land (Z.shiftr cluster 16) 0xFFFF);
  let entry := slice_set entry 22 24 [0x00; 0x00] in
  let entry := slice_set entry 24 26 [0x21; 0x00] in
  entry ← pack_into 2 entry 26 (Z.land cluster 0xFFFF);
  pack_into 4 entry 28 size.

Definition DIR_ATTR : Z := 0x10.
Definition FILE_ATTR : Z := 0x20.

Definition create_root_directory : result (list Z) :=
  let cluster := bytearray BYTES_PER_CLUSTER in
  e ← create_directory_entry (str ".          ") DIR_ATTR 2 0;
  let cluster := slice_set cluster 0 32 e in
  e ← create_directory_entry (str "..         ") DIR_ATTR 0 0;
  let cluster := slice_set cluster 32 64 e in
  e ← create_directory_entry (str "INIT       ") DIR_ATTR 3 0;
  let cluster := slice_set cluster 64 96 e in
  e ← create_directory_entry (str "BIN        ") DIR_ATTR 4 0;
  let cluster := slice_set cluster 96 128 e in
  e ← create_directory_entry (str "RUN        ") DIR_ATTR 5 0;
  let cluster := slice_set cluster 128 160 e in
  Ok cluster.

Definition create_init_directory (elf_size : Z) : result (list Z) :=
  let cluster := bytearray BYTES_PER_CLUSTER in
  e ← create_directory_entry (str ".          ") DIR_ATTR 3 0;
  let cluster := slice_set cluster 0 32 e in
  e ← create_directory_entry (str "..         ") DIR_ATTR 2 0;
  let cluster := slice_set cluster 32 64 e in
  if 0 <? elf_size then
    e ← create_directory_entry (str "SHELL      ") FILE_ATTR 6 elf_size;
    Ok (slice_set cluster 64 96 e)
  else Ok cluster.

Definition create_empty_directory (cluster_num : Z) : result (list Z) :=
  let cluster := bytearray BYTES_PER_CLUSTER in
  e ← create_directory_entry (str ".          ") DIR_ATTR cluster_num 0;
  let cluster := slice_set cluster 0 32 e in
  e ← create_directory_entry (str "..         ") DIR_ATTR 2 0;
  let cluster := slice_set cluster 32 64 e in
  Ok cluster.

(** Lines 236-250 of [main]: the ELF file named on the command line, if
    any.  An empty path counts as none; a path that is given and is not a
    file leaves the script with status 1. *)
Definition load_elf (fs : filesystem) (elf_file : option string)
  : result (option (list Z)) :=
  match elf_file with
  | None => Ok None
  | Some EmptyString => Ok None
  | Some path =>
      match fs path with
      | Some elf_data => Ok (Some elf_data)
      | None => Raise (SystemExit 1)
      end
  end.

(** [main] from line 236 on; the result is what was written to the output
    file when the script ends normally. *)
Definition build (fs : filesystem) (elf_file : option string) : result (list Z) :=
  elf_data ← load_elf fs elf_file;
  let elf_size := match elf_data with Some d => len d | None => 0 end in
  let fat_size := fat_size in
  let total_sectors := (disk_size_mb * 1024 * 1024) / BYTES_PER_SECTOR in
  let data_start_sector := RESERVED_SECTORS + NUM_FATS * fat_size in
  boot ← create_boot_sector;
  let f := boot in
  fsinfo ← create_fsinfo;
  let f := f ++ fsinfo in
  f ← for_each (range 2 RESERVED_SECTORS) (λ i f,
         if i =? 6 then backup ← create_boot_sector; Ok (f ++ backup)
         else Ok (f ++ bytearray BYTES_PER_SECTOR)) f;
  fat_data ← create_fat total_sectors fat_size elf_size;
  f ← for_each (range 0 NUM_FATS) (λ _ f, Ok (f ++ fat_data)) f;
  root ← create_root_directory;
  let f := f ++ root in
  init ← create_init_directory elf_size;
  let f := f ++ init in
  bin ← create_empty_directory 4;
  let f := f ++ bin in
  run ← create_empty_directory 5;
  let f := f ++ run in
  let f :=
    match elf_data with
    | Some ((_ :: _) as elf_data) =>
        let clusters_needed := (elf_size + BYTES_PER_CLUSTER - 1) / BYTES_PER_CLUSTER in
        let padded_size := clusters_needed * BYTES_PER_CLUSTER in
        let elf_padded := elf_data ++ bytearray (padded_size - elf_size) in
        f ++ elf_padded
    | _ => f
    end in
  let current_pos := len f in
  let total_size := total_sectors * BYTES_PER_SECTOR in
  let remaining := total_size - current_pos in
  if 0 <? remaining then
    let chunk_size := 1024 * 1024 in
    let chunks := remaining / chunk_size in
    let last_chunk := remaining mod chunk_size in
    let f := f ++ concat (replicate (Z.to_nat chunks) (bytearray chunk_size)) in
    if 0 <? last_chunk then Ok (f ++ bytearray last_chunk) else Ok f
  else Ok f.

End DiskSize.

Definition DISK_SIZE_MB : Z := 32.

Definition main := build DISK_SIZE_MB.

End CreateDiskFixed.

(** * Definitions used by the statements and the proofs *)

Import BuildDisk.

(** The FAT after [initialize_fat]: the three reserved entries, then zeros. *)
Definition initial_fat : list Z :=
  <[2%nat := 0x0FFFFFFF]> (<[1%nat := 0x0FFFFFFF]> (<[0%nat := 0x0FFFFFF8]>
    (replicate (Z.to_nat (sectors_per_fat * sector_size / 4)) 0))).

(** The image a fresh builder holds after [create_filesystem_structure]. *)
Definition fresh_image (mb : Z) (boot fsinfo root_data : list Z) : list Z :=
  slice_set (slice_set (slice_set (bytearray (mb * 1024 * 1024)) 0 512 boot)
               512 1024 fsinfo)
    (cluster_offset 2) (cluster_offset 2 + 4096) root_data.

(** The image has its nominal length [L] unless clusters were allocated
    past it. *)
Definition image_len_inv (L : Z) (b : Fat32DiskBuilder) : Prop :=
  len (disk_image b) = Z.max L (cluster_offset (next_free_cluster b)).

(** The builder a step returned; the empty builder when it raised. *)
Definition unwrap (r : result Fat32DiskBuilder) : Fat32DiskBuilder :=
  match r with Ok b => b | Raise _ => init 0 end.

(** A concrete one-megabyte session, on which the properties below are
    run: a clock reading, the fresh builder, a payload of 5000 bytes, the
    builder after the payload was added, and after the FATs were written. *)
Definition demo_clock : datetime := mk_datetime 2024 5 17 13 45 59.

Definition demo_builder : Fat32DiskBuilder :=
  unwrap (create_filesystem_structure (init 1)).

Definition demo_payload : list Z := replicate 5000 7.

Definition demo_added : Fat32DiskBuilder :=
  unwrap (add_file_to_directory demo_clock (str "shell.elf") demo_payload demo_builder).

Definition demo_written : Fat32DiskBuilder := unwrap (write_fat_tables demo_added).

(** A decidable form of [builder_inv]. *)
Definition builder_inv_b (b : Fat32DiskBuilder) : bool :=
  (len (fat_table b) =? sectors_per_fat * sector_size / 4) &&
  (3 <=? next_free_cluster b) && (next_free_cluster b <=? len (fat_table b)) &&
  (cluster_offset (next_free_cluster b) <=? len (disk_image b)).

(** The bytes a step returned; no bytes when it raised. *)
Definition unwrap_bytes (r : result (list Z)) : list Z :=
  match r with Ok bs => bs | Raise _ => [] end.

(** The fresh root directory, an 8.3 name, and the session's builder after
    an empty file was added. *)
Definition demo_root : list Z := unwrap_bytes root_directory_bytes.

Definition demo_name : list Z := unwrap_bytes (fat_filename_of (str "shell.elf")).

Definition demo_empty : Fat32DiskBuilder :=
  unwrap (add_file_to_directory demo_clock (str "empty.txt") [] demo_builder).

(** Some slot among the first [k + 1] of the root directory is free. *)
Definition free_within (k : Z) (b : Fat32DiskBuilder) : Prop :=
  ∃ i, first_free (root_dir b) i ∧ i ≤ 32 * k.

(** A filesystem with no file, and one with a single file. *)
Definition no_files : filesystem := λ _, None.

Definition single_file (path : string) (data : list Z) : filesystem :=
  λ p, if String.eqb p path then Some data else None.

(** Two more clock readings: one a minute later than [demo_clock], one in
    the same two-second interval. *)
Definition demo_later : datetime := mk_datetime 2024 5 17 13 46 1.

Definition demo_same_stamp : datetime := mk_datetime 2024 5 17 13 45 58.

(** The root directory of a build that found no file on disk: the volume
    label, then CONFIG.TXT and README.TXT stamped [now1] and [now2]. *)
Definition root_after (now1 now2 : datetime) : result (list Z) :=
  root ← root_directory_bytes;
  fn ← fat_filename_of (str "CONFIG.TXT");
  root ← insert_entry now1 fn 3 (len config_data) root;
  fn ← fat_filename_of (str "README.TXT");
  insert_entry now2 fn 4 (len readme_data) root.

(** The byte of a result at one position. *)
Definition byte_at (r : result (list Z)) (i : nat) : option Z :=
  match r with Ok bs => bs !! i | Raise _ => None end.

(** The entry of a cluster in a serialized FAT, when it lies within. *)
Definition serialized_entry (fat : list Z) (c : Z) : option Z :=
  if (0 <=? c) && (4 * c + 4 <=? len fat) then Some (fat_entry_at fat c) else None.

(** The body of the loop of [create_fat], lines 121-126. *)
Definition fat_link (clusters_needed : Z) (i : Z) (fat : list Z) : result (list Z) :=
  let cluster_idx := 6 + i in
  if i =? clusters_needed - 1
  then pack_into 4 fat (cluster_idx * 4) 0x0FFFFFFF
  else pack_into 4 fat (cluster_idx * 4) (cluster_idx + 1).

(** The body of the loop over the reserved sectors, lines 276-282 of
    [create_disk_fixed.py]. *)
Definition reserved_sector (boot_sector : result (list Z)) (i : Z) (f : list Z)
  : result (list Z) :=
  if i =? 6 then backup ← boot_sector; Ok (f ++ backup)
  else Ok (f ++ bytearray CreateDiskFixed.BYTES_PER_SECTOR).

(** The FAT of [create_disk_fixed.py] for an ELF file of 5000 bytes, and
    its one-megabyte image without an ELF file. *)
Definition demo_fat : list Z :=
  unwrap_bytes (CreateDiskFixed.create_fat 2048 CreateDiskFixed.fat_size 5000).

Definition demo_fixed_image : list Z :=
  unwrap_bytes (CreateDiskFixed.build 1 no_files None).

(** The BIOS parameter block a FAT32 reader decodes from a boot sector. *)
Record bpb : Type := mk_bpb {
  bpb_bytes_per_sector : Z;
  bpb_sectors_per_cluster : Z;
  bpb_reserved_sectors : Z;
  bpb_fat_count : Z;
  bpb_total_sectors : Z;
  bpb_sectors_per_fat : Z;
  bpb_root_cluster : Z;
  bpb_fsinfo_sector : Z;
  bpb_backup_sector : Z
}.

Definition read_bpb (boot : list Z) : bpb :=
  {| bpb_bytes_per_sector := le_value (slice boot 11 13);
     bpb_sectors_per_cluster := le_value (slice boot 13 14);
     bpb_reserved_sectors := le_value (slice boot 14 16);
     bpb_fat_count := le_value (slice boot 16 17);
     bpb_total_sectors := le_value (slice boot 32 36);
     bpb_sectors_per_fat := le_value (slice boot 36 40);
     bpb_root_cluster := le_value (slice boot 44 48);
     bpb_fsinfo_sector := le_value (slice boot 48 50);
     bpb_backup_sector := le_value (slice boot 50 52) |}.

(** A large payload: 128 MiB of zeros. *)
Definition demo_huge : list Z := bytearray 134217728.

(** The first [k] slots of a directory cluster are in use and every byte
    behind them is zero. *)
Definition dir_packed (k : Z) (dir_data : list Z) : Prop :=
  len dir_data = bytes_per_cluster ∧ 0 ≤ k ≤ bytes_per_cluster / 32 ∧
  (∀ j, 0 ≤ j < k → slot_free dir_data (32 * j) = false) ∧
  (∀ i, 32 * k ≤ i < len dir_data → dir_data !! Z.to_nat i = Some 0).

(** A decidable form of [dir_packed]. *)
Definition dir_packed_b (k : Z) (dir_data : list Z) : bool :=
  (len dir_data =? bytes_per_cluster) && (0 <=? k) && (k <=? bytes_per_cluster / 32) &&
  forallb (λ j, negb (slot_free dir_data (32 * j))) (seqZ 0 k) &&
  forallb (λ x, x =? 0) (drop (Z.to_nat (32 * k)) dir_data).

(** One successful insertion of a file whose name does not start with the
    NUL character. *)
Definition named_add (b b' : Fat32DiskBuilder) : Prop :=
  ∃ now filename file_data,
    head filename ≠ Some 0 ∧
    add_file_to_directory now filename file_data b = Ok b'.

(** ASCII text without the characters '.' and '/'. *)
Definition plain_ascii (s : list Z) : bool :=
  forallb (λ c, (0 <=? c) && (c <? 128) && negb (c =? 46) && negb (c =? 47)) s.

(** ASCII text without the character '/'. *)
Definition component_ascii (s : list Z) : bool :=
  forallb (λ c, (0 <=? c) && (c <? 128) && negb (c =? 47)) s.

Definition rfind_step (ch : Z) (acc : Z) (ic : Z * Z) : Z :=
  if snd ic =? ch then fst ic else acc.

Definition upper_char (c : Z) : Z := if (97 <=? c) && (c <=? 122) then c - 32 else c.

(** ASCII text. *)
Definition ascii_text (s : list Z) : bool :=
  forallb (λ c, (0 <=? c) && (c <? 128)) s.

(** The attribute byte and the three date words of a directory entry. *)
Definition entry_attr (e : list Z) : option Z := e !! 11%nat.

Definition entry_dates (e : list Z) : list Z :=
  [le_value (slice e 16 18); le_value (slice e 18 20); le_value (slice e 24 26)].

(** The number of clusters [create_fat] chains for a file of [file_size]
    bytes. *)
Definition chained_clusters (file_size : Z) : Z :=
  if 0 <? file_size
  then (file_size + CreateDiskFixed.BYTES_PER_CLUSTER - 1) / CreateDiskFixed.BYTES_PER_CLUSTER
  else 0.

(** The six reserved entries at the head of the FAT. *)
Definition reserved_entries : list Z :=
  le_bytes 4 0x0FFFFFF8 ++ le_bytes 4 0x0FFFFFFF ++ le_bytes 4 0x0FFFFFFF
  ++ le_bytes 4 0x0FFFFFFF ++ le_bytes 4 0x0FFFFFFF ++ le_bytes 4 0x0FFFFFFF.

(** A large ELF size: 100 MiB. *)
Definition demo_elf_size : Z := 104857600.

(** The size of the ELF file [main] loaded, 0 without one. *)
Definition elf_size_of (elf_data : option (list Z)) : Z :=
  match elf_data with Some d => len d | None => 0 end.

(** The ELF clusters as [main] writes them: the data padded with zeros to
    a cluster boundary; nothing for no file or an empty one. *)
Definition elf_clusters (elf_data : option (list Z)) : list Z :=
  match elf_data with
  | Some ((_ :: _) as d) =>
      d ++ bytearray ((len d + CreateDiskFixed.BYTES_PER_CLUSTER - 1)
                      / CreateDiskFixed.BYTES_PER_CLUSTER
                      * CreateDiskFixed.BYTES_PER_CLUSTER - len d)
  | _ => []
  end.

(** Everything [main] writes before it fills the rest of the disk. *)
Definition fixed_body (elf_data : option (list Z))
    (boot fsinfo fat root init bin run : list Z) : list Z :=
  boot ++ fsinfo ++ bytearray 2048 ++ boot ++ bytearray 12800
  ++ fat ++ fat ++ root ++ init ++ bin ++ run ++ elf_clusters elf_data.

(** The whole output file: the body, then zeros up to the nominal size. *)
Definition fixed_layout (mb : Z) (elf_data : option (list Z))
    (boot fsinfo fat root init bin run : list Z) : list Z :=
  let body := fixed_body elf_data boot fsinfo fat root init bin run in
  body ++ bytearray (mb * 1024 * 1024 / CreateDiskFixed.BYTES_PER_SECTOR
                     * CreateDiskFixed.BYTES_PER_SECTOR - len body).

(** The byte offset of a cluster in the image: the data area starts behind
    the reserved sectors and the FAT copies. *)
Definition fixed_cluster_offset (cluster : Z) : Z :=
  (CreateDiskFixed.RESERVED_SECTORS + CreateDiskFixed.NUM_FATS * CreateDiskFixed.fat_size
   + (cluster - 2) * CreateDiskFixed.SECTORS_PER_CLUSTER) * CreateDiskFixed.BYTES_PER_SECTOR.

Definition fixed_read_cluster (image : list Z) (cluster : Z) : list Z :=
  slice image (fixed_cluster_offset cluster)
              (fixed_cluster_offset cluster + CreateDiskFixed.BYTES_PER_CLUSTER).

(** FAT copy [copy] (0 or 1) of an image, as serialized entries. *)
Definition fixed_fat_copy (image : list Z) (copy : Z) : list Z :=
  let start := (CreateDiskFixed.RESERVED_SECTORS + copy * CreateDiskFixed.fat_size)
               * CreateDiskFixed.BYTES_PER_SECTOR in
  slice image start (start + CreateDiskFixed.fat_size * CreateDiskFixed.BYTES_PER_SECTOR).

(** The parts of the image that do not depend on the input. *)
Definition fixed_fsinfo : list Z := unwrap_bytes CreateDiskFixed.create_fsinfo.

Definition fixed_root : list Z := unwrap_bytes CreateDiskFixed.create_root_directory.

Definition fixed_bin : list Z := unwrap_bytes (CreateDiskFixed.create_empty_directory 4).

Definition fixed_run : list Z := unwrap_bytes (CreateDiskFixed.create_empty_directory 5).

Definition fixed_init_empty : list Z :=
  unwrap_bytes (CreateDiskFixed.create_init_directory 0).

(** The file system of one ELF file of 5000 bytes and the image built
    from it. *)
Definition demo_elf_fs : filesystem := single_file "user/shell.elf" demo_payload.

Definition demo_elf_image : list Z :=
  unwrap_bytes (CreateDiskFixed.build 1 demo_elf_fs (Some "user/shell.elf"%string)).

(** An ELF file too long for the FAT of [create_disk_fixed.py]. *)
Definition demo_long_fs : filesystem := single_file "user/shell.elf" demo_huge.

(** The file system of one kernel file of 5000 bytes. *)
Definition demo_kernel_fs : filesystem := single_file "build/kernel.bin" demo_payload.

(** The two sample files [main] adds after the files of the command line. *)
Definition sample_files : list (list Z * list Z) :=
  [(str "CONFIG.TXT", config_data); (str "README.TXT", readme_data)].

(** The kernel, if its path exists, under the name [main] gives it. *)
Definition kernel_file (fs : filesystem) (kernel_path : string) : list (list Z * list Z) :=
  match fs kernel_path with
  | Some file_data => [(str "KERNEL.BIN", file_data)]
  | None => []
  end.

(** The additional files that exist, in the order of the command line,
    under the names [add_file] gives them. *)
Fixpoint existing_files (fs : filesystem) (paths : list string)
  : list (list Z * list Z) :=
  match paths with
  | [] => []
  | p :: paths' =>
      match fs p with
      | Some file_data => (basename (str p), file_data) :: existing_files fs paths'
      | None => existing_files fs paths'
      end
  end.

(** A file whose name does not start with a NUL character. *)
Definition named (item : list Z * list Z) : Prop := head item.1 ≠ Some 0.

(** [b'] is [b] after the files of [items] were inserted one after the
    other, each at some clock reading. *)
Fixpoint inserted (items : list (list Z * list Z)) (b b' : Fat32DiskBuilder) : Prop :=
  match items with
  | [] => b' = b
  | item :: rest =>
      ∃ now b1, add_file_to_directory now item.1 item.2 b = Ok b1 ∧ inserted rest b1 b'
  end.

(** Slot [slot] of the root directory of a builder describes the file
    [name] with the content [file_data], and the clusters hold it. *)
Definition entry_holds (b : Fat32DiskBuilder) (slot : Z) (name file_data : list Z) : Prop :=
  let e := dir_slot (root_dir b) (32 * slot) in
  fat_filename_of name = Ok (slice e 0 11) ∧ entry_size e = len file_data ∧
  (len file_data = 0 → entry_first_cluster e = 0) ∧
  (0 < len file_data → file_at b (entry_first_cluster e) file_data).

(** What a FAT32 reader finds in an image: slot [slot] of the root
    directory carries the 8.3 name of [name] and the size of [file_data];
    an empty file has first cluster 0; otherwise the chain from the first
    cluster of the entry, through either FAT copy, reads back [file_data]
    followed by zeros up to the cluster boundary. *)
Definition holds_file (image : list Z) (slot : Z) (name file_data : list Z) : Prop :=
  let e := dir_slot (read_cluster image root_cluster) (32 * slot) in
  fat_filename_of name = Ok (slice e 0 11) ∧ entry_size e = len file_data ∧
  (len file_data = 0 → entry_first_cluster e = 0) ∧
  (0 < len file_data →
   ∀ copy, copy = 0 ∨ copy = 1 →
     read_chain (disk_entry image copy) image (entry_first_cluster e)
     = Some (file_data
             ++ bytearray (clusters_needed (len file_data) * bytes_per_cluster
                           - len file_data))).

(** The clock readings of a run that does not make attempt [j]. *)
Definition skip_reading (j : nat) (clock : nat → datetime) : nat → datetime :=
  λ i, if (i <? j)%nat then clock i else clock (S i).

(** A kernel of 5000 bytes and one additional file of 3 bytes. *)
Definition demo_two_fs : filesystem :=
  λ p, if String.eqb p "build/kernel.bin" then Some demo_payload
       else if String.eqb p "user/init.rc" then Some [104; 105; 10]
       else None.

(** A file system with one ELF file in a subdirectory, the builder after
    [add_file] stored it, and after the FAT tables were written. *)
Definition demo_shell_fs : filesystem := single_file "build/user/shell.elf" demo_payload.

Definition demo_stored : Fat32DiskBuilder :=
  unwrap (add_file demo_shell_fs demo_clock "build/user/shell.elf" None demo_builder).

Definition demo_stored_written : Fat32DiskBuilder := unwrap (write_fat_tables demo_stored).

(** * Properties *)

Section Slices.

Context {A : Type}.

Implicit Types (a d : list A) (s e : Z) (i : nat).

Lemma len_nonneg a : 0 ≤ len a.
Proof. unfold len. lia. Qed.

Lemma len_app a1 a2 : len (a1 ++ a2) = len a1 + len a2.
Proof. unfold len. rewrite length_app. lia. Qed.

Lemma len_replicate (n : Z) (x : A) : 0 ≤ n → len (replicate (Z.to_nat n) x) = n.
Proof. intros. unfold len. rewrite length_replicate. lia. Qed.

Lemma lookup_slice a s e i :
  slice a s e !! i =
  if decide (i < Z.to_nat (e - s))%nat then a !! (Z.to_nat s + i)%nat else None.
Proof.
  unfold slice. case_decide.
  - rewrite lookup_take_lt by done. apply lookup_drop.
  - apply lookup_take_ge. lia.
Qed.

Lemma lookup_slice_set a s e d i :
  0 ≤ s ≤ e → s ≤ len a →
  slice_set a s e d !! i =
  if decide (i < Z.to_nat s)%nat then a !! i
  else if decide (i < Z.to_nat s + length d)%nat then d !! (i - Z.to_nat s)%nat
  else a !! (Z.to_nat e + (i - Z.to_nat s - length d))%nat.
Proof.
  unfold slice_set, len. intros Hse Hs.
  assert (length (take (Z.to_nat s) a) = Z.to_nat s) as Htake
    by (rewrite length_take; lia).
  rewrite lookup_app, Htake. destruct (decide (i < Z.to_nat s)%nat) as [Hi|Hi].
  - rewrite lookup_take_lt by done.
    destruct (a !! i) eqn:E; [done|]. apply lookup_ge_None in E. lia.
  - assert (take (Z.to_nat s) a !! i = None) as ->
      by (apply lookup_take_ge; lia).
    rewrite lookup_app. case_decide.
    + destruct (d !! (i - Z.to_nat s)%nat) eqn:E; [done|].
      apply lookup_ge_None in E. lia.
    + assert (d !! (i - Z.to_nat s)%nat = None) as ->
        by (apply lookup_ge_None; lia).
      rewrite lookup_drop. f_equal. lia.
Qed.

Lemma len_slice a s e :
  0 ≤ s → len (slice a s e) = Z.max 0 (Z.min e (len a) - s).
Proof. intros. unfold slice, len. rewrite length_take, length_drop. lia. Qed.

Lemma len_slice_set a s e d :
  0 ≤ s ≤ e → s ≤ len a →
  len (slice_set a s e d) = s + len d + Z.max 0 (len a - e).
Proof.
  intros. unfold slice_set, len in *.
  rewrite !length_app, length_take, length_drop. lia.
Qed.

Lemma slice_slice_set_same a s e d :
  0 ≤ s ≤ len a → e = s + len d → slice (slice_set a s e d) s e = d.
Proof.
  intros Hs ->. pose proof (len_nonneg d). unfold len in *.
  apply list_eq; intros i.
  rewrite lookup_slice. case_decide.
  - rewrite lookup_slice_set by (unfold len; lia).
    repeat case_decide; try lia. f_equal; lia.
  - symmetry. apply lookup_ge_None. lia.
Qed.

Lemma slice_slice_set_below a s e d s' e' :
  0 ≤ s' → e' ≤ s → s ≤ e → s ≤ len a →
  slice (slice_set a s e d) s' e' = slice a s' e'.
Proof.
  intros. apply list_eq; intros i. rewrite !lookup_slice.
  case_decide; [|done].
  rewrite lookup_slice_set by lia. case_decide; [done|lia].
Qed.

Lemma slice_slice_set_above a s e d s' e' :
  0 ≤ s ≤ len a → e = s + len d → e ≤ s' →
  slice (slice_set a s e d) s' e' = slice a s' e'.
Proof.
  intros Hs -> Hs'. pose proof (len_nonneg d). unfold len in *.
  apply list_eq; intros i. rewrite !lookup_slice.
  case_decide; [|done].
  rewrite lookup_slice_set by (unfold len; lia).
  repeat case_decide; try lia. f_equal; lia.
Qed.

Lemma slice_all a : slice a 0 (len a) = a.
Proof. unfold slice, len. rewrite Z.sub_0_r, Nat2Z.id. simpl. apply take_ge. done. Qed.

End Slices.

Lemma bind_Ok {A B} (f : A → result B) (x : A) : (Ok x ≫= f) = f x.
Proof. reflexivity. Qed.

Lemma bind_Raise {A B} (f : A → result B) (e : exn) : (Raise e ≫= f) = Raise e.
Proof. reflexivity. Qed.

(** One step through a bind whose computation has been case-split: by
    rewriting, so that the kernel never compares the two continuations. *)
Ltac bind_step :=
  first [ rewrite bind_Ok; cbv beta iota
        | rewrite bind_Raise; let H := fresh in intros H; discriminate H ].

(** Indexing *)
Lemma py_index_nonneg n i :
  0 ≤ i → py_index n i = if decide (i < n) then Some (Z.to_nat i) else None.
Proof.
  intros. unfold py_index.
  destruct (Z.leb_spec 0 i); [|lia]. destruct (Z.ltb_spec i n); simpl.
  - by rewrite decide_True.
  - rewrite decide_False by lia.
    destruct (Z.ltb_spec i 0); [lia|]. by rewrite andb_false_r.
Qed.

Lemma setitem_Ok a i x a' :
  0 ≤ i → setitem a i x = Ok a' ↔ i < len a ∧ a' = <[Z.to_nat i := x]> a.
Proof.
  intros. unfold setitem. rewrite py_index_nonneg by done.
  case_decide; split; try naive_solver.
Qed.

Lemma setitem_ok a i x :
  0 ≤ i < len a → setitem a i x = Ok (<[Z.to_nat i := x]> a).
Proof. intros. apply setitem_Ok; [lia|]. split; [lia|done]. Qed.

Lemma setitem_Raise a i x e : setitem a i x = Raise e → e = IndexError.
Proof. unfold setitem. destruct (py_index _ _); congruence. Qed.

Lemma getitem_ok a i x :
  0 ≤ i → a !! Z.to_nat i = Some x → getitem a i = Ok x.
Proof.
  intros ? Hx. unfold getitem. rewrite py_index_nonneg by done.
  apply lookup_lt_Some in Hx as Hlt. rewrite decide_True by (unfold len; lia).
  by rewrite Hx.
Qed.

Lemma getitem_Raise a i e : getitem a i = Raise e → e = IndexError.
Proof.
  unfold getitem. destruct (py_index _ _); [|congruence].
  destruct (_ !! _); congruence.
Qed.

(** Packing *)
Lemma length_le_bytes n v : length (le_bytes n v) = n.
Proof. revert v; induction n; intros; simpl; auto. Qed.

Lemma le_value_le_bytes n v :
  0 ≤ v < 2 ^ (8 * Z.of_nat n) → le_value (le_bytes n v) = v.
Proof.
  revert v; induction n as [|n IH]; intros v Hv.
  - simpl in *. lia.
  - cbn [le_bytes le_value].
    replace (8 * Z.of_nat (S n)) with (8 + 8 * Z.of_nat n) in Hv by lia.
    rewrite Z.pow_add_r in Hv by lia. change (2 ^ 8) with 256 in Hv.
    rewrite IH.
    + pose proof (Z.div_mod v 256). lia.
    + split; [apply Z.div_pos; lia|]. apply Z.div_lt_upper_bound; lia.
Qed.

Lemma pack_Ok n v bs :
  pack n v = Ok bs ↔ 0 ≤ v < 2 ^ (8 * Z.of_nat n) ∧ bs = le_bytes n v.
Proof.
  unfold pack. destruct (Z.leb_spec 0 v), (Z.ltb_spec v (2 ^ (8 * Z.of_nat n)));
    simpl; split; try naive_solver; try lia.
Qed.

Lemma pack_Raise n v e : pack n v = Raise e → e = StructError.
Proof. unfold pack. case_match; congruence. Qed.

Lemma pack_into_ok n buf offset v :
  0 ≤ v < 2 ^ (8 * Z.of_nat n) → 0 ≤ offset → offset + Z.of_nat n ≤ len buf →
  pack_into n buf offset v
  = Ok (slice_set buf offset (offset + Z.of_nat n) (le_bytes n v)).
Proof.
  intros Hv ? ?. unfold pack_into.
  assert (pack n v = Ok (le_bytes n v)) as -> by (by apply pack_Ok).
  simpl. destruct (Z.leb_spec 0 offset); [|lia].
  destruct (Z.leb_spec (offset + Z.of_nat n) (len buf)); [done|lia].
Qed.

Lemma pack_into_Ok n buf offset v buf' :
  pack_into n buf offset v = Ok buf' →
  0 ≤ v < 2 ^ (8 * Z.of_nat n) ∧ 0 ≤ offset ∧ offset + Z.of_nat n ≤ len buf ∧
  buf' = slice_set buf offset (offset + Z.of_nat n) (le_bytes n v).
Proof.
  unfold pack_into. destruct (pack n v) as [bs|] eqn:Hp; [|done].
  apply pack_Ok in Hp as [? ->]. simpl.
  destruct (Z.leb_spec 0 offset), (Z.leb_spec (offset + Z.of_nat n) (len buf));
    simpl; naive_solver.
Qed.

Lemma pack_into_Raise n buf offset v e :
  pack_into n buf offset v = Raise e → e = StructError.
Proof.
  unfold pack_into. destruct (pack n v) eqn:Hp; simpl.
  - case_match; congruence.
  - intros [= <-]. by eapply pack_Raise.
Qed.

Lemma len_pack_into n buf offset v buf' :
  pack_into n buf offset v = Ok buf' → len buf' = len buf.
Proof.
  intros (? & ? & ? & ->)%pack_into_Ok.
  rewrite len_slice_set by lia. unfold len at 1. rewrite length_le_bytes. lia.
Qed.

(** Ranges *)
Lemma len_range lo hi : lo ≤ hi → len (range lo hi) = hi - lo.
Proof. intros. unfold len, range. rewrite length_seqZ. lia. Qed.

Lemma range_snoc lo hi : lo ≤ hi → range lo (hi + 1) = range lo hi ++ [hi].
Proof.
  intros. unfold range.
  replace (hi + 1 - lo) with (Z.of_nat (S (Z.to_nat (hi - lo)))) by lia.
  rewrite seqZ_S. rewrite Z2Nat.id by lia. do 2 f_equal. lia.
Qed.

Lemma range_empty lo hi : hi ≤ lo → range lo hi = [].
Proof. intros. unfold range. apply seqZ_nil. lia. Qed.

Lemma allocate_cluster_Ok b c b' :
  0 ≤ next_free_cluster b →
  allocate_cluster b = Ok (c, b') ↔
  c = next_free_cluster b ∧ c < len (fat_table b) ∧
  b' = mk_builder (size_mb b) (disk_image b)
         (<[Z.to_nat c := 0x0FFFFFFF]> (fat_table b)) (c + 1).
Proof.
  intros Hc. unfold allocate_cluster.
  destruct (setitem _ _ _) as [fat|] eqn:Hs; simpl.
  - apply setitem_Ok in Hs as [? ->]; [|done].
    unfold set_next_free_cluster, set_fat_table; simpl. naive_solver.
  - split; [done|]. intros (-> & ? & _).
    rewrite setitem_ok in Hs by lia. done.
Qed.

Lemma link_loop xs : ∀ c b c' b',
  0 ≤ c → next_free_cluster b = c + 1 →
  fat_table b !! Z.to_nat c = Some 0x0FFFFFFF →
  for_each xs (λ _ : Z, link_next) (c, b) = Ok (c', b') →
  c' = c + len xs ∧ next_free_cluster b' = c' + 1 ∧ c' < len (fat_table b) ∧
  size_mb b' = size_mb b ∧ disk_image b' = disk_image b ∧
  linked (fat_table b') c (len xs + 1) ∧
  same_outside (fat_table b) (fat_table b') c (c' + 1).
Proof.
  induction xs as [|x xs IH]; intros c b c' b' Hc Hn Hfat; simpl.
  - intros [= <- <-]. change (len []) with 0.
    apply lookup_lt_Some in Hfat as Hlt. unfold len.
    repeat split; try done; try lia.
    by replace (c + (0 + 1) - 1) with c by lia.
  - unfold link_next at 1.
    destruct (allocate_cluster b) as [[next b1]|] eqn:Ha; simpl; [|done].
    apply allocate_cluster_Ok in Ha as (-> & Hlt & ->); [|lia]. simpl.
    rewrite Hn in *.
    rewrite setitem_ok; simpl.
    2:{ unfold len in *. rewrite length_insert.
        apply lookup_lt_Some in Hfat. lia. }
    intros Hloop. apply IH in Hloop as (-> & Hn' & Hlt' & Hs & Hd & [Hl1 Hl2] & [Hlen Hout]);
      simpl; try lia.
    2:{ rewrite list_lookup_insert_ne by lia.
        apply list_lookup_insert_eq. unfold len in Hlt. lia. }
    simpl in *. unfold len in *. rewrite !length_insert in *.
    assert (Z.of_nat (length (x :: xs)) = Z.of_nat (length xs) + 1) as Hcons
      by (simpl; lia).
    rewrite Hcons.
    repeat split; try done; try lia.
    + intros i Hi. destruct (decide (i = 0)) as [->|].
      * rewrite Hout by lia.
        replace (c + 0) with c by lia.
        rewrite list_lookup_insert_eq; [done|].
        rewrite length_insert. apply lookup_lt_Some in Hfat. lia.
      * replace (c + i) with (c + 1 + (i - 1)) by lia.
        rewrite Hl1 by lia. done.
    + rewrite <- Hl2. f_equal. lia.
    + intros k Hk Hor. rewrite Hout by lia.
      rewrite !list_lookup_insert_ne by lia. done.
Qed.

Lemma link_loop_ok xs : ∀ c b,
  0 ≤ c → next_free_cluster b = c + 1 →
  c + len xs < len (fat_table b) →
  ∃ b', for_each xs (λ _ : Z, link_next) (c, b) = Ok (c + len xs, b').
Proof.
  induction xs as [|x xs IH]; intros c b Hc Hn Hlt; simpl.
  - exists b. change (len []) with 0. by rewrite Z.add_0_r.
  - assert (len (x :: xs) = len xs + 1) as Hcons by (unfold len; simpl; lia).
    rewrite Hcons in *. pose proof (len_nonneg xs).
    unfold link_next at 1, allocate_cluster. rewrite Hn.
    rewrite setitem_ok by lia. simpl.
    rewrite setitem_ok; simpl.
    2:{ unfold len in *. rewrite length_insert. lia. }
    edestruct (IH (c + 1)) as [b' Hb']; last first.
    { exists b'. rewrite Hb'. do 2 f_equal. lia. }
    all: simpl; unfold len in *; rewrite ?length_insert; lia.
Qed.

Lemma allocate_chain_Ok S n b fc b' :
  0 < S → 1 ≤ n → 0 ≤ next_free_cluster b →
  allocate_chain S n b = Ok (fc, b') →
  fc = next_free_cluster b ∧ next_free_cluster b' = fc + n ∧
  fc + n ≤ len (fat_table b) ∧
  size_mb b' = size_mb b ∧ disk_image b' = disk_image b ∧
  linked (fat_table b') fc n ∧
  same_outside (fat_table b) (fat_table b') fc (fc + n).
Proof.
  intros HS Hn Hc. unfold allocate_chain.
  destruct (Z.ltb_spec 0 S); [|lia].
  destruct (allocate_cluster b) as [[c b1]|] eqn:Ha; simpl; [|done].
  apply allocate_cluster_Ok in Ha as (-> & Hlt & ->); [|done].
  destruct (for_each _ _ _) as [[c' b2]|] eqn:Hloop; simpl; [|done].
  intros ?; simplify_eq.
  apply link_loop in Hloop as (-> & Hn' & Hlt' & Hs & Hd & Hl & [Hlen Hout]);
    simpl; try done.
  2:{ apply list_lookup_insert_eq. unfold len in Hlt. lia. }
  simpl in *. rewrite len_range in * by lia.
  unfold len in *. rewrite length_insert in *.
  replace (n - 1 + 1) with n in Hl by lia. destruct Hl as [Hl1 Hl2].
  repeat split; try done; try lia.
  intros k ? ?. rewrite Hout by lia. apply list_lookup_insert_ne. lia.
Qed.

Lemma allocate_chain_ok S n b :
  0 < S → 1 ≤ n → 0 ≤ next_free_cluster b →
  next_free_cluster b + n ≤ len (fat_table b) →
  ∃ b', allocate_chain S n b = Ok (next_free_cluster b, b').
Proof.
  intros HS Hn Hc Hlt. unfold allocate_chain.
  destruct (Z.ltb_spec 0 S); [|lia].
  unfold allocate_cluster. rewrite setitem_ok by lia. simpl.
  edestruct (link_loop_ok (range 1 n)) as [b' Hb']; last first.
  { rewrite Hb'. simpl. by eexists. }
  all: simpl; rewrite ?len_range by lia; unfold len in *;
    rewrite ?length_insert; lia.
Qed.

Lemma allocate_chain_empty S n b :
  S ≤ 0 → allocate_chain S n b = Ok (0, b).
Proof. intros. unfold allocate_chain. destruct (Z.ltb_spec 0 S); [lia|done]. Qed.

(** Following a linked chain *)
Lemma follow_chain_linked (m : nat) : ∀ fuel entry c e,
  (m < fuel)%nat →
  (∀ i, 0 ≤ i < Z.of_nat m → entry (c + i) = Some (c + i + 1)) →
  c + Z.of_nat m < EOC_MIN →
  entry (c + Z.of_nat m) = Some e → EOC_MIN ≤ e →
  follow_chain fuel entry c = Some (seqZ c (Z.of_nat m + 1)).
Proof.
  induction m as [|m IH]; intros fuel entry c e Hfuel Hlink Hsmall Hlast He;
    (destruct fuel as [|fuel]; [lia|]); simpl.
  - replace (c + Z.of_nat 0) with c in Hlast by lia. rewrite Hlast.
    destruct (Z.leb_spec EOC_MIN e); [done|lia].
  - rewrite <- (Z.add_0_r c) at 1. rewrite Hlink by lia.
    replace (c + 0 + 1) with (c + 1) by lia.
    destruct (Z.leb_spec EOC_MIN (c + 1)); [lia|].
    rewrite (IH fuel entry (c + 1) e); try lia.
    + simpl. rewrite (seqZ_cons c) by lia. do 3 f_equal; lia.
    + intros i Hi. replace (c + 1 + i) with (c + (i + 1)) by lia.
      rewrite Hlink by lia. f_equal; lia.
    + rewrite <- Hlast. f_equal; lia.
Qed.

Lemma chain_of_linked fat fc n :
  0 ≤ fc → 1 ≤ n → fc + n ≤ len fat →
  len fat = sectors_per_fat * sector_size / 4 →
  linked fat fc n →
  chain_of (table_entry fat) fc = Some (seqZ fc n).
Proof.
  intros Hfc Hn Hle Hlen [Hl1 Hl2]. unfold chain_of.
  change (sectors_per_fat * sector_size / 4) with 32768 in *.
  rewrite (follow_chain_linked (Z.to_nat (n - 1)) _ _ fc 0x0FFFFFFF).
  - f_equal. f_equal. lia.
  - lia.
  - intros i Hi. unfold table_entry.
    destruct (Z.leb_spec 0 (fc + i)); [|lia]. apply Hl1. lia.
  - unfold EOC_MIN. lia.
  - unfold table_entry.
    destruct (Z.leb_spec 0 (fc + Z.of_nat (Z.to_nat (n - 1)))); [|lia].
    rewrite <- Hl2. do 2 f_equal. lia.
  - unfold EOC_MIN. lia.
Qed.

Lemma slice_app_adjacent {A} (l : list A) a b c :
  0 ≤ a ≤ b → b ≤ c → slice l a b ++ slice l b c = slice l a c.
Proof.
  intros. unfold slice.
  replace (Z.to_nat b) with (Z.to_nat a + Z.to_nat (b - a))%nat by lia.
  rewrite <- drop_drop, take_take_drop. f_equal. lia.
Qed.

Lemma slice_to_end {A} (l : list A) a e :
  0 ≤ a → len l ≤ e → slice l a e = drop (Z.to_nat a) l.
Proof.
  intros. unfold slice, len in *. apply take_ge. rewrite length_drop. lia.
Qed.

Lemma slice_from_0 {A} (l : list A) e : slice l 0 e = take (Z.to_nat e) l.
Proof. unfold slice. by rewrite Z.sub_0_r. Qed.

Lemma len_bytearray n : 0 ≤ n → len (bytearray n) = n.
Proof. apply len_replicate. Qed.

Lemma bytearray_nonpos n : n ≤ 0 → bytearray n = [].
Proof. intros. unfold bytearray. by replace (Z.to_nat n) with 0%nat by lia. Qed.

Lemma cluster_offset_eq c : cluster_offset c = 4096 * c + 270336.
Proof.
  unfold cluster_offset, cluster_to_sector, data_start_sector, fat_start_sector,
    reserved_sectors, fat_count, sectors_per_fat, sectors_per_cluster, sector_size.
  lia.
Qed.

Lemma bytes_per_cluster_eq : bytes_per_cluster = 4096.
Proof. reflexivity. Qed.

Lemma clusters_needed_bounds S :
  (clusters_needed S - 1) * 4096 < S ≤ clusters_needed S * 4096.
Proof.
  unfold clusters_needed. rewrite bytes_per_cluster_eq.
  pose proof (Z.div_mod (S + 4096 - 1) 4096).
  pose proof (Z.mod_pos_bound (S + 4096 - 1) 4096). lia.
Qed.

Lemma len_padded_chunk data i : 0 ≤ i → len (padded_chunk data i) = 4096.
Proof.
  intros. unfold padded_chunk. rewrite bytes_per_cluster_eq.
  rewrite len_app, len_bytearray; [lia|].
  rewrite len_slice by lia. lia.
Qed.

Lemma padded_chunk_full data i :
  0 ≤ i → (i + 1) * 4096 ≤ len data →
  padded_chunk data i = slice data (i * 4096) ((i + 1) * 4096).
Proof.
  intros. unfold padded_chunk. rewrite bytes_per_cluster_eq.
  rewrite Z.min_l by lia. rewrite bytearray_nonpos, app_nil_r; [done|].
  rewrite len_slice by lia. lia.
Qed.

Lemma padded_chunk_last data i :
  0 ≤ i → i * 4096 ≤ len data ≤ (i + 1) * 4096 →
  padded_chunk data i
  = drop (Z.to_nat (i * 4096)) data ++ bytearray ((i + 1) * 4096 - len data).
Proof.
  intros. unfold padded_chunk. rewrite bytes_per_cluster_eq.
  rewrite Z.min_r by lia. rewrite slice_to_end by lia.
  do 2 f_equal. unfold len. rewrite length_drop. unfold len in *. lia.
Qed.

Lemma concat_full_chunks data (k : nat) :
  Z.of_nat k * 4096 ≤ len data →
  concat (padded_chunk data <$> seqZ 0 (Z.of_nat k))
  = take (Z.to_nat (Z.of_nat k * 4096)) data.
Proof.
  induction k as [|k IH]; intros Hk.
  - done.
  - rewrite seqZ_S, fmap_app, concat_app, IH by lia. simpl.
    rewrite app_nil_r, padded_chunk_full by lia.
    rewrite <- slice_from_0, slice_app_adjacent by lia.
    rewrite slice_from_0. f_equal. lia.
Qed.

(** The padded chunks of a payload, in order, are the payload and then
    zeros up to the cluster boundary. *)
Lemma concat_padded_chunks data :
  0 < len data →
  concat (padded_chunk data <$> seqZ 0 (clusters_needed (len data)))
  = data ++ bytearray (clusters_needed (len data) * 4096 - len data).
Proof.
  intros Hpos. pose proof (clusters_needed_bounds (len data)) as Hb.
  set (n := clusters_needed (len data)) in *.
  replace n with (Z.of_nat (S (Z.to_nat (n - 1)))) at 1 by lia.
  rewrite seqZ_S, fmap_app, concat_app, concat_full_chunks by lia. simpl.
  rewrite app_nil_r, padded_chunk_last by lia.
  rewrite Z2Nat.id by lia. rewrite app_assoc, take_drop.
  do 2 f_equal. lia.
Qed.

Lemma write_file_data_S data fc (m : nat) image :
  write_file_data data fc (Z.of_nat (S m)) image
  = write_chunk data fc (Z.of_nat m) (write_file_data data fc (Z.of_nat m) image).
Proof.
  unfold write_file_data.
  replace (Z.of_nat (S m)) with (Z.of_nat m + 1) by lia.
  rewrite range_snoc by lia. by rewrite fold_left_app.
Qed.

Lemma write_file_data_spec data fc (m : nat) image :
  0 ≤ cluster_offset fc ≤ len image →
  let image' := write_file_data data fc (Z.of_nat m) image in
  len image' = Z.max (len image) (cluster_offset (fc + Z.of_nat m)) ∧
  (∀ i, 0 ≤ i < Z.of_nat m → read_cluster image' (fc + i) = padded_chunk data i) ∧
  (∀ s e, 0 ≤ s → e ≤ cluster_offset fc → slice image' s e = slice image s e).
Proof.
  intros Hfc. induction m as [|m (IHlen & IHread & IHlow)]; cbv zeta.
  - unfold write_file_data. rewrite range_empty by lia. simpl.
    rewrite Z.add_0_r. split; [lia|]. split; [intros; lia|done].
  - rewrite write_file_data_S.
    set (img1 := write_file_data data fc (Z.of_nat m) image) in *.
    cbv zeta in IHlen, IHread, IHlow.
    unfold write_chunk. fold (cluster_offset (fc + Z.of_nat m)).
    rewrite bytes_per_cluster_eq.
    rewrite !cluster_offset_eq in *.
    assert (len (padded_chunk data (Z.of_nat m)) = 4096) as Hchunk
      by (apply len_padded_chunk; lia).
    split; [|split].
    + rewrite len_slice_set by lia. lia.
    + intros i Hi. unfold read_cluster.
      rewrite bytes_per_cluster_eq, !cluster_offset_eq.
      destruct (decide (i = Z.of_nat m)) as [->|].
      * apply slice_slice_set_same; lia.
      * rewrite slice_slice_set_below by lia.
        specialize (IHread i). unfold read_cluster in IHread.
        rewrite bytes_per_cluster_eq, !cluster_offset_eq in IHread.
        apply IHread. lia.
    + intros s e Hs He. rewrite slice_slice_set_below by lia.
      apply IHlow; lia.
Qed.

Lemma slice_insert_outside {A} (l : list A) k x s e :
  0 ≤ s → 0 ≤ k → e ≤ k ∨ k < s →
  slice (<[Z.to_nat k := x]> l) s e = slice l s e.
Proof.
  intros. apply list_eq; intros i. rewrite !lookup_slice.
  case_decide; [|done]. apply list_lookup_insert_ne. lia.
Qed.

Lemma slice_slice {A} (a : list A) s e s' e' :
  0 ≤ s → 0 ≤ s' → s + e' ≤ e →
  slice (slice a s e) s' e' = slice a (s + s') (s + e').
Proof.
  intros. apply list_eq; intros i. rewrite !lookup_slice.
  case_decide.
  - rewrite decide_True by lia. rewrite decide_True by lia. f_equal. lia.
  - by rewrite decide_False by lia.
Qed.

Lemma slice_bytearray n s e :
  0 ≤ s ≤ e → e ≤ n → slice (bytearray n) s e = bytearray (e - s).
Proof.
  intros. unfold slice, bytearray.
  rewrite drop_replicate, take_replicate. f_equal. lia.
Qed.

(** From here on slices are used through their lemmas only. *)
Lemma bytearray_add a b :
  0 ≤ a → 0 ≤ b → bytearray (a + b) = bytearray a ++ bytearray b.
Proof.
  intros. unfold bytearray. rewrite Z2Nat.inj_add by lia. apply replicate_add.
Qed.

Lemma slice_app_l {A} (a b : list A) s e :
  0 ≤ s → e ≤ len a → slice (a ++ b) s e = slice a s e.
Proof.
  intros. apply list_eq; intros i. rewrite !lookup_slice.
  case_decide; [|done]. unfold len in *. apply lookup_app_l. lia.
Qed.

Lemma slice_app_r {A} (a b : list A) s e :
  len a ≤ s → slice (a ++ b) s e = slice b (s - len a) (e - len a).
Proof.
  intros. pose proof (len_nonneg a). apply list_eq; intros i. rewrite !lookup_slice.
  replace (e - len a - (s - len a)) with (e - s) by lia.
  case_decide; [|done]. unfold len in *. rewrite lookup_app_r by lia.
  f_equal. lia.
Qed.

#[global] Opaque slice slice_set bytearray.

Lemma find_seqZ (P : Z → bool) (f : Z → Z) (m : nat) : ∀ lo,
  match find P (f <$> seqZ lo (Z.of_nat m)) with
  | Some x => ∃ k, lo ≤ k < lo + Z.of_nat m ∧ x = f k ∧ P (f k) = true ∧
                   ∀ j, lo ≤ j < k → P (f j) = false
  | None => ∀ j, lo ≤ j < lo + Z.of_nat m → P (f j) = false
  end.
Proof.
  induction m as [|m IH]; intros lo.
  - simpl. intros; lia.
  - rewrite seqZ_cons by lia. simpl.
    replace (Z.pred (Z.of_nat (S m))) with (Z.of_nat m) by lia.
    destruct (P (f lo)) eqn:Hlo.
    + exists lo. repeat split; try done; try lia.
    + specialize (IH (Z.succ lo)). destruct (find _ _) as [x|].
      * destruct IH as (k & Hk & -> & HP & Hbefore). exists k.
        repeat split; try done; try lia.
        intros j Hj. destruct (decide (j = lo)) as [->|]; [done|].
        apply Hbefore. lia.
      * intros j Hj. destruct (decide (j = lo)) as [->|]; [done|].
        apply IH. lia.
Qed.

Lemma is_slot_range dir_data j :
  is_slot dir_data j ↔
  ∃ k, 0 ≤ k < (len dir_data + 32 - 1) / 32 ∧ j = k * 32.
Proof.
  pose proof (Z.div_mod (len dir_data + 32 - 1) 32).
  pose proof (Z.mod_pos_bound (len dir_data + 32 - 1) 32).
  split.
  - intros (k & ? & -> & ?). exists k. split; lia.
  - intros (k & ? & ->). exists k. repeat split; lia.
Qed.

Lemma find_free_slot_Some dir_data i :
  find_free_slot dir_data = Some i ↔ first_free dir_data i.
Proof.
  unfold find_free_slot, range_step.
  pose proof (len_nonneg dir_data).
  assert (0 ≤ (len dir_data + 32 - 1) / 32) as Hnn
    by (apply Z.div_pos; lia).
  pose proof (find_seqZ (slot_free dir_data) (λ k, k * 32)
                (Z.to_nat ((len dir_data + 32 - 1) / 32)) 0) as Hfind.
  rewrite Z2Nat.id in Hfind by done.
  destruct (find _ _) as [x|].
  - destruct Hfind as (k & Hk & -> & HP & Hbefore).
    assert (first_free dir_data (k * 32)) as Hff.
    { split; [apply is_slot_range; exists k; split; [lia|done]|].
      split; [done|]. intros j (k' & ? & ->)%is_slot_range ?.
      apply Hbefore. lia. }
    split; [by intros [= <-]|].
    intros (Hs & Hfree & Hfirst). f_equal.
    destruct Hff as (Hs' & Hfree' & Hfirst').
    destruct (Z.lt_trichotomy (k * 32) i) as [Hlt|[?|Hlt]]; [|done|].
    + rewrite (Hfirst _ Hs' Hlt) in Hfree'. done.
    + rewrite (Hfirst' _ Hs Hlt) in Hfree. done.
  - split; [done|]. intros (Hs & Hfree & _).
    apply is_slot_range in Hs as (k & ? & ->).
    rewrite Hfind in Hfree by lia. done.
Qed.

Lemma find_free_slot_None dir_data :
  find_free_slot dir_data = None ↔ no_free dir_data.
Proof.
  split.
  - intros Hnone j Hj. destruct (slot_free dir_data j) eqn:Hfree; [|done].
    exfalso.
    (* some slot is free, so the scan finds a first one *)
    unfold find_free_slot, range_step in Hnone.
    pose proof (len_nonneg dir_data).
    assert (0 ≤ (len dir_data + 32 - 1) / 32) as Hnn
      by (apply Z.div_pos; lia).
    pose proof (find_seqZ (slot_free dir_data) (λ k, k * 32)
                  (Z.to_nat ((len dir_data + 32 - 1) / 32)) 0) as Hfind.
    rewrite Z2Nat.id in Hfind by done. rewrite Hnone in Hfind.
    apply is_slot_range in Hj as (k & ? & ->).
    rewrite Hfind in Hfree by lia. done.
  - intros Hno. destruct (find_free_slot dir_data) as [i|] eqn:Hfind; [|done].
    apply find_free_slot_Some in Hfind as (Hs & Hfree & _).
    rewrite (Hno _ Hs) in Hfree. done.
Qed.

Lemma lor_bound a b n :
  0 < n → 0 ≤ a < 2 ^ n → 0 ≤ b < 2 ^ n → 0 ≤ Z.lor a b < 2 ^ n.
Proof.
  intros Hn Ha Hb.
  assert (0 ≤ Z.lor a b) as Hnn by (apply Z.lor_nonneg; lia).
  split; [done|].
  destruct (decide (Z.lor a b = 0)) as [->|Hne]; [lia|].
  apply Z.log2_lt_pow2; [lia|]. rewrite Z.log2_lor by lia.
  apply Z.max_lub_lt.
  - destruct (decide (a = 0)) as [->|]; [simpl; lia|].
    apply Z.log2_lt_pow2; lia.
  - destruct (decide (b = 0)) as [->|]; [simpl; lia|].
    apply Z.log2_lt_pow2; lia.
Qed.

Lemma time_val_bound now : fat_clock now → 0 ≤ time_val now < 2 ^ 16.
Proof.
  intros (_ & _ & _ & Hh & Hm & Hs). unfold time_val.
  rewrite !Z.shiftl_mul_pow2 by lia.
  change (2 ^ 11) with 2048. change (2 ^ 5) with 32.
  pose proof (Z.div_mod (second now) 2).
  pose proof (Z.mod_pos_bound (second now) 2).
  repeat apply lor_bound; lia.
Qed.

Lemma date_val_bound now : fat_clock now → 0 ≤ date_val now < 2 ^ 16.
Proof.
  intros (Hy & Hm & Hd & _). unfold date_val.
  rewrite !Z.shiftl_mul_pow2 by lia.
  change (2 ^ 9) with 512. change (2 ^ 5) with 32.
  repeat apply lor_bound; lia.
Qed.

Lemma cluster_halves fc :
  0 ≤ fc →
  Z.shiftr fc 16 * 65536 + Z.land fc 0xFFFF = fc.
Proof.
  intros. rewrite Z.shiftr_div_pow2 by lia.
  change 0xFFFF with (Z.ones 16). rewrite Z.land_ones by lia.
  change (2 ^ 16) with 65536. pose proof (Z.div_mod fc 65536). lia.
Qed.

Lemma cluster_halves_bound fc :
  0 ≤ fc < 2 ^ 32 →
  0 ≤ Z.shiftr fc 16 < 2 ^ 16 ∧ 0 ≤ Z.land fc 0xFFFF < 2 ^ 16.
Proof.
  intros. rewrite Z.shiftr_div_pow2 by lia.
  change 0xFFFF with (Z.ones 16). rewrite Z.land_ones by lia.
  change (2 ^ 16) with 65536. change (2 ^ 32) with 4294967296 in *.
  pose proof (Z.div_mod fc 65536). pose proof (Z.mod_pos_bound fc 65536).
  lia.
Qed.

Lemma len_setitem a i x a' : setitem a i x = Ok a' → len a' = len a.
Proof.
  unfold setitem. destruct (py_index _ _); [|done]. intros [= <-].
  unfold len. by rewrite length_insert.
Qed.

(** The named pieces of a directory entry that [make_entry] returned. *)
Lemma make_entry_Ok now fn fc S e :
  length fn = 11%nat →
  make_entry now fn fc S = Ok e →
  len e = 32 ∧ slice e 0 11 = fn ∧
  slice e 20 22 = le_bytes 2 (Z.shiftr fc 16) ∧
  slice e 26 28 = le_bytes 2 (Z.land fc 0xFFFF) ∧
  slice e 28 32 = le_bytes 4 S ∧
  0 ≤ Z.shiftr fc 16 < 2 ^ 16 ∧ 0 ≤ S < 2 ^ 32.
Proof.
  intros Hfn. unfold make_entry.
  remember (slice_set (bytearray 32) 0 11 fn) as e0 eqn:He0.
  assert (len e0 = 32) as Hl0.
  { subst e0. rewrite len_slice_set; rewrite ?len_bytearray; unfold len; lia. }
  assert (slice e0 0 11 = fn) as Hs0.
  { subst e0. apply slice_slice_set_same; rewrite ?len_bytearray; unfold len; lia. }
  clear He0.
  destruct (setitem e0 11 32) as [e1|] eqn:H1; simpl; [|done].
  pose proof (len_setitem _ _ _ _ H1) as Hl1.
  apply setitem_Ok in H1 as [_ He1]; [|lia].
  assert (slice e1 0 11 = fn) as Hs1.
  { rewrite <- Hs0, He1. change 11 with (Z.of_nat 11) at 2.
    apply slice_insert_outside; lia. }
  clear He1.
  repeat match goal with
  | |- context [pack_into ?n ?buf ?off ?v] =>
      let H := fresh "Hp" in let e' := fresh "e" in
      destruct (pack_into n buf off v) as [e'|] eqn:H; simpl; [|done];
      pose proof (len_pack_into _ _ _ _ _ H);
      apply pack_into_Ok in H as (? & _ & _ & H)
  end.
  intros [= <-]. subst.
  repeat split; try lia.
  - rewrite !slice_slice_set_below by lia. done.
  - rewrite !slice_slice_set_below by lia.
    apply slice_slice_set_same; [lia|]. unfold len; simpl; lia.
  - rewrite !slice_slice_set_below by lia.
    apply slice_slice_set_same; [lia|]. unfold len; simpl; lia.
  - apply slice_slice_set_same; [lia|]. unfold len; simpl; lia.
Qed.

Lemma make_entry_fields now fn fc S e :
  length fn = 11%nat → 0 ≤ fc →
  make_entry now fn fc S = Ok e →
  len e = 32 ∧ slice e 0 11 = fn ∧
  entry_first_cluster e = fc ∧ entry_size e = S.
Proof.
  intros Hfn Hfc (Hl & Hname & Hhi & Hlo & Hsz & Hb & HS)%make_entry_Ok; [|done].
  repeat split; try done.
  - unfold entry_first_cluster. rewrite Hhi, Hlo.
    rewrite !le_value_le_bytes.
    + by apply cluster_halves.
    + change 0xFFFF with (Z.ones 16). rewrite Z.land_ones by lia.
      apply Z.mod_pos_bound. lia.
    + done.
  - unfold entry_size. rewrite Hsz. by apply le_value_le_bytes.
Qed.

Lemma pack_into_entry n buf offset v :
  len buf = 32 → 0 ≤ v < 2 ^ (8 * Z.of_nat n) → 0 ≤ offset →
  offset + Z.of_nat n ≤ 32 →
  ∃ buf', pack_into n buf offset v = Ok buf' ∧ len buf' = 32.
Proof.
  intros Hl ? ? ?. eexists. split; [apply pack_into_ok; lia|].
  rewrite len_slice_set by lia. unfold len at 1. rewrite length_le_bytes. lia.
Qed.

Lemma make_entry_ok now fn fc S :
  length fn = 11%nat → fat_clock now → 0 ≤ fc < 2 ^ 32 → 0 ≤ S < 2 ^ 32 →
  ∃ e, make_entry now fn fc S = Ok e.
Proof.
  intros Hfn Hclock Hfc HS. unfold make_entry.
  pose proof (time_val_bound now Hclock).
  pose proof (date_val_bound now Hclock).
  pose proof (cluster_halves_bound fc Hfc) as [? ?].
  remember (slice_set (bytearray 32) 0 11 fn) as e0 eqn:He0.
  assert (len e0 = 32) as Hl0.
  { subst e0. rewrite len_slice_set; rewrite ?len_bytearray; unfold len; lia. }
  clear He0. rewrite setitem_ok by lia. cbn [mbind result_bind].
  assert (len (<[Z.to_nat 11:=32]> e0) = 32) as Hl1
    by (unfold len in *; by rewrite length_insert).
  clear Hl0. remember (<[Z.to_nat 11:=32]> e0) as e1 eqn:He1. clear He1.
  repeat match goal with
  | Hl : len ?buf = 32 |- context [pack_into ?n ?buf ?off ?v] =>
      let e' := fresh "e" in let Hl' := fresh "Hl" in
      destruct (pack_into_entry n buf off v Hl) as (e' & -> & Hl');
      [simpl; lia | lia | simpl; lia | ];
      cbn [mbind result_bind]; clear Hl
  end.
  by eexists.
Qed.

Lemma make_entry_Raise now fn fc S e :
  make_entry now fn fc S = Raise e → e = IndexError ∨ e = StructError.
Proof.
  unfold make_entry.
  destruct (setitem _ _ _) eqn:H1; simpl;
    [|intros [= <-]; left; by eapply setitem_Raise].
  repeat match goal with
  | |- context [pack_into ?n ?buf ?off ?v] =>
      let H := fresh "Hp" in
      destruct (pack_into n buf off v) eqn:H; simpl;
      [|intros [= <-]; right; by eapply pack_into_Raise]
  end.
  done.
Qed.

Lemma is_slot_fits dir_data i :
  len dir_data `mod` 32 = 0 → is_slot dir_data i → 0 ≤ i ∧ i + 32 ≤ len dir_data.
Proof.
  intros Hmod (k & ? & -> & ?).
  pose proof (Z.div_mod (len dir_data) 32). lia.
Qed.

(** What a successful insertion did to the directory cluster. *)
Lemma insert_entry_Ok now fn fc S dir_data dir_data' :
  length fn = 11%nat → len dir_data `mod` 32 = 0 →
  insert_entry now fn fc S dir_data = Ok dir_data' →
  ∃ i e, first_free dir_data i ∧ make_entry now fn fc S = Ok e ∧
         len dir_data' = len dir_data ∧
         dir_slot dir_data' i = e ∧
         slice dir_data' 0 i = slice dir_data 0 i ∧
         slice dir_data' (i + 33) (len dir_data) = slice dir_data (i + 33) (len dir_data).
Proof.
  intros Hfn Hmod. unfold insert_entry.
  destruct (find_free_slot dir_data) as [i|] eqn:Hfind; [|done].
  apply find_free_slot_Some in Hfind as Hff.
  destruct (make_entry now fn fc S) as [e|] eqn:He; simpl; [|done].
  pose proof (make_entry_Ok _ _ _ _ _ Hfn He) as (Hle & _).
  destruct Hff as (Hslot & Hrest).
  pose proof (is_slot_fits _ _ Hmod Hslot) as [Hi0 Hi32].
  set (dir1 := slice_set dir_data i (i + 32) e).
  assert (len dir1 = len dir_data) as Hl1
    by (unfold dir1; rewrite len_slice_set by lia; lia).
  assert (slice dir1 i (i + 32) = e) as Hs1
    by (apply slice_slice_set_same; lia).
  assert (slice dir1 0 i = slice dir_data 0 i) as Hlow
    by (apply slice_slice_set_below; lia).
  assert (slice dir1 (i + 33) (len dir_data) = slice dir_data (i + 33) (len dir_data))
    as Hhigh by (apply slice_slice_set_above; lia).
  assert (∀ d, d = dir1 ∨ d = <[Z.to_nat (i + 32) := 0]> dir1 →
    ∃ i0 e0, first_free dir_data i0 ∧ Ok e = Ok e0 ∧ len d = len dir_data ∧
      dir_slot d i0 = e0 ∧ slice d 0 i0 = slice dir_data 0 i0 ∧
      slice d (i0 + 33) (len dir_data) = slice dir_data (i0 + 33) (len dir_data))
    as Hboth.
  { intros d Hd. exists i, e. split; [by split|]. split; [done|].
    destruct Hd as [->| ->]; [done|].
    unfold dir_slot, len in *. rewrite length_insert.
    rewrite !slice_insert_outside by lia. done. }
  destruct (Z.ltb_spec (i + 32) (len dir1)); [|intros [= <-]; apply Hboth; by left].
  destruct (getitem dir1 (i + 32)) as [next|]; simpl; [|done].
  destruct (negb (next =? 229)).
  - intros (_ & ->)%setitem_Ok; [|lia]. apply Hboth. by right.
  - intros [= <-]. apply Hboth. by left.
Qed.

Lemma insert_entry_ok now fn fc S dir_data i e :
  len dir_data `mod` 32 = 0 → len e = 32 →
  first_free dir_data i → make_entry now fn fc S = Ok e →
  ∃ dir_data', insert_entry now fn fc S dir_data = Ok dir_data'.
Proof.
  intros Hmod Hle Hff He. unfold insert_entry.
  destruct Hff as (Hslot & Hrest).
  pose proof (is_slot_fits _ _ Hmod Hslot) as [Hi0 Hi32].
  assert (find_free_slot dir_data = Some i) as ->
    by (by apply find_free_slot_Some).
  rewrite He. simpl.
  set (dir1 := slice_set dir_data i (i + 32) e).
  assert (len dir1 = len dir_data) as Hl1
    by (unfold dir1; rewrite len_slice_set by lia; lia).
  destruct (Z.ltb_spec (i + 32) (len dir1)); [|by eexists].
  destruct (dir1 !! Z.to_nat (i + 32)) as [next|] eqn:Hnext.
  2:{ apply lookup_ge_None in Hnext. unfold len in *. lia. }
  rewrite (getitem_ok _ _ next) by (done || lia). simpl.
  destruct (negb (next =? 229)); [|by eexists].
  rewrite setitem_ok by lia. by eexists.
Qed.

(** The insertion raises "Directory full" exactly when no slot is free. *)
Lemma insert_entry_full now fn fc S dir_data :
  insert_entry now fn fc S dir_data = Raise DirectoryFull ↔ no_free dir_data.
Proof.
  rewrite <- find_free_slot_None. unfold insert_entry.
  destruct (find_free_slot dir_data) as [i|]; [|done].
  split; [|done]. intros Hraise. exfalso.
  destruct (make_entry now fn fc S) as [e|] eqn:He; simpl in Hraise.
  - destruct (_ <? _); [|done].
    destruct (getitem _ _) eqn:Hg; simpl in Hraise.
    + destruct (negb _); [|done]. apply setitem_Raise in Hraise. done.
    + injection Hraise as ->. apply getitem_Raise in Hg. done.
  - injection Hraise as ->. apply make_entry_Raise in He as [?|?]; done.
Qed.

(** The 8.3 name is always 11 bytes long. *)
Lemma len_ljust n s : len s ≤ n → len (ljust n s) = n.
Proof. intros. unfold ljust. rewrite len_app, len_replicate; lia. Qed.

Lemma fat_filename_of_length filename fn :
  fat_filename_of filename = Ok fn → length fn = 11%nat.
Proof.
  unfold fat_filename_of. destruct (splitext (upper filename)) as [name ext].
  unfold encode_ascii. case_match; [|done]. intros [= <-].
  assert (len (ljust 8 (slice name 0 8)) = 8) as H8.
  { apply len_ljust. rewrite len_slice by lia. pose proof (len_nonneg name). lia. }
  assert (len (match ext with [] => str "   " | _ => ljust 3 (slice ext 1 4) end) = 3)
    as H3.
  { destruct ext; [done|]. apply len_ljust. rewrite len_slice by lia.
    pose proof (len_nonneg (z :: ext)). lia. }
  rewrite length_app. unfold len in *. lia.
Qed.

Lemma write_file_data_0 data fc image : write_file_data data fc 0 image = image.
Proof. reflexivity. Qed.

Lemma clusters_needed_0 : clusters_needed 0 = 0.
Proof. reflexivity. Qed.

Lemma clusters_needed_pos S : 0 < S → 1 ≤ clusters_needed S.
Proof. intros. pose proof (clusters_needed_bounds S). lia. Qed.

Lemma clusters_needed_nonneg S : 0 ≤ S → 0 ≤ clusters_needed S.
Proof. intros. pose proof (clusters_needed_bounds S). lia. Qed.

Lemma root_dir_eq b :
  root_dir b = slice (disk_image b) (cluster_offset 2) (cluster_offset 2 + 4096).
Proof. reflexivity. Qed.

Lemma len_root_dir b : builder_inv b → len (root_dir b) = 4096.
Proof.
  intros (_ & Hn & Hlen). rewrite root_dir_eq.
  rewrite cluster_offset_eq in *. rewrite len_slice by lia. lia.
Qed.

Lemma first_cluster_of_pos b file_data :
  0 < len file_data → first_cluster_of b file_data = next_free_cluster b.
Proof. intros. unfold first_cluster_of. by rewrite decide_True. Qed.

Lemma first_cluster_of_empty b file_data :
  len file_data = 0 → first_cluster_of b file_data = 0.
Proof. intros. unfold first_cluster_of. rewrite decide_False; [done|lia]. Qed.

(** [add_file_to_directory], with the directory it reads taken from the
    builder it started from: the payload never touches the root cluster. *)
Lemma add_file_to_directory_Ok now filename file_data b b' :
  builder_inv b →
  add_file_to_directory now filename file_data b = Ok b' →
  let S := len file_data in
  let n := clusters_needed S in
  let fc := first_cluster_of b file_data in
  ∃ fn dir_data',
    fat_filename_of filename = Ok fn ∧
    insert_entry now fn fc S (root_dir b) = Ok dir_data' ∧
    size_mb b' = size_mb b ∧
    next_free_cluster b' = next_free_cluster b + n ∧
    next_free_cluster b + n ≤ len (fat_table b) ∧
    disk_image b' = slice_set (write_file_data file_data fc n (disk_image b))
                      (cluster_offset 2) (cluster_offset 2 + 4096) dir_data' ∧
    same_outside (fat_table b) (fat_table b')
      (next_free_cluster b) (next_free_cluster b + n) ∧
    (0 < S → linked (fat_table b') (next_free_cluster b) n) ∧
    (S = 0 → fat_table b' = fat_table b).
Proof.
  intros Hinv. pose proof Hinv as (Hfat & Hnfc & Himg). cbv zeta.
  rewrite root_dir_eq.
  unfold add_file_to_directory. cbv zeta.
  change ((len file_data + bytes_per_cluster - 1) `div` bytes_per_cluster)
    with (clusters_needed (len file_data)).
  change (cluster_to_sector root_cluster * sector_size) with (cluster_offset 2).
  change (cluster_offset 2 + bytes_per_cluster) with (cluster_offset 2 + 4096).
  destruct (fat_filename_of filename) as [fn|]; bind_step.
  destruct (allocate_chain _ _ b) as [[fc bf]|] eqn:Halloc;
    bind_step.
  cbn [disk_image set_disk_image].
  pose proof (len_nonneg file_data) as HS.
  destruct (decide (0 < len file_data)) as [Hpos|Hzero].
  - rewrite first_cluster_of_pos by done.
    apply allocate_chain_Ok in Halloc
      as (-> & Hn' & Hle & Hs & Hd & Hl & Hout);
      [|done|by apply clusters_needed_pos|lia].
    rewrite Hd.
    pose proof (clusters_needed_pos _ Hpos) as Hn1.
    pose proof (write_file_data_spec file_data (next_free_cluster b)
                  (Z.to_nat (clusters_needed (len file_data))) (disk_image b))
      as (_ & _ & Hlow).
    { rewrite cluster_offset_eq in *. lia. }
    rewrite Z2Nat.id in Hlow by lia.
    rewrite Hlow by (rewrite !cluster_offset_eq; lia).
    destruct (insert_entry _ _ _ _ _) as [dir'|] eqn:Hins; bind_step.
    intros Heq; injection Heq as <-. exists fn, dir'.
    cbn [size_mb next_free_cluster disk_image fat_table set_disk_image].
    split; [reflexivity|]. split; [exact Hins|]. split; [exact Hs|].
    split; [exact Hn'|]. split; [exact Hle|]. split; [reflexivity|].
    split; [exact Hout|]. split; [intros _; exact Hl|]. intros; lia.
  - assert (len file_data = 0) as Hz by lia.
    rewrite first_cluster_of_empty by done. rewrite Hz in *.
    rewrite allocate_chain_empty in Halloc by lia.
    injection Halloc as <- <-. rewrite clusters_needed_0, write_file_data_0.
    destruct (insert_entry _ _ _ _ _) as [dir'|] eqn:Hins; bind_step.
    intros Heq; injection Heq as <-. exists fn, dir'.
    cbn [size_mb next_free_cluster disk_image fat_table set_disk_image].
    split; [reflexivity|]. split; [exact Hins|]. split; [reflexivity|].
    split; [lia|]. split; [lia|]. split; [reflexivity|].
    split; [split; [reflexivity|intros; reflexivity]|].
    split; [intros; lia|]. intros; reflexivity.
Qed.

Lemma read_cluster_eq image c :
  read_cluster image c = slice image (4096 * c + 270336) (4096 * c + 270336 + 4096).
Proof.
  unfold read_cluster. by rewrite bytes_per_cluster_eq, !cluster_offset_eq.
Qed.

Lemma first_cluster_of_cases b file_data :
  (0 < len file_data ∧ first_cluster_of b file_data = next_free_cluster b) ∨
  (len file_data = 0 ∧ clusters_needed (len file_data) = 0 ∧
   first_cluster_of b file_data = 0).
Proof.
  pose proof (len_nonneg file_data).
  destruct (decide (0 < len file_data)).
  - left. split; [done|]. by apply first_cluster_of_pos.
  - right. assert (len file_data = 0) as Hz by lia.
    split; [done|]. split; [by rewrite Hz|]. by apply first_cluster_of_empty.
Qed.

(** What the image of a successful insertion holds. *)
Lemma add_file_to_directory_image now filename file_data b b' :
  builder_inv b →
  add_file_to_directory now filename file_data b = Ok b' →
  let n := clusters_needed (len file_data) in
  len (disk_image b')
  = Z.max (len (disk_image b)) (cluster_offset (next_free_cluster b + n)) ∧
  (∀ i, 0 ≤ i < n →
     read_cluster (disk_image b') (next_free_cluster b + i) = padded_chunk file_data i) ∧
  (∀ c, 3 ≤ c < next_free_cluster b →
     read_cluster (disk_image b') c = read_cluster (disk_image b) c) ∧
  (∀ s e, 0 ≤ s → e ≤ cluster_offset 2 →
     slice (disk_image b') s e = slice (disk_image b) s e).
Proof.
  intros Hinv Hadd. pose proof Hinv as (Hfat & Hnfc & Himg).
  pose proof (len_root_dir _ Hinv) as Hroot.
  apply add_file_to_directory_Ok in Hadd
    as (fn & dir' & Hfn & Hins & _ & _ & _ & Heq & _); [|done].
  apply insert_entry_Ok in Hins as (_ & _ & _ & _ & Hl' & _);
    [|by eapply fat_filename_of_length|by rewrite Hroot].
  rewrite Hroot in Hl'. cbv zeta. rewrite Heq. clear Heq.
  pose proof (len_nonneg file_data) as HS.
  pose proof (clusters_needed_nonneg _ HS) as Hn0.
  remember (clusters_needed (len file_data)) as n eqn:Hn.
  remember (first_cluster_of b file_data) as fc eqn:Hfc.
  assert (n = 0 ∨ fc = next_free_cluster b) as Hcase.
  { destruct (first_cluster_of_cases b file_data) as [[_ ?]|(_ & ? & _)].
    - right. congruence.
    - left. congruence. }
  assert (0 ≤ cluster_offset fc ≤ len (disk_image b)) as Hfc'.
  { destruct (first_cluster_of_cases b file_data) as [[_ ?]|(_ & _ & ?)];
      rewrite !cluster_offset_eq in *; lia. }
  pose proof (write_file_data_spec file_data fc (Z.to_nat n) (disk_image b) Hfc')
    as (Hlen & Hread & Hlow).
  rewrite Z2Nat.id in * by lia.
  remember (write_file_data file_data fc n (disk_image b)) as img1 eqn:Himg1.
  rewrite !cluster_offset_eq in *.
  split; [|split; [|split]].
  - rewrite len_slice_set by lia. destruct Hcase as [H0| H1]; [rewrite H0 in *|rewrite H1 in *]; lia.
  - intros i Hi. destruct Hcase as [?| H1]; [lia|]. rewrite <- H1.
    rewrite read_cluster_eq. rewrite slice_slice_set_above by lia.
    rewrite <- read_cluster_eq. by apply Hread.
  - intros c Hc. rewrite !read_cluster_eq.
    rewrite slice_slice_set_above by lia.
    destruct Hcase as [H0| Hfceq].
    + subst img1. rewrite H0. by rewrite write_file_data_0.
    + apply Hlow; rewrite ?cluster_offset_eq; lia.
  - intros s e Hs He. rewrite slice_slice_set_below by lia.
    destruct Hcase as [H0| Hfceq].
    + subst img1. rewrite H0. by rewrite write_file_data_0.
    + apply Hlow; rewrite ?cluster_offset_eq; lia.
Qed.

Lemma add_file_to_directory_root now filename file_data b b' :
  builder_inv b →
  add_file_to_directory now filename file_data b = Ok b' →
  ∃ fn, fat_filename_of filename = Ok fn ∧
        insert_entry now fn (first_cluster_of b file_data) (len file_data) (root_dir b)
        = Ok (root_dir b').
Proof.
  intros Hinv Hadd. pose proof Hinv as (Hfat & Hnfc & Himg).
  pose proof (len_root_dir _ Hinv) as Hroot.
  apply add_file_to_directory_Ok in Hadd
    as (fn & dir' & Hfn & Hins & _ & _ & _ & Himg' & _); [|done].
  exists fn. split; [done|]. rewrite Hins. f_equal.
  apply insert_entry_Ok in Hins as (_ & _ & _ & _ & Hl' & _);
    [|by eapply fat_filename_of_length|by rewrite Hroot].
  rewrite Hroot in Hl'.
  rewrite (root_dir_eq b'), Himg'. symmetry.
  pose proof (len_nonneg file_data) as HS.
  pose proof (clusters_needed_nonneg _ HS) as Hn0.
  assert (0 ≤ cluster_offset (first_cluster_of b file_data) ≤ len (disk_image b)) as Hfc.
  { destruct (first_cluster_of_cases b file_data) as [[_ ->]|(_ & _ & ->)];
      rewrite !cluster_offset_eq in *; lia. }
  pose proof (write_file_data_spec file_data _
                (Z.to_nat (clusters_needed (len file_data))) (disk_image b) Hfc)
    as (Hlen & _).
  rewrite Z2Nat.id in * by lia. rewrite !cluster_offset_eq in *.
  apply slice_slice_set_same; lia.
Qed.

Lemma add_file_to_directory_inv now filename file_data b b' :
  builder_inv b →
  add_file_to_directory now filename file_data b = Ok b' →
  builder_inv b'.
Proof.
  intros Hinv Hadd. pose proof Hinv as (Hfat & Hnfc & Himg).
  pose proof (add_file_to_directory_image _ _ _ _ _ Hinv Hadd) as (Hlen & _).
  apply add_file_to_directory_Ok in Hadd
    as (fn & dir' & _ & _ & _ & Hn & Hle & _ & [Hsame _] & _); [|done].
  pose proof (len_nonneg file_data) as HS.
  pose proof (clusters_needed_nonneg _ HS) as Hn0.
  unfold builder_inv, len in *. rewrite Hsame, Hn.
  rewrite !cluster_offset_eq in *. lia.
Qed.

(** Chains read through any source of entries *)
Lemma chain_of_entries (entry : Z → option Z) fc n :
  0 ≤ fc → 1 ≤ n → fc + n ≤ sectors_per_fat * sector_size / 4 →
  (∀ i, 0 ≤ i < n - 1 → entry (fc + i) = Some (fc + i + 1)) →
  entry (fc + n - 1) = Some 0x0FFFFFFF →
  chain_of entry fc = Some (seqZ fc n).
Proof.
  intros Hfc Hn Hle Hl1 Hl2. unfold chain_of.
  change (sectors_per_fat * sector_size / 4) with 32768 in *.
  rewrite (follow_chain_linked (Z.to_nat (n - 1)) _ _ fc 0x0FFFFFFF).
  - do 2 f_equal. lia.
  - lia.
  - intros i Hi. apply Hl1. lia.
  - unfold EOC_MIN. lia.
  - rewrite <- Hl2. f_equal. lia.
  - unfold EOC_MIN. lia.
Qed.

Lemma concat_read_clusters image fc file_data n :
  (∀ i, 0 ≤ i < n → read_cluster image (fc + i) = padded_chunk file_data i) →
  concat (read_cluster image <$> seqZ fc n)
  = concat (padded_chunk file_data <$> seqZ 0 n).
Proof.
  intros Hread. f_equal.
  replace fc with (fc + 0) at 1 by lia.
  rewrite <- fmap_add_seqZ, <- list_fmap_compose.
  apply list_fmap_ext. intros k i (-> & ?)%lookup_seqZ. simpl.
  rewrite Hread; [f_equal|]; lia.
Qed.

(** Reading a stored payload back through any source of entries that
    agrees with the chain. *)
Lemma read_chain_stored (entry : Z → option Z) image fc file_data :
  let n := clusters_needed (len file_data) in
  0 < len file_data → 0 ≤ fc → fc + n ≤ sectors_per_fat * sector_size / 4 →
  (∀ i, 0 ≤ i < n - 1 → entry (fc + i) = Some (fc + i + 1)) →
  entry (fc + n - 1) = Some 0x0FFFFFFF →
  (∀ i, 0 ≤ i < n → read_cluster image (fc + i) = padded_chunk file_data i) →
  read_chain entry image fc
  = Some (file_data ++ bytearray (n * bytes_per_cluster - len file_data)).
Proof.
  intros n Hpos Hfc Hle Hl1 Hl2 Hread. unfold read_chain.
  rewrite (chain_of_entries entry fc n) by (done || by apply clusters_needed_pos).
  simpl. f_equal.
  rewrite (concat_read_clusters _ _ file_data) by done.
  by apply concat_padded_chunks.
Qed.

Lemma table_entry_nonneg fat c : 0 ≤ c → table_entry fat c = fat !! Z.to_nat c.
Proof. intros. unfold table_entry. destruct (Z.leb_spec 0 c); [done|lia]. Qed.

(** A payload is stored once it is added, and stays stored. *)
Lemma add_file_at now filename file_data b b' :
  builder_inv b → 0 < len file_data →
  add_file_to_directory now filename file_data b = Ok b' →
  file_at b' (next_free_cluster b) file_data.
Proof.
  intros Hinv Hpos Hadd. pose proof Hinv as (Hfat & Hnfc & Himg).
  pose proof (add_file_to_directory_image _ _ _ _ _ Hinv Hadd) as (_ & Hread & _).
  apply add_file_to_directory_Ok in Hadd
    as (fn & dir' & _ & _ & _ & Hn & _ & _ & _ & Hl & _); [|done].
  unfold file_at. cbv zeta. split_and!; try done; try lia. by apply Hl.
Qed.

Lemma file_at_add now filename file_data b b' fc old_data :
  builder_inv b → file_at b fc old_data →
  add_file_to_directory now filename file_data b = Ok b' →
  file_at b' fc old_data.
Proof.
  intros Hinv (Hpos & Hfc & Hle & [Hl1 Hl2] & Hread) Hadd.
  pose proof Hinv as (Hfat & Hnfc & Himg).
  pose proof (clusters_needed_pos _ Hpos) as Hn1.
  pose proof (len_nonneg file_data) as HS.
  pose proof (clusters_needed_nonneg _ HS) as Hn0.
  pose proof (add_file_to_directory_image _ _ _ _ _ Hinv Hadd) as (_ & _ & Hold & _).
  apply add_file_to_directory_Ok in Hadd
    as (fn & dir' & _ & _ & _ & Hn & _ & _ & [_ Hsame] & _); [|done].
  unfold file_at. cbv zeta. split_and!; try done; try lia.
  - split.
    + intros i Hi. rewrite Hsame by lia. by apply Hl1.
    + rewrite Hsame by lia. done.
  - intros i Hi. rewrite Hold by lia. by apply Hread.
Qed.

Lemma add_steps_inv b b' :
  rtc add_step b b' → builder_inv b → builder_inv b'.
Proof.
  induction 1 as [|b b1 b2 (now & fname & fdata & Hadd) _ IH]; [done|].
  intros Hinv. apply IH. by eapply add_file_to_directory_inv.
Qed.

Lemma file_at_add_steps b b' fc file_data :
  rtc add_step b b' → builder_inv b → file_at b fc file_data →
  file_at b' fc file_data.
Proof.
  induction 1 as [|b b1 b2 (now & fname & fdata & Hadd) _ IH]; [done|].
  intros Hinv Hat. apply IH.
  - by eapply add_file_to_directory_inv.
  - by eapply file_at_add.
Qed.

(** Read back from the builder's own table. *)
Lemma file_at_read_chain b fc file_data :
  builder_inv b → file_at b fc file_data →
  read_chain (table_entry (fat_table b)) (disk_image b) fc
  = Some (file_data ++ bytearray
            (clusters_needed (len file_data) * bytes_per_cluster - len file_data)).
Proof.
  intros (Hfat & Hnfc & Himg) (Hpos & Hfc & Hle & [Hl1 Hl2] & Hread).
  pose proof (clusters_needed_pos _ Hpos) as Hn1.
  apply read_chain_stored; try done; try lia.
  - intros i Hi. rewrite table_entry_nonneg by lia. by apply Hl1.
  - rewrite table_entry_nonneg by lia. done.
Qed.

(** ** Serializing the FAT *)

Lemma pack_entries_Ok fat : ∀ bs,
  pack_entries fat = Ok bs →
  len bs = 4 * len fat ∧
  ∀ k e, fat !! k = Some e →
    0 ≤ e < 2 ^ 32 ∧
    slice bs (4 * Z.of_nat k) (4 * Z.of_nat k + 4) = le_bytes 4 e.
Proof.
  induction fat as [|x fat IH]; intros bs.
  - intros [= <-]. split; [done|]. intros k e Hk. done.
  - cbn [pack_entries].
    destruct (pack 4 x) as [xs|] eqn:Hx; [|rewrite bind_Raise; done].
    rewrite bind_Ok.
    destruct (pack_entries fat) as [rest|]; [|rewrite bind_Raise; done].
    rewrite bind_Ok. intros [= <-].
    apply pack_Ok in Hx as [Hx ->].
    destruct (IH rest eq_refl) as [Hlen Hget].
    assert (len (le_bytes 4 x) = 4) as Hl4 by (unfold len; by rewrite length_le_bytes).
    split.
    + rewrite len_app, Hl4, Hlen. unfold len. simpl length. lia.
    + intros [|k] e Hk.
      * injection Hk as <-. split; [done|].
        apply list_eq. intros i. rewrite lookup_slice.
        case_decide.
        -- rewrite lookup_app_l by (rewrite length_le_bytes; lia). f_equal.
        -- symmetry. apply lookup_ge_None. rewrite length_le_bytes. lia.
      * simpl in Hk. destruct (Hget k e Hk) as [He Hs]. split; [done|].
        rewrite <- Hs. apply list_eq. intros i. rewrite !lookup_slice.
        case_decide.
        -- rewrite decide_True by lia.
           rewrite lookup_app_r by (rewrite length_le_bytes; lia).
           rewrite length_le_bytes. f_equal. lia.
        -- rewrite decide_False by lia. done.
Qed.

Lemma pack_entries_ok fat :
  fat_packable fat → ∃ bs, pack_entries fat = Ok bs.
Proof.
  induction fat as [|x fat IH]; intros Hp.
  - by eexists.
  - cbn [pack_entries].
    assert (pack 4 x = Ok (le_bytes 4 x)) as ->.
    { apply pack_Ok. split; [|done]. apply (Hp 0%nat). done. }
    rewrite bind_Ok.
    destruct IH as [rest ->].
    { intros k e Hk. apply (Hp (S k)). done. }
    rewrite bind_Ok. by eexists.
Qed.

(** With the full-length table the serialized FAT is 256 sectors long and
    needs no padding. *)
Lemma fat_bytes_Ok fat fat_data :
  len fat = 32768 → fat_bytes fat = Ok fat_data →
  pack_entries fat = Ok fat_data ∧ len fat_data = 131072.
Proof.
  intros Hlen. unfold fat_bytes.
  destruct (pack_entries fat) as [bs|] eqn:Hp; [|rewrite bind_Raise; done].
  rewrite bind_Ok. apply pack_entries_Ok in Hp as [Hl _]. rewrite Hlen in Hl.
  rewrite Hl. change ((- (4 * 32768)) `mod` sector_size) with 0.
  rewrite bytearray_nonpos by lia. rewrite app_nil_r.
  intros [= <-]. split; [done|lia].
Qed.

Lemma write_fat_tables_Ok b b' :
  builder_inv b → write_fat_tables b = Ok b' →
  ∃ fat_data,
    pack_entries (fat_table b) = Ok fat_data ∧ len fat_data = 131072 ∧
    size_mb b' = size_mb b ∧ fat_table b' = fat_table b ∧
    next_free_cluster b' = next_free_cluster b ∧
    disk_image b'
    = slice_set (slice_set (disk_image b) 16384 (16384 + 131072) fat_data)
        147456 (147456 + 131072) fat_data.
Proof.
  intros (Hfat & _ & _). unfold write_fat_tables.
  destruct (fat_bytes (fat_table b)) as [fat_data|] eqn:Hb;
    [|rewrite bind_Raise; done].
  rewrite bind_Ok. apply fat_bytes_Ok in Hb as [Hp Hl]; [|exact Hfat].
  change (range 0 fat_count) with [0; 1]. cbn [for_each].
  rewrite !bind_Ok. rewrite Hl. intros [= <-].
  exists fat_data. cbn [size_mb fat_table next_free_cluster disk_image set_disk_image].
  split; [done|]. split; [done|]. split; [done|]. split; [done|].
  split; [done|]. reflexivity.
Qed.

Lemma write_fat_tables_ok b :
  builder_inv b → fat_packable (fat_table b) →
  ∃ b', write_fat_tables b = Ok b'.
Proof.
  intros (Hfat & _ & _) Hp. unfold write_fat_tables, fat_bytes.
  destruct (pack_entries_ok _ Hp) as [bs ->]. rewrite !bind_Ok.
  change (range 0 fat_count) with [0; 1]. cbn [for_each].
  rewrite !bind_Ok. by eexists.
Qed.

(** What the image holds once the FAT copies are written. *)
Lemma write_fat_tables_image b b' :
  builder_inv b → write_fat_tables b = Ok b' →
  len (disk_image b') = len (disk_image b) ∧
  (∀ s e, 0 ≤ s → e ≤ 16384 →
     slice (disk_image b') s e = slice (disk_image b) s e) ∧
  (∀ s e, cluster_offset 2 ≤ s →
     slice (disk_image b') s e = slice (disk_image b) s e) ∧
  (∀ copy c, copy = 0 ∨ copy = 1 →
     disk_entry (disk_image b') copy c
     = if (0 <=? c) && (c <? 32768) then fat_table b !! Z.to_nat c else None).
Proof.
  intros Hinv Hw. pose proof Hinv as (Hfat & Hnfc & Himg).
  apply write_fat_tables_Ok in Hw as (fd & Hp & Hl & _ & _ & _ & ->); [|done].
  rewrite !cluster_offset_eq in *.
  assert (len (slice_set (disk_image b) 16384 (16384 + 131072) fd) = len (disk_image b))
    as Hl1 by (rewrite len_slice_set by lia; lia).
  split; [|split; [|split]].
  - rewrite len_slice_set by lia. lia.
  - intros s e Hs He. rewrite !slice_slice_set_below by lia. done.
  - intros s e Hs. rewrite !slice_slice_set_above by lia. done.
  - intros copy c Hcopy. unfold disk_entry.
    change ((sectors_per_fat * sector_size) `div` 4) with 32768.
    destruct ((0 <=? c) && (c <? 32768)) eqn:Hc; [|done].
    apply andb_true_iff in Hc as [Hc0%Z.leb_le Hc1%Z.ltb_lt].
    destruct (fat_table b !! Z.to_nat c) as [e|] eqn:He.
    2:{ apply lookup_ge_None in He. unfold len in Hfat.
        change ((sectors_per_fat * sector_size) `div` 4) with 32768 in Hfat. lia. }
    f_equal.
    apply pack_entries_Ok in Hp as [_ Hget].
    destruct (Hget _ _ He) as [Hrange Hs]. rewrite Z2Nat.id in Hs by lia.
    rewrite <- (le_value_le_bytes 4 e) by done. f_equal. rewrite <- Hs.
    assert (slice (slice_set (slice_set (disk_image b) 16384 (16384 + 131072) fd)
                     147456 (147456 + 131072) fd)
                  ((fat_start_sector + copy * sectors_per_fat) * sector_size)
                  ((fat_start_sector + copy * sectors_per_fat) * sector_size + 131072)
            = fd) as Hcopyeq.
    { destruct Hcopy as [-> | ->].
      - change ((fat_start_sector + 0 * sectors_per_fat) * sector_size) with 16384.
        rewrite slice_slice_set_below by lia.
        apply slice_slice_set_same; lia.
      - change ((fat_start_sector + 1 * sectors_per_fat) * sector_size) with 147456.
        apply slice_slice_set_same; lia. }
    rewrite <- Z.add_assoc.
    rewrite <- (slice_slice _ _ (((fat_start_sector + copy * sectors_per_fat)
                                  * sector_size) + 131072));
      [|destruct Hcopy as [-> | ->]; vm_compute; congruence|lia|lia].
    by rewrite Hcopyeq.
Qed.

(** ** The filesystem structure *)

Lemma len_for_each_setitem xs x : ∀ buf buf',
  for_each xs (λ i buf, setitem buf i x) buf = Ok buf' → len buf' = len buf.
Proof.
  induction xs as [|i xs IH]; intros buf buf'; cbn [for_each].
  - by intros [= <-].
  - destruct (setitem buf i x) as [buf1|] eqn:Hs; [|rewrite bind_Raise; done].
    rewrite bind_Ok. intros Hrest. apply IH in Hrest.
    apply len_setitem in Hs. lia.
Qed.

Lemma len_slice_set_same {A} (a d : list A) s e n :
  len a = n → 0 ≤ s → len d = e - s → e ≤ n → len (slice_set a s e d) = n.
Proof. intros. rewrite len_slice_set by (pose proof (len_nonneg d); lia). lia. Qed.

(** The length of nested in-place slice assignments with closed bounds. *)
Ltac len_slices :=
  first [ assumption
        | apply len_bytearray; lia
        | apply len_slice_set_same; [len_slices|lia|vm_compute; reflexivity|lia] ].

(** Destructs the outermost [pack_into] of a chain of binds, keeping the
    length of the buffer. *)
Ltac pack_into_step :=
  match goal with
  | |- context [pack_into ?n ?buf ?off ?v] =>
      let H := fresh "Hp" in let e' := fresh "buf" in
      destruct (pack_into n buf off v) as [e'|] eqn:H;
      [ rewrite bind_Ok; cbv beta;
        let Hl := fresh "Hl" in
        pose proof (len_pack_into _ _ _ _ _ H) as Hl
      | rewrite bind_Raise; let H' := fresh in intros H'; discriminate H' ]
  end.

Lemma boot_sector_bytes_Ok t boot :
  boot_sector_bytes t = Ok boot →
  len boot = 512 ∧ slice boot 510 512 = [0x55; 0xAA].
Proof.
  unfold boot_sector_bytes. cbv zeta.
  remember (slice_set (slice_set (bytearray 512) 0 3 [235; 88; 144]) 3 11 (str "NumOS   "))
    as buf0 eqn:Hbuf0.
  assert (len buf0 = 512) as Hl0.
  { subst buf0. len_slices. }
  clear Hbuf0.
  do 18 pack_into_step.
  destruct (for_each _ _ _) as [buf18|] eqn:Hloop;
    [rewrite bind_Ok; cbv beta|rewrite bind_Raise; done].
  apply len_for_each_setitem in Hloop.
  do 4 pack_into_step.
  match goal with H : len ?b = len _ |- context [slice_set ?b 71 82 _] =>
    assert (len b = 512) by lia end.
  remember (slice_set (slice_set _ 71 82 _) 82 90 _) as buf23 eqn:Hbuf23.
  assert (len buf23 = 512) as Hl23.
  { subst buf23. len_slices. }
  clear Hbuf23.
  intros Hlast. pose proof (len_pack_into _ _ _ _ _ Hlast) as Hlen_last.
  apply pack_into_Ok in Hlast as (_ & _ & _ & ->).
  split; [lia|]. apply slice_slice_set_same; [lia|done].
Qed.

Lemma for_each_setitem_ok xs x : ∀ buf,
  Forall (λ i, 0 ≤ i < len buf) xs →
  ∃ buf', for_each xs (λ i buf, setitem buf i x) buf = Ok buf' ∧ len buf' = len buf.
Proof.
  induction xs as [|i xs IH]; intros buf Hall; cbn [for_each].
  - by eexists.
  - apply Forall_cons in Hall as [Hi Hall].
    rewrite setitem_ok by done. rewrite bind_Ok.
    assert (len (<[Z.to_nat i:=x]> buf) = len buf) as Hl
      by (unfold len; by rewrite length_insert).
    destruct (IH (<[Z.to_nat i:=x]> buf)) as (buf' & -> & Hl').
    { by rewrite Hl. }
    exists buf'. split; [done|lia].
Qed.

(** Rewrites the outermost [pack_into] of a chain on a 512-byte buffer to
    its result; the field values are closed or bounded by a hypothesis. *)
Ltac pack_into_512 :=
  match goal with
  | Hl : len ?buf = 512 |- context [pack_into ?n ?buf ?off ?v] =>
      let H := fresh "Hp" in
      assert (pack_into n buf off v
              = Ok (slice_set buf off (off + Z.of_nat n) (le_bytes n v))) as H
        by (apply pack_into_ok;
            [first [assumption | vm_compute; split; congruence]
            |lia|rewrite Hl; vm_compute; congruence]);
      rewrite H; rewrite bind_Ok; cbv beta;
      apply len_pack_into in H; rewrite Hl in H; clear Hl
  end.

Lemma boot_sector_bytes_ok t :
  0 ≤ t < 2 ^ 32 → ∃ boot, boot_sector_bytes t = Ok boot.
Proof.
  intros Ht. change (2 ^ 32) with (2 ^ (8 * Z.of_nat 4)) in Ht.
  unfold boot_sector_bytes. cbv zeta.
  remember (slice_set (slice_set (bytearray 512) 0 3 [235; 88; 144]) 3 11 (str "NumOS   "))
    as buf0 eqn:Hbuf0.
  assert (len buf0 = 512) as Hl0.
  { subst buf0. len_slices. }
  clear Hbuf0.
  do 18 pack_into_512.
  match goal with
  | Hl : len ?buf = 512 |- context [for_each ?xs ?f ?buf] =>
      destruct (for_each_setitem_ok xs 0 buf) as (buf18 & -> & Hl18);
      [rewrite Hl; apply Forall_seqZ; lia|rewrite Hl in Hl18; clear Hl]
  end.
  rewrite bind_Ok; cbv beta.
  do 4 pack_into_512.
  remember (slice_set (slice_set _ 71 82 _) 82 90 _) as buf23 eqn:Hbuf23.
  assert (len buf23 = 512) as Hl23.
  { subst buf23. len_slices. }
  clear Hbuf23.
  rewrite pack_into_ok;
    [by eexists|vm_compute; split; congruence|lia|rewrite Hl23; vm_compute; congruence].
Qed.

Lemma fsinfo_bytes_ok : ∃ fsinfo, fsinfo_bytes = Ok fsinfo ∧ len fsinfo = 512.
Proof. eexists. split; vm_compute; reflexivity. Qed.

Lemma root_directory_bytes_ok :
  ∃ root_data, root_directory_bytes = Ok root_data ∧ len root_data = 4096 ∧
               find_free_slot root_data = Some 32.
Proof. eexists. split; [|split]; vm_compute; reflexivity. Qed.

Lemma len_initial_fat : len initial_fat = 32768.
Proof. unfold initial_fat, len. rewrite !length_insert, length_replicate. done. Qed.

Lemma initial_fat_packable : fat_packable initial_fat.
Proof.
  intros k e. unfold initial_fat.
  rewrite !list_lookup_insert_Some. rewrite lookup_replicate.
  intros [[_ [<- _]]|[_ [[_ [<- _]]|[_ [[_ [<- _]]|[_ [-> _]]]]]]]; lia.
Qed.

Lemma initialize_fat_fresh b :
  fat_table b = replicate (Z.to_nat (sectors_per_fat * sector_size / 4)) 0 →
  initialize_fat b = Ok (set_fat_table initial_fat b).
Proof.
  intros Hfat. unfold initialize_fat. rewrite Hfat.
  change (sectors_per_fat * sector_size / 4) with 32768.
  rewrite setitem_ok; [rewrite bind_Ok|].
  2:{ unfold len. rewrite length_replicate. lia. }
  rewrite setitem_ok; [rewrite bind_Ok|].
  2:{ unfold len. rewrite length_insert, length_replicate. lia. }
  rewrite setitem_ok; [rewrite bind_Ok|].
  2:{ unfold len. rewrite !length_insert, length_replicate. lia. }
  reflexivity.
Qed.

Lemma create_filesystem_structure_Ok mb b0 :
  create_filesystem_structure (init mb) = Ok b0 →
  ∃ boot fsinfo root_data,
    boot_sector_bytes (total_sectors (init mb)) = Ok boot ∧
    fsinfo_bytes = Ok fsinfo ∧ root_directory_bytes = Ok root_data ∧
    b0 = mk_builder mb (fresh_image mb boot fsinfo root_data) initial_fat 3.
Proof.
  unfold create_filesystem_structure, create_boot_sector.
  destruct (boot_sector_bytes _) as [boot|] eqn:Hboot; [|rewrite !bind_Raise; done].
  rewrite !bind_Ok. unfold create_fsinfo.
  destruct fsinfo_bytes as [fsinfo|] eqn:Hfs; [|rewrite !bind_Raise; done].
  rewrite !bind_Ok.
  rewrite initialize_fat_fresh by reflexivity. rewrite bind_Ok.
  unfold create_root_directory.
  destruct root_directory_bytes as [rd|] eqn:Hrd; [|rewrite !bind_Raise; done].
  rewrite bind_Ok. intros [= <-].
  exists boot, fsinfo, rd. split; [done|]. split; [done|]. split; [done|].
  reflexivity.
Qed.

Lemma create_filesystem_structure_ok mb :
  0 ≤ mb < 2 ^ 21 → ∃ b0, create_filesystem_structure (init mb) = Ok b0.
Proof.
  intros Hmb. unfold create_filesystem_structure, create_boot_sector.
  destruct (boot_sector_bytes_ok (total_sectors (init mb))) as [boot ->].
  { unfold total_sectors, size_bytes. cbn [size_mb init].
    change sector_size with 512. change (2 ^ 21) with 2097152 in Hmb.
    change (2 ^ 32) with 4294967296.
    pose proof (Z.div_mod (mb * 1024 * 1024) 512).
    pose proof (Z.mod_pos_bound (mb * 1024 * 1024) 512). lia. }
  rewrite !bind_Ok. unfold create_fsinfo.
  destruct fsinfo_bytes_ok as (fsinfo & -> & _). rewrite !bind_Ok.
  rewrite initialize_fat_fresh by reflexivity. rewrite bind_Ok.
  unfold create_root_directory.
  destruct root_directory_bytes_ok as (rd & -> & _). rewrite bind_Ok.
  by eexists.
Qed.

Lemma fresh_image_facts mb boot fsinfo root_data :
  1 ≤ mb → len boot = 512 → len fsinfo = 512 → len root_data = 4096 →
  let image := fresh_image mb boot fsinfo root_data in
  len image = mb * 1048576 ∧
  slice image 0 512 = boot ∧
  slice image 1024 (cluster_offset 2) = bytearray (cluster_offset 2 - 1024) ∧
  slice image (cluster_offset 2) (cluster_offset 2 + 4096) = root_data.
Proof.
  intros Hmb Hb Hf Hr. cbv zeta. unfold fresh_image.
  rewrite !cluster_offset_eq.
  assert (len (bytearray (mb * 1024 * 1024)) = mb * 1048576) as Hl0
    by (rewrite len_bytearray; lia).
  assert (len (slice_set (bytearray (mb * 1024 * 1024)) 0 512 boot) = mb * 1048576)
    as Hl1 by (apply len_slice_set_same; [done|lia|lia|lia]).
  assert (len (slice_set (slice_set (bytearray (mb * 1024 * 1024)) 0 512 boot)
                 512 1024 fsinfo) = mb * 1048576)
    as Hl2 by (apply len_slice_set_same; [done|lia|lia|lia]).
  split; [|split; [|split]].
  - apply len_slice_set_same; [done|lia|lia|lia].
  - rewrite !slice_slice_set_below by lia. apply slice_slice_set_same; lia.
  - rewrite slice_slice_set_below by lia.
    rewrite !slice_slice_set_above by lia.
    apply slice_bytearray; lia.
  - apply slice_slice_set_same; lia.
Qed.

(** ** A whole build *)

Lemma add_file_Ok fs now path name b b' :
  add_file fs now path name b = Ok b' → b' = b ∨ add_step b b'.
Proof.
  unfold add_file. destruct (fs path) as [file_data|].
  - intros Hadd. right. by eexists _, _, _.
  - intros [= <-]. by left.
Qed.

Lemma add_files_steps fs clock paths : ∀ k b b',
  add_files fs clock k paths b = Ok b' → rtc add_step b b'.
Proof.
  induction paths as [|p paths IH]; intros k b b'; cbn [add_files].
  - intros [= <-]. apply rtc_refl.
  - destruct (add_file fs (clock k) p None b) as [b1|] eqn:Hadd;
      [rewrite bind_Ok|rewrite bind_Raise; done].
    intros Hrest. apply IH in Hrest.
    apply add_file_Ok in Hadd as [->|Hstep]; [done|].
    by eapply rtc_l.
Qed.

(** A build that produced an image went through these states. *)
Lemma build_Ok mb fs clock kernel_path additional_files image :
  build mb fs clock kernel_path additional_files = Ok image →
  ∃ b0 b1 b2,
    create_filesystem_structure (init mb) = Ok b0 ∧
    rtc add_step b0 b1 ∧
    write_fat_tables b1 = Ok b2 ∧
    image = disk_image b2.
Proof.
  unfold build. cbv zeta.
  destruct (create_filesystem_structure (init mb)) as [b0|];
    [rewrite bind_Ok|rewrite bind_Raise; done].
  destruct (add_file fs (clock 0%nat) kernel_path _ b0) as [bk|] eqn:Hk;
    [rewrite bind_Ok|rewrite bind_Raise; done].
  destruct (add_files fs clock 1 additional_files bk) as [ba|] eqn:Ha;
    [rewrite bind_Ok|rewrite bind_Raise; done].
  destruct (add_file_to_directory _ (str "CONFIG.TXT") _ ba) as [bc|] eqn:Hc;
    [rewrite bind_Ok|rewrite bind_Raise; done].
  destruct (add_file_to_directory _ (str "README.TXT") _ bc) as [br|] eqn:Hr;
    [rewrite bind_Ok|rewrite bind_Raise; done].
  destruct (write_fat_tables br) as [bw|] eqn:Hw;
    [rewrite bind_Ok|rewrite bind_Raise; done].
  intros [= <-]. exists b0, br, bw. split; [done|]. split; [|done].
  assert (rtc add_step b0 bk) as H0k.
  { apply add_file_Ok in Hk as [->|Hstep]; [done|]. by apply rtc_once. }
  apply add_files_steps in Ha.
  etrans; [exact H0k|]. etrans; [exact Ha|].
  eapply rtc_l; [by eexists _, _, _|]. apply rtc_once. by eexists _, _, _.
Qed.

(** ** Invariants of a build *)

Lemma fresh_builder mb b0 :
  1 ≤ mb → create_filesystem_structure (init mb) = Ok b0 →
  builder_inv b0 ∧ fat_packable (fat_table b0) ∧ size_mb b0 = mb ∧
  next_free_cluster b0 = 3 ∧ image_len_inv (mb * 1048576) b0 ∧
  len (disk_image b0) = mb * 1048576 ∧
  slice (disk_image b0) 510 512 = [0x55; 0xAA] ∧
  slice (disk_image b0) 1024 (cluster_offset 2) = bytearray (cluster_offset 2 - 1024) ∧
  root_directory_bytes = Ok (root_dir b0).
Proof.
  intros Hmb (boot & fsinfo & rd & Hboot & Hfs & Hrd & ->)%create_filesystem_structure_Ok.
  apply boot_sector_bytes_Ok in Hboot as [Hlb Hsig].
  destruct fsinfo_bytes_ok as (fsinfo' & Hfs' & Hlf).
  rewrite Hfs in Hfs'. injection Hfs' as <-.
  destruct root_directory_bytes_ok as (rd' & Hrd' & Hlr & _).
  rewrite Hrd in Hrd'. injection Hrd' as <-.
  destruct (fresh_image_facts mb boot fsinfo rd Hmb Hlb Hlf Hlr)
    as (Hlen & Hs0 & Hzero & Hroot).
  unfold builder_inv, image_len_inv.
  cbn [size_mb disk_image fat_table next_free_cluster].
  rewrite root_dir_eq. cbn [disk_image]. rewrite Hroot, Hlen, len_initial_fat.
  rewrite !cluster_offset_eq.
  split_and!; try done; try lia.
  - apply initial_fat_packable.
  - rewrite <- Hsig.
    transitivity (slice (slice (fresh_image mb boot fsinfo rd) 0 512) 510 512);
      [by rewrite slice_slice by lia|by rewrite Hs0].
Qed.

Lemma add_file_to_directory_packable now filename file_data b b' :
  builder_inv b → fat_packable (fat_table b) →
  add_file_to_directory now filename file_data b = Ok b' →
  fat_packable (fat_table b').
Proof.
  intros Hinv Hp Hadd. pose proof Hinv as (Hfat & Hnfc & Himg).
  apply add_file_to_directory_Ok in Hadd
    as (fn & dir' & _ & _ & _ & Hn & Hle & _ & [Hlen Hsame] & Hl & Hz); [|done].
  pose proof (len_nonneg file_data) as HS.
  destruct (decide (0 < len file_data)) as [Hpos|Hzero].
  2:{ rewrite Hz by lia. done. }
  destruct (Hl Hpos) as [Hl1 Hl2].
  pose proof (clusters_needed_pos _ Hpos) as Hn1.
  change ((sectors_per_fat * sector_size) `div` 4) with 32768 in Hfat.
  intros k e Hk.
  destruct (decide (Z.of_nat k < next_free_cluster b ∨
                    next_free_cluster b + clusters_needed (len file_data) ≤ Z.of_nat k))
    as [Hout|Hin].
  - rewrite <- (Nat2Z.id k) in Hk. rewrite Hsame in Hk by lia.
    by eapply Hp.
  - destruct (decide (Z.of_nat k = next_free_cluster b
                                   + clusters_needed (len file_data) - 1)) as [Hlast|Hmid].
    + rewrite <- Hlast, Nat2Z.id, Hk in Hl2. injection Hl2 as ->. lia.
    + specialize (Hl1 (Z.of_nat k - next_free_cluster b)).
      replace (next_free_cluster b + (Z.of_nat k - next_free_cluster b))
        with (Z.of_nat k) in Hl1 by lia.
      rewrite Nat2Z.id, Hk in Hl1. injection Hl1 as ->; lia.
Qed.

Lemma add_file_to_directory_len L now filename file_data b b' :
  builder_inv b → image_len_inv L b →
  add_file_to_directory now filename file_data b = Ok b' →
  image_len_inv L b'.
Proof.
  intros Hinv Hlen Hadd. unfold image_len_inv in *.
  pose proof (add_file_to_directory_image _ _ _ _ _ Hinv Hadd) as (-> & _).
  apply add_file_to_directory_Ok in Hadd
    as (fn & dir' & _ & _ & _ & -> & _); [|done].
  pose proof (len_nonneg file_data) as HS.
  pose proof (clusters_needed_nonneg _ HS).
  rewrite Hlen, !cluster_offset_eq. lia.
Qed.

(** Everything a sequence of insertions keeps. *)
Lemma add_steps_keep L b b' :
  rtc add_step b b' →
  builder_inv b → fat_packable (fat_table b) → image_len_inv L b →
  builder_inv b' ∧ fat_packable (fat_table b') ∧ image_len_inv L b' ∧
  size_mb b' = size_mb b ∧ next_free_cluster b ≤ next_free_cluster b' ∧
  ∀ s e, 0 ≤ s → e ≤ cluster_offset 2 →
    slice (disk_image b') s e = slice (disk_image b) s e.
Proof.
  induction 1 as [|b b1 b2 (now & fname & fdata & Hadd) _ IH];
    [intros; split_and!; try done; lia|].
  intros Hinv Hp Hlen.
  destruct IH as (Hinv' & Hp' & Hlen' & Hs' & Hn' & Hlow').
  - by eapply add_file_to_directory_inv.
  - by eapply add_file_to_directory_packable.
  - by eapply add_file_to_directory_len.
  - pose proof (add_file_to_directory_image _ _ _ _ _ Hinv Hadd) as (_ & _ & _ & Hlow).
    apply add_file_to_directory_Ok in Hadd
      as (fn & dir' & _ & _ & Hs & Hn & _); [|done].
    pose proof (len_nonneg fdata) as HS.
    pose proof (clusters_needed_nonneg _ HS).
    split_and!; try done; try lia; try congruence.
    intros s e Hs0 He. rewrite Hlow' by done. by apply Hlow.
Qed.

(** ** When an insertion succeeds *)

Lemma add_file_to_directory_ok now filename file_data b fn dir_data' :
  builder_inv b →
  fat_filename_of filename = Ok fn →
  next_free_cluster b + clusters_needed (len file_data) ≤ len (fat_table b) →
  insert_entry now fn (first_cluster_of b file_data) (len file_data) (root_dir b)
  = Ok dir_data' →
  ∃ b', add_file_to_directory now filename file_data b = Ok b'.
Proof.
  intros Hinv Hfn Hfit Hins. pose proof Hinv as (Hfat & Hnfc & Himg).
  rewrite root_dir_eq in Hins.
  unfold add_file_to_directory. cbv zeta.
  change ((len file_data + bytes_per_cluster - 1) `div` bytes_per_cluster)
    with (clusters_needed (len file_data)).
  change (cluster_to_sector root_cluster * sector_size) with (cluster_offset 2).
  change (cluster_offset 2 + bytes_per_cluster) with (cluster_offset 2 + 4096).
  rewrite Hfn, bind_Ok.
  destruct (first_cluster_of_cases b file_data) as [[Hpos Hfc]|(Hz & Hn0 & Hfc)];
    rewrite Hfc in Hins.
  - pose proof (clusters_needed_pos _ Hpos) as Hn1.
    destruct (allocate_chain_ok (len file_data) (clusters_needed (len file_data)) b)
      as [bf Halloc]; [done|done|lia|done|].
    rewrite Halloc, bind_Ok. cbv beta iota.
    apply allocate_chain_Ok in Halloc as (_ & _ & _ & _ & Hd & _); [|done|done|lia].
    cbn [disk_image set_disk_image]. rewrite Hd.
    pose proof (write_file_data_spec file_data (next_free_cluster b)
                  (Z.to_nat (clusters_needed (len file_data))) (disk_image b))
      as (_ & _ & Hlow).
    { rewrite cluster_offset_eq in *. lia. }
    rewrite Z2Nat.id in Hlow by lia.
    rewrite Hlow by (rewrite !cluster_offset_eq; lia).
    rewrite Hins, bind_Ok. by eexists.
  - rewrite Hz, Hn0 in *. rewrite allocate_chain_empty by lia.
    rewrite bind_Ok. cbv beta iota. cbn [disk_image set_disk_image].
    rewrite write_file_data_0, Hins, bind_Ok. by eexists.
Qed.

(** An insertion succeeds when the name encodes, the clock is a FAT date,
    the chain fits the FAT and the directory has a free slot. *)
Lemma add_file_to_directory_total now filename file_data b fn i :
  builder_inv b →
  fat_filename_of filename = Ok fn → fat_clock now →
  next_free_cluster b + clusters_needed (len file_data) ≤ len (fat_table b) →
  first_free (root_dir b) i →
  ∃ b', add_file_to_directory now filename file_data b = Ok b'.
Proof.
  intros Hinv Hfn Hclock Hfit Hff. pose proof Hinv as (Hfat & Hnfc & Himg).
  change ((sectors_per_fat * sector_size) `div` 4) with 32768 in Hfat.
  pose proof (len_nonneg file_data) as HS.
  pose proof (clusters_needed_bounds (len file_data)) as Hb.
  destruct (make_entry_ok now fn (first_cluster_of b file_data) (len file_data))
    as [e He].
  - by eapply fat_filename_of_length.
  - done.
  - change (2 ^ 32) with 4294967296.
    destruct (first_cluster_of_cases b file_data) as [[_ ->]|(_ & _ & ->)]; lia.
  - change (2 ^ 32) with 4294967296. lia.
  - destruct (insert_entry_ok now fn (first_cluster_of b file_data) (len file_data)
                (root_dir b) i e) as [dir' Hins]; try done.
    + by rewrite len_root_dir.
    + apply make_entry_Ok in He as [? _]; [done|]. by eapply fat_filename_of_length.
    + by eapply add_file_to_directory_ok.
Qed.

Lemma builder_inv_b_true b : builder_inv_b b = true → builder_inv b.
Proof.
  unfold builder_inv_b, builder_inv.
  rewrite !andb_true_iff, Z.eqb_eq, !Z.leb_le. tauto.
Qed.

Lemma unwrap_Ok r : is_ok r = true → r = Ok (unwrap r).
Proof. by destruct r. Qed.

(** C1 (round trip).  A file with a payload of [S > 0] bytes is added to a
    builder; any number of further insertions follow, then the FAT tables
    are written and the image is saved.  Reading the saved image back --
    following the file's chain from its first cluster through either FAT
    copy on disk, taking each cluster at the offset [cluster_to_sector]
    gives it, and concatenating in chain order -- yields the payload
    followed only by zero bytes up to the next cluster boundary. *)
Theorem round_trip now filename file_data b b1 b2 b3 copy :
  builder_inv b → 0 < len file_data →
  add_file_to_directory now filename file_data b = Ok b1 →
  rtc add_step b1 b2 →
  write_fat_tables b2 = Ok b3 →
  copy = 0 ∨ copy = 1 →
  read_chain (disk_entry (save b3) copy) (save b3) (next_free_cluster b)
  = Some (file_data ++ bytearray (clusters_needed (len file_data) * bytes_per_cluster
                                  - len file_data)).
Proof.
  intros Hinv Hpos Hadd Hsteps Hwrite Hcopy.
  pose proof (add_file_at _ _ _ _ _ Hinv Hpos Hadd) as Hat.
  pose proof (add_file_to_directory_inv _ _ _ _ _ Hinv Hadd) as Hinv1.
  pose proof (file_at_add_steps _ _ _ _ Hsteps Hinv1 Hat)
    as (_ & Hfc & Hle & [Hl1 Hl2] & Hread).
  pose proof (add_steps_inv _ _ Hsteps Hinv1) as Hinv2.
  pose proof Hinv2 as (Hfat & Hnfc & Himg).
  change ((sectors_per_fat * sector_size) `div` 4) with 32768 in Hfat.
  pose proof (write_fat_tables_image _ _ Hinv2 Hwrite) as (_ & _ & Hdata & Hentry).
  pose proof (clusters_needed_pos _ Hpos) as Hn1.
  unfold save.
  apply read_chain_stored; try done.
  - lia.
  - change ((sectors_per_fat * sector_size) `div` 4) with 32768. lia.
  - intros i Hi. rewrite Hentry by done.
    destruct (Z.leb_spec 0 (next_free_cluster b + i)); [|lia].
    destruct (Z.ltb_spec (next_free_cluster b + i) 32768); [|lia].
    by apply Hl1.
  - rewrite Hentry by done.
    destruct (Z.leb_spec 0 (next_free_cluster b + clusters_needed (len file_data) - 1));
      [|lia].
    destruct (Z.ltb_spec (next_free_cluster b + clusters_needed (len file_data) - 1) 32768);
      [|lia].
    done.
  - intros i Hi. rewrite <- Hread by done. unfold read_cluster.
    apply Hdata. rewrite !cluster_offset_eq. lia.
Qed.

Lemma round_trip_witness :
  read_chain (disk_entry (save demo_written) 0) (save demo_written)
    (next_free_cluster demo_builder)
  = Some (demo_payload ++ bytearray (clusters_needed (len demo_payload) * bytes_per_cluster
                                     - len demo_payload)).
Proof.
  apply (round_trip demo_clock (str "shell.elf") demo_payload
           demo_builder demo_added demo_added demo_written 0).
  - apply builder_inv_b_true. vm_compute. reflexivity.
  - vm_compute. reflexivity.
  - apply unwrap_Ok. vm_compute. reflexivity.
  - apply rtc_refl.
  - apply unwrap_Ok. vm_compute. reflexivity.
  - left. reflexivity.
Defined.

(** C4 (shape of a FAT chain).  For a file of [S > 0] bytes added to a
    builder, whatever insertions follow, its chain in the FAT holds exactly
    [n] clusters, where [n] is the ceiling of [S / bytes_per_cluster]; the
    entry of every cluster but the last is a cluster index greater than its
    own and is the next cluster of the chain, and the entry of the last is
    an end-of-chain marker, at least 0x0FFFFFF8. *)
Theorem fat_chain_shape now filename file_data b b1 b2 :
  builder_inv b → 0 < len file_data →
  add_file_to_directory now filename file_data b = Ok b1 →
  rtc add_step b1 b2 →
  let n := clusters_needed (len file_data) in
  let entry := table_entry (fat_table b2) in
  (n - 1) * bytes_per_cluster < len file_data ≤ n * bytes_per_cluster ∧
  ∃ chain,
    chain_of entry (next_free_cluster b) = Some chain ∧ len chain = n ∧
    ∀ k c, chain !! k = Some c →
      ∃ e, entry c = Some e ∧
           if decide (Z.of_nat k < n - 1)
           then c < e ∧ chain !! S k = Some e
           else EOC_MIN ≤ e.
Proof.
  intros Hinv Hpos Hadd Hsteps. cbv zeta.
  pose proof (add_file_at _ _ _ _ _ Hinv Hpos Hadd) as Hat.
  pose proof (add_file_to_directory_inv _ _ _ _ _ Hinv Hadd) as Hinv1.
  pose proof (file_at_add_steps _ _ _ _ Hsteps Hinv1 Hat)
    as (_ & Hfc & Hle & [Hl1 Hl2] & _).
  pose proof (add_steps_inv _ _ Hsteps Hinv1) as (Hfat & Hnfc & _).
  pose proof (clusters_needed_pos _ Hpos) as Hn1.
  split; [rewrite bytes_per_cluster_eq; apply clusters_needed_bounds|].
  exists (seqZ (next_free_cluster b) (clusters_needed (len file_data))).
  split; [|split].
  - apply chain_of_entries; try lia.
    + intros i Hi. rewrite table_entry_nonneg by lia. by apply Hl1.
    + rewrite table_entry_nonneg by lia. done.
  - unfold len at 1. rewrite length_seqZ. lia.
  - intros k c (-> & Hk)%lookup_seqZ.
    rewrite table_entry_nonneg by lia. case_decide.
    + exists (next_free_cluster b + Z.of_nat k + 1).
      split; [apply Hl1; lia|]. split; [lia|].
      rewrite lookup_seqZ_lt by lia. f_equal. lia.
    + exists 0x0FFFFFFF. split; [|unfold EOC_MIN; lia].
      rewrite <- Hl2. do 2 f_equal. lia.
Qed.

Lemma fat_chain_shape_witness :
  let n := clusters_needed (len demo_payload) in
  let entry := table_entry (fat_table demo_added) in
  (n - 1) * bytes_per_cluster < len demo_payload ≤ n * bytes_per_cluster ∧
  ∃ chain,
    chain_of entry (next_free_cluster demo_builder) = Some chain ∧ len chain = n ∧
    ∀ k c, chain !! k = Some c →
      ∃ e, entry c = Some e ∧
           if decide (Z.of_nat k < n - 1)
           then c < e ∧ chain !! S k = Some e
           else EOC_MIN ≤ e.
Proof.
  apply (fat_chain_shape demo_clock (str "shell.elf") demo_payload
           demo_builder demo_added demo_added).
  - apply builder_inv_b_true. vm_compute. reflexivity.
  - vm_compute. reflexivity.
  - apply unwrap_Ok. vm_compute. reflexivity.
  - apply rtc_refl.
Defined.

Lemma data_clusters_seqZ fc n : data_clusters fc n = seqZ fc n.
Proof.
  unfold data_clusters, range. rewrite Z.sub_0_r.
  replace (seqZ fc n) with (seqZ (fc + 0) n) by (f_equal; lia).
  by rewrite <- fmap_add_seqZ.
Qed.

(** The placement loop, as a loop over the clusters it writes. *)
Lemma write_file_data_clusters file_data fc n image :
  write_file_data file_data fc n image
  = fold_left (λ image c,
      slice_set image (cluster_offset c) (cluster_offset c + bytes_per_cluster)
        (padded_chunk file_data (c - fc)))
      (data_clusters fc n) image.
Proof.
  unfold write_file_data, data_clusters. generalize (range 0 n). intros xs.
  revert image. induction xs as [|i xs IH]; intros image; [done|].
  cbn [fold_left fmap list_fmap]. rewrite IH. f_equal.
  unfold write_chunk, cluster_offset. do 2 f_equal. lia.
Qed.

(** C10 (chains are consecutive).  For a file of [S > 0] bytes the first
    cluster is the allocator's counter, the counter advances by the number
    [n] of clusters needed, the chain in the FAT is exactly the list of
    clusters the placement loop writes, that list is
    [fc, fc + 1, ..., fc + n - 1], and cluster [fc + i] holds chunk [i] of
    the payload. *)
Theorem chain_is_consecutive now filename file_data b b1 :
  builder_inv b → 0 < len file_data →
  add_file_to_directory now filename file_data b = Ok b1 →
  let n := clusters_needed (len file_data) in
  let fc := first_cluster_of b file_data in
  fc = next_free_cluster b ∧ next_free_cluster b1 = fc + n ∧
  chain_of (table_entry (fat_table b1)) fc = Some (data_clusters fc n) ∧
  data_clusters fc n = seqZ fc n ∧
  ∀ i, 0 ≤ i < n → read_cluster (disk_image b1) (fc + i) = padded_chunk file_data i.
Proof.
  intros Hinv Hpos Hadd. cbv zeta. rewrite first_cluster_of_pos by done.
  pose proof (add_file_at _ _ _ _ _ Hinv Hpos Hadd)
    as (_ & Hfc & Hle & [Hl1 Hl2] & Hread).
  pose proof (add_file_to_directory_inv _ _ _ _ _ Hinv Hadd) as (Hfat & Hnfc & _).
  pose proof (clusters_needed_pos _ Hpos) as Hn1.
  apply add_file_to_directory_Ok in Hadd as (_ & _ & _ & _ & _ & Hn & _); [|done].
  split; [done|]. split; [done|]. split; [|split; [apply data_clusters_seqZ|done]].
  rewrite data_clusters_seqZ. apply chain_of_entries; try lia.
  - intros i Hi. rewrite table_entry_nonneg by lia. by apply Hl1.
  - rewrite table_entry_nonneg by lia. done.
Qed.

Lemma chain_is_consecutive_witness :
  let n := clusters_needed (len demo_payload) in
  let fc := first_cluster_of demo_builder demo_payload in
  fc = next_free_cluster demo_builder ∧ next_free_cluster demo_added = fc + n ∧
  chain_of (table_entry (fat_table demo_added)) fc = Some (data_clusters fc n) ∧
  data_clusters fc n = seqZ fc n ∧
  ∀ i, 0 ≤ i < n →
    read_cluster (disk_image demo_added) (fc + i) = padded_chunk demo_payload i.
Proof.
  apply (chain_is_consecutive demo_clock (str "shell.elf") demo_payload
           demo_builder demo_added).
  - apply builder_inv_b_true. vm_compute. reflexivity.
  - vm_compute. reflexivity.
  - apply unwrap_Ok. vm_compute. reflexivity.
Defined.

Lemma is_slot_cluster dir_data i :
  len dir_data = bytes_per_cluster →
  is_slot dir_data i ↔ ∃ k, 0 ≤ k < bytes_per_cluster / 32 ∧ i = 32 * k.
Proof.
  intros Hl. unfold is_slot. rewrite Hl, bytes_per_cluster_eq.
  change (4096 `div` 32) with 128. split; intros (k & Hk); exists k; lia.
Qed.

(** C6 (directory insertion).  For a directory cluster of
    [bytes_per_cluster] bytes: the slots scanned are the
    [bytes_per_cluster / 32] offsets that are multiples of 32; the insertion
    raises [DirectoryFull] if and only if no slot starts with 0x00 or 0xE5;
    when it succeeds the new 32-byte entry is in the first such slot, the
    cluster has kept its length, and nothing else changed except possibly
    the first byte of the next slot (the end marker); it does succeed when
    a slot is free and the clock and the fields fit their encodings.  A
    whole [add_file_to_directory] leaves the root directory one cluster
    long, with the FAT entry of the root cluster as it was. *)
Theorem directory_insertion now fn fc S dir_data :
  length fn = 11%nat → len dir_data = bytes_per_cluster →
  (∀ i, is_slot dir_data i ↔ ∃ k, 0 ≤ k < bytes_per_cluster / 32 ∧ i = 32 * k) ∧
  (insert_entry now fn fc S dir_data = Raise DirectoryFull ↔ no_free dir_data) ∧
  (∀ dir_data',
     insert_entry now fn fc S dir_data = Ok dir_data' →
     ∃ i e, first_free dir_data i ∧ make_entry now fn fc S = Ok e ∧
            len e = 32 ∧ dir_slot dir_data' i = e ∧
            len dir_data' = bytes_per_cluster ∧
            slice dir_data' 0 i = slice dir_data 0 i ∧
            slice dir_data' (i + 33) (len dir_data)
            = slice dir_data (i + 33) (len dir_data)) ∧
  (∀ i, first_free dir_data i → fat_clock now →
        0 ≤ fc < 2 ^ 32 → 0 ≤ S < 2 ^ 32 →
        ∃ dir_data', insert_entry now fn fc S dir_data = Ok dir_data') ∧
  (∀ filename file_data b b',
     builder_inv b →
     add_file_to_directory now filename file_data b = Ok b' →
     len (root_dir b') = bytes_per_cluster ∧
     table_entry (fat_table b') root_cluster = table_entry (fat_table b) root_cluster).
Proof.
  intros Hfn Hlen.
  assert (len dir_data `mod` 32 = 0) as Hmod by (by rewrite Hlen).
  split; [intros i; by apply is_slot_cluster|].
  split; [apply insert_entry_full|]. split; [|split].
  - intros dir' Hins.
    destruct (insert_entry_Ok _ _ _ _ _ _ Hfn Hmod Hins)
      as (i & e & Hff & He & Hl & Hslot & Hlow & Hhigh).
    exists i, e. pose proof (make_entry_Ok _ _ _ _ _ Hfn He) as [Hle _].
    split_and!; try done. by rewrite Hl.
  - intros i Hff Hclock Hfc HS.
    destruct (make_entry_ok now fn fc S Hfn Hclock Hfc HS) as [e He].
    pose proof (make_entry_Ok _ _ _ _ _ Hfn He) as [Hle _].
    by eapply insert_entry_ok.
  - intros filename file_data b b' Hinv Hadd.
    pose proof (add_file_to_directory_inv _ _ _ _ _ Hinv Hadd) as Hinv'.
    split; [rewrite bytes_per_cluster_eq; by apply len_root_dir|].
    pose proof Hinv as (_ & Hnfc & _).
    apply add_file_to_directory_Ok in Hadd
      as (fn' & dir' & _ & _ & _ & _ & _ & _ & [_ Hsame] & _); [|done].
    unfold table_entry, root_cluster. cbn [Z.leb Z.compare].
    apply Hsame; lia.
Qed.

Lemma directory_insertion_witness :
  (∀ i, is_slot demo_root i ↔ ∃ k, 0 ≤ k < bytes_per_cluster / 32 ∧ i = 32 * k) ∧
  (insert_entry demo_clock demo_name 3 5000 demo_root = Raise DirectoryFull
   ↔ no_free demo_root) ∧
  (∀ dir_data',
     insert_entry demo_clock demo_name 3 5000 demo_root = Ok dir_data' →
     ∃ i e, first_free demo_root i ∧ make_entry demo_clock demo_name 3 5000 = Ok e ∧
            len e = 32 ∧ dir_slot dir_data' i = e ∧
            len dir_data' = bytes_per_cluster ∧
            slice dir_data' 0 i = slice demo_root 0 i ∧
            slice dir_data' (i + 33) (len demo_root)
            = slice demo_root (i + 33) (len demo_root)) ∧
  (∀ i, first_free demo_root i → fat_clock demo_clock →
        0 ≤ 3 < 2 ^ 32 → 0 ≤ 5000 < 2 ^ 32 →
        ∃ dir_data', insert_entry demo_clock demo_name 3 5000 demo_root = Ok dir_data') ∧
  (∀ filename file_data b b',
     builder_inv b →
     add_file_to_directory demo_clock filename file_data b = Ok b' →
     len (root_dir b') = bytes_per_cluster ∧
     table_entry (fat_table b') root_cluster = table_entry (fat_table b) root_cluster).
Proof.
  apply (directory_insertion demo_clock demo_name 3 5000 demo_root).
  - vm_compute. reflexivity.
  - vm_compute. reflexivity.
Defined.

Lemma getitem_Ok a i x : 0 ≤ i → getitem a i = Ok x → a !! Z.to_nat i = Some x.
Proof.
  intros Hi. unfold getitem. rewrite py_index_nonneg by done.
  case_decide; [|done]. destruct (a !! Z.to_nat i); [|done]. by intros [= ->].
Qed.

Lemma first_free_unique dir_data i j :
  first_free dir_data i → first_free dir_data j → i = j.
Proof.
  intros (Hi & Hfi & Hbi) (Hj & Hfj & Hbj).
  destruct (Z.lt_trichotomy i j) as [Hlt|[->|Hlt]]; [|done|].
  - specialize (Hbj i Hi Hlt). congruence.
  - specialize (Hbi j Hj Hlt). congruence.
Qed.

Lemma first_free_exists dir_data j :
  is_slot dir_data j → slot_free dir_data j = true →
  ∃ i, first_free dir_data i ∧ i ≤ j.
Proof.
  intros Hj Hfree.
  destruct (find_free_slot dir_data) as [i|] eqn:Hfind.
  - apply find_free_slot_Some in Hfind. exists i. split; [done|].
    destruct Hfind as (_ & _ & Hb).
    destruct (Z.le_gt_cases i j); [done|].
    specialize (Hb j Hj ltac:(lia)). congruence.
  - apply find_free_slot_None in Hfind. specialize (Hfind j Hj). congruence.
Qed.

(** After an insertion the slot behind the new entry is free: its first
    byte is 0xE5 or was set to 0x00. *)
Lemma insert_entry_next now fn fc S dir_data dir_data' :
  length fn = 11%nat → len dir_data `mod` 32 = 0 →
  insert_entry now fn fc S dir_data = Ok dir_data' →
  ∃ i, first_free dir_data i ∧
       (i + 32 < len dir_data → slot_free dir_data' (i + 32) = true).
Proof.
  intros Hfn Hmod. unfold insert_entry.
  destruct (find_free_slot dir_data) as [i|] eqn:Hfind; [|done].
  apply find_free_slot_Some in Hfind as Hff.
  destruct (make_entry now fn fc S) as [e|] eqn:He; [rewrite bind_Ok|done].
  pose proof (make_entry_Ok _ _ _ _ _ Hfn He) as (Hle & _).
  pose proof Hff as (Hslot & _).
  pose proof (is_slot_fits _ _ Hmod Hslot) as [Hi0 Hi32].
  cbv zeta.
  remember (slice_set dir_data i (i + 32) e) as dir1 eqn:Hd1.
  assert (len dir1 = len dir_data) as Hl1
    by (subst dir1; rewrite len_slice_set by lia; lia).
  intros Hres. exists i. split; [done|]. intros Hlt.
  destruct (Z.ltb_spec (i + 32) (len dir1)); [|lia].
  destruct (getitem dir1 (i + 32)) as [next|] eqn:Hget;
    [rewrite bind_Ok in Hres|by rewrite bind_Raise in Hres].
  apply getitem_Ok in Hget; [|lia].
  unfold slot_free.
  destruct (Z.eqb_spec next 229) as [->|Hne]; cbn [negb] in Hres.
  - injection Hres as <-. by rewrite Hget.
  - apply setitem_Ok in Hres as [_ ->]; [|lia].
    rewrite list_lookup_insert_eq; [done|]. unfold len in *. lia.
Qed.

Lemma add_file_to_directory_free k now filename file_data b b' :
  builder_inv b → free_within k b → 0 ≤ k < 127 →
  add_file_to_directory now filename file_data b = Ok b' →
  free_within (k + 1) b'.
Proof.
  intros Hinv (i & Hff & Hik) Hk Hadd.
  pose proof (len_root_dir _ Hinv) as Hroot.
  pose proof (add_file_to_directory_inv _ _ _ _ _ Hinv Hadd) as Hinv'.
  pose proof (len_root_dir _ Hinv') as Hroot'.
  destruct (add_file_to_directory_root _ _ _ _ _ Hinv Hadd) as (fn & Hfn & Hins).
  apply insert_entry_next in Hins as (i' & Hff' & Hnext);
    [|by eapply fat_filename_of_length|by rewrite Hroot].
  rewrite (first_free_unique _ _ _ Hff' Hff) in Hnext.
  destruct Hff as ((ki & Hki & -> & _) & _).
  destruct (first_free_exists (root_dir b') (32 * ki + 32)) as (j & Hj & Hle).
  - exists (ki + 1). rewrite Hroot'. lia.
  - apply Hnext. lia.
  - exists j. split; [done|lia].
Qed.

(** ** A build with no additional file on disk *)

Lemma add_files_missing fs clock paths : ∀ k b,
  Forall (λ p, fs p = None) paths → add_files fs clock k paths b = Ok b.
Proof.
  induction paths as [|p paths IH]; intros k b Hall; [done|].
  apply Forall_cons in Hall as [Hp Hall]. cbn [add_files].
  unfold add_file at 1. rewrite Hp, bind_Ok. by apply IH.
Qed.

Lemma build_ok mb fs clock kernel_path additional_files :
  1 ≤ mb < 2 ^ 21 → (∀ k, fat_clock (clock k)) →
  Forall (λ p, fs p = None) additional_files →
  match fs kernel_path with
  | Some kernel => clusters_needed (len kernel) ≤ 32763
  | None => True
  end →
  let n := length additional_files in
  ∃ b0 bk bc br bw,
    create_filesystem_structure (init mb) = Ok b0 ∧
    add_file fs (clock 0%nat) kernel_path (Some "KERNEL.BIN"%string) b0 = Ok bk ∧
    add_file_to_directory (clock (S n)) (str "CONFIG.TXT") config_data bk = Ok bc ∧
    add_file_to_directory (clock (S (S n))) (str "README.TXT") readme_data bc = Ok br ∧
    write_fat_tables br = Ok bw ∧
    build mb fs clock kernel_path additional_files = Ok (disk_image bw).
Proof.
  intros Hmb Hclock Hmiss Hkernel. cbv zeta.
  destruct (create_filesystem_structure_ok mb) as [b0 Hb0]; [lia|].
  destruct (fresh_builder mb b0 ltac:(lia) Hb0)
    as (Hinv0 & Hp0 & _ & Hn0 & _ & _ & _ & _ & Hroot0).
  destruct root_directory_bytes_ok as (rd & Hrd & _ & Hfree).
  rewrite Hroot0 in Hrd. injection Hrd as <-.
  apply find_free_slot_Some in Hfree.
  assert (free_within 1 b0) as Hf0 by (exists 32; split; [done|lia]).
  pose proof Hinv0 as (Hfat0 & _ & _).
  change ((sectors_per_fat * sector_size) `div` 4) with 32768 in Hfat0.
  (* the kernel *)
  assert (∃ bk, add_file fs (clock 0%nat) kernel_path (Some "KERNEL.BIN"%string) b0
                = Ok bk ∧ builder_inv bk ∧ fat_packable (fat_table bk) ∧
                free_within 2 bk ∧ next_free_cluster bk ≤ 32766)
    as (bk & Hbk & Hinvk & Hpk & Hfk & Hnk).
  { unfold add_file. destruct (fs kernel_path) as [kernel|].
    - destruct Hf0 as (i & Hff & Hi1).
      destruct (add_file_to_directory_total (clock 0%nat) (str "KERNEL.BIN") kernel
                  b0 (str "KERNEL  BIN") i) as [bk Hbk]; try done.
      { rewrite Hn0, Hfat0. lia. }
      exists bk. split; [done|].
      split; [by eapply add_file_to_directory_inv|].
      split; [by eapply add_file_to_directory_packable|].
      split; [eapply (add_file_to_directory_free 1);
              [exact Hinv0|exists i; split; [exact Hff|exact Hi1]|lia|exact Hbk]|].
      apply add_file_to_directory_Ok in Hbk
        as (? & ? & _ & _ & _ & -> & _); [|done]. lia.
    - exists b0. split_and!; try done; [|lia].
      destruct Hf0 as (i & ? & ?). exists i. split; [done|lia]. }
  pose proof Hinvk as (Hfatk & Hnk3 & _).
  change ((sectors_per_fat * sector_size) `div` 4) with 32768 in Hfatk.
  (* CONFIG.TXT *)
  destruct Hfk as (ik & Hffk & Hik).
  destruct (add_file_to_directory_total (clock (S (length additional_files)))
              (str "CONFIG.TXT") config_data bk (str "CONFIG  TXT") ik)
    as [bc Hbc]; try done.
  { rewrite Hfatk. change (clusters_needed (len config_data)) with 1. lia. }
  pose proof (add_file_to_directory_inv _ _ _ _ _ Hinvk Hbc) as Hinvc.
  pose proof (add_file_to_directory_packable _ _ _ _ _ Hinvk Hpk Hbc) as Hpc.
  assert (free_within 3 bc) as (ic & Hffc & Hic).
  { eapply (add_file_to_directory_free 2);
      [exact Hinvk|exists ik; split; [exact Hffk|exact Hik]|lia|exact Hbc]. }
  pose proof Hbc as Hbc'.
  apply add_file_to_directory_Ok in Hbc'
    as (? & ? & _ & _ & _ & Hnc & _); [|done].
  change (clusters_needed (len config_data)) with 1 in Hnc.
  pose proof Hinvc as (Hfatc & _ & _).
  change ((sectors_per_fat * sector_size) `div` 4) with 32768 in Hfatc.
  (* README.TXT *)
  destruct (add_file_to_directory_total (clock (S (S (length additional_files))))
              (str "README.TXT") readme_data bc (str "README  TXT") ic)
    as [br Hbr]; try done.
  { rewrite Hfatc. change (clusters_needed (len readme_data)) with 1. lia. }
  pose proof (add_file_to_directory_inv _ _ _ _ _ Hinvc Hbr) as Hinvr.
  pose proof (add_file_to_directory_packable _ _ _ _ _ Hinvc Hpc Hbr) as Hpr.
  destruct (write_fat_tables_ok br Hinvr Hpr) as [bw Hbw].
  exists b0, bk, bc, br, bw. split_and!; try done.
  unfold build. cbv zeta.
  rewrite Hb0, bind_Ok, Hbk, bind_Ok.
  rewrite add_files_missing by done. rewrite bind_Ok.
  rewrite Hbc, bind_Ok, Hbr, bind_Ok, Hbw, bind_Ok. done.
Qed.

Lemma single_file_same path data : single_file path data path = Some data.
Proof. unfold single_file. by rewrite String.eqb_refl. Qed.

Lemma fat_clock_demo : fat_clock demo_clock.
Proof. unfold fat_clock, demo_clock. cbn. lia. Qed.

Lemma fat_clock_later : fat_clock demo_later.
Proof. unfold fat_clock, demo_later. cbn. lia. Qed.

(** What every image of a build holds in its reserved sectors, and how
    long it is. *)
Lemma build_image mb fs clock kernel_path additional_files image :
  1 ≤ mb → build mb fs clock kernel_path additional_files = Ok image →
  ∃ b, builder_inv b ∧
       len image = Z.max (mb * 1048576) (cluster_offset (next_free_cluster b)) ∧
       slice image 510 512 = [0x55; 0xAA] ∧
       slice image (6 * 512) (7 * 512) = bytearray 512 ∧
       slice image (cluster_offset 2) (cluster_offset 2 + 4096) = root_dir b.
Proof.
  intros Hmb (b0 & b1 & b2 & Hb0 & Hsteps & Hw & ->)%build_Ok.
  destruct (fresh_builder mb b0 Hmb Hb0)
    as (Hinv0 & Hp0 & _ & Hn0 & Hlen0 & _ & Hsig & Hzero & _).
  destruct (add_steps_keep _ _ _ Hsteps Hinv0 Hp0 Hlen0)
    as (Hinv1 & _ & Hlen1 & _ & _ & Hlow).
  destruct (write_fat_tables_image _ _ Hinv1 Hw) as (Hl & Hres & Hdata & _).
  rewrite cluster_offset_eq in *.
  exists b1. split; [done|]. split; [by rewrite Hl|].
  split; [by rewrite Hres, Hlow by lia|]. split.
  - rewrite Hres, Hlow by lia.
    change (6 * 512) with (1024 + 2048). change (7 * 512) with (1024 + 2560).
    rewrite <- (slice_slice _ 1024 (4096 * 2 + 270336)) by lia.
    rewrite Hzero. apply slice_bytearray; lia.
  - rewrite Hdata by lia. by rewrite root_dir_eq, cluster_offset_eq.
Qed.

Lemma boot_sector_differs image :
  slice image 510 512 = [0x55; 0xAA] →
  slice image (6 * 512) (7 * 512) = bytearray 512 →
  slice image 0 512 ≠ slice image (6 * 512) (7 * 512).
Proof.
  intros Hsig Hzero Heq. rewrite Hzero in Heq.
  assert (slice (slice image 0 512) 510 512 = slice (bytearray 512) 510 512)
    as Hs by (by rewrite Heq).
  rewrite slice_slice in Hs by lia. rewrite slice_bytearray in Hs by lia.
  change (0 + 510) with 510 in Hs. change (0 + 512) with 512 in Hs.
  rewrite Hsig in Hs. vm_compute in Hs. discriminate.
Qed.

(** C2 (backup boot sector), on [build_disk.py]: the run of [main] with no
    input file on disk produces an image whose sector 6, the backup
    location its own boot sector declares at offset 50, is all zero, while
    sector 0 ends with the signature 55 AA; the two sectors differ.
    [create_boot_sector] writes the boot sector at sector 0 only. *)
Theorem backup_boot_sector_absent :
  ∃ image,
    main no_files (λ _, demo_clock) "build/kernel.bin" [] = Ok image ∧
    slice image (6 * 512) (7 * 512) = bytearray 512 ∧
    slice image 510 512 = [0x55; 0xAA] ∧
    slice image 0 512 ≠ slice image (6 * 512) (7 * 512).
Proof.
  destruct (build_ok 32 no_files (λ _, demo_clock) "build/kernel.bin" [])
    as (b0 & bk & bc & br & bw & _ & _ & _ & _ & _ & Hbuild).
  - change (2 ^ 21) with 2097152. lia.
  - intros _. apply fat_clock_demo.
  - apply Forall_nil_2.
  - exact I.
  - exists (disk_image bw). split; [exact Hbuild|].
    apply build_image in Hbuild as (b & _ & _ & Hsig & Hzero & _); [|lia].
    split; [exact Hzero|]. split; [exact Hsig|].
    by apply boot_sector_differs.
Qed.

(** The length of the image of a build whose additional files are all
    missing. *)
Lemma build_length mb fs clock kernel_path additional_files :
  1 ≤ mb < 2 ^ 21 → (∀ k, fat_clock (clock k)) →
  Forall (λ p, fs p = None) additional_files →
  let n := match fs kernel_path with
           | Some kernel => clusters_needed (len kernel)
           | None => 0
           end in
  n ≤ 32763 →
  ∃ image, build mb fs clock kernel_path additional_files = Ok image ∧
           len image = Z.max (mb * 1048576) (cluster_offset (5 + n)).
Proof.
  intros Hmb Hclock Hmiss n Hn.
  destruct (build_ok mb fs clock kernel_path additional_files Hmb Hclock Hmiss)
    as (b0 & bk & bc & br & bw & Hb0 & Hbk & Hbc & Hbr & Hbw & Hbuild).
  { subst n. by destruct (fs kernel_path). }
  exists (disk_image bw). split; [exact Hbuild|].
  destruct (fresh_builder mb b0 ltac:(lia) Hb0)
    as (Hinv0 & _ & _ & Hn0 & Hlen0 & _).
  assert (builder_inv bk ∧ image_len_inv (mb * 1048576) bk ∧
          next_free_cluster bk = 3 + n) as (Hinvk & Hlenk & Hnk).
  { unfold add_file in Hbk. subst n. destruct (fs kernel_path) as [kernel|].
    - split; [by eapply add_file_to_directory_inv|].
      split; [by eapply add_file_to_directory_len|].
      apply add_file_to_directory_Ok in Hbk
        as (? & ? & _ & _ & _ & -> & _); [|done]. by rewrite Hn0.
    - injection Hbk as <-. split_and!; first [done|by rewrite Hn0]. }
  pose proof (add_file_to_directory_inv _ _ _ _ _ Hinvk Hbc) as Hinvc.
  pose proof (add_file_to_directory_len _ _ _ _ _ _ Hinvk Hlenk Hbc) as Hlenc.
  pose proof (add_file_to_directory_inv _ _ _ _ _ Hinvc Hbr) as Hinvr.
  pose proof (add_file_to_directory_len _ _ _ _ _ _ Hinvc Hlenc Hbr) as Hlenr.
  apply add_file_to_directory_Ok in Hbc
    as (? & ? & _ & _ & _ & Hnc & _); [|done].
  apply add_file_to_directory_Ok in Hbr
    as (? & ? & _ & _ & _ & Hnr & _); [|done].
  change (clusters_needed (len config_data)) with 1 in Hnc.
  change (clusters_needed (len readme_data)) with 1 in Hnr.
  destruct (write_fat_tables_image _ _ Hinvr Hbw) as (-> & _).
  unfold image_len_inv in Hlenr. rewrite Hlenr. do 2 f_equal. lia.
Qed.

(** C5 (image length), on [build_disk.py]: [main] given a kernel file of
    33554432 bytes ends normally and writes an image of 33845248 bytes,
    where [total_sectors * sector_size] is 33554432.  The slice assignments
    of the placement loop extend the image past its nominal size. *)
Theorem oversized_kernel_grows_image :
  ∃ image,
    main (single_file "build/kernel.bin" (bytearray 33554432)) (λ _, demo_clock)
         "build/kernel.bin" [] = Ok image ∧
    len image = 33845248 ∧
    total_sectors (init 32) * sector_size = 33554432.
Proof.
  destruct (build_length 32 (single_file "build/kernel.bin" (bytearray 33554432))
              (λ _, demo_clock) "build/kernel.bin" [])
    as (image & Hbuild & Hlen).
  - change (2 ^ 21) with 2097152. lia.
  - intros _. apply fat_clock_demo.
  - apply Forall_nil_2.
  - rewrite single_file_same, len_bytearray by lia.
    change (clusters_needed 33554432) with 8192. lia.
  - exists image. split; [exact Hbuild|]. split; [|reflexivity].
    rewrite Hlen, single_file_same, len_bytearray by lia.
    change (clusters_needed 33554432) with 8192. rewrite cluster_offset_eq. lia.
Qed.

(** The root directory of the image of a build that found no file. *)
Lemma build_root_dir mb clock kernel_path additional_files image :
  1 ≤ mb →
  build mb no_files clock kernel_path additional_files = Ok image →
  let n := length additional_files in
  root_after (clock (S n)) (clock (S (S n)))
  = Ok (slice image (cluster_offset 2) (cluster_offset 2 + 4096)).
Proof.
  intros Hmb Hbuild. cbv zeta.
  revert Hbuild. unfold build. cbv zeta.
  destruct (create_filesystem_structure (init mb)) as [b0|] eqn:Hb0;
    [rewrite bind_Ok|rewrite bind_Raise; done].
  unfold add_file at 1. change (no_files kernel_path) with (@None (list Z)).
  cbv beta iota. rewrite bind_Ok.
  rewrite add_files_missing by (apply Forall_forall; done). rewrite bind_Ok.
  destruct (add_file_to_directory _ (str "CONFIG.TXT") _ b0) as [bc|] eqn:Hbc;
    [rewrite bind_Ok|rewrite bind_Raise; done].
  destruct (add_file_to_directory _ (str "README.TXT") _ bc) as [br|] eqn:Hbr;
    [rewrite bind_Ok|rewrite bind_Raise; done].
  destruct (write_fat_tables br) as [bw|] eqn:Hbw;
    [rewrite bind_Ok|rewrite bind_Raise; done].
  intros [= <-].
  destruct (fresh_builder mb b0 Hmb Hb0)
    as (Hinv0 & _ & _ & Hn0 & _ & _ & _ & _ & Hroot0).
  pose proof (add_file_to_directory_inv _ _ _ _ _ Hinv0 Hbc) as Hinvc.
  pose proof (add_file_to_directory_inv _ _ _ _ _ Hinvc Hbr) as Hinvr.
  destruct (add_file_to_directory_root _ _ _ _ _ Hinv0 Hbc) as (fnc & Hfnc & Hic).
  destruct (add_file_to_directory_root _ _ _ _ _ Hinvc Hbr) as (fnr & Hfnr & Hir).
  rewrite first_cluster_of_pos in Hic, Hir by done.
  apply add_file_to_directory_Ok in Hbc
    as (? & ? & _ & _ & _ & Hnc & _); [|done].
  change (clusters_needed (len config_data)) with 1 in Hnc.
  rewrite Hn0 in Hic. rewrite Hnc, Hn0 in Hir. change (3 + 1) with 4 in Hir.
  unfold root_after. rewrite Hroot0, bind_Ok, Hfnc, bind_Ok, Hic, bind_Ok.
  rewrite Hfnr, bind_Ok, Hir.
  destruct (write_fat_tables_image _ _ Hinvr Hbw) as (_ & _ & Hdata & _).
  cbn [save]. unfold save. rewrite Hdata by lia. by rewrite root_dir_eq.
Qed.

(** C3 as it is stated does not hold of [build_disk.py]: [main] run on the
    same inputs (no file on disk) at 13:45:59 and at 13:46:01 writes two
    different images; they differ in the time field of a directory entry. *)
Lemma build_depends_on_clock :
  main no_files (λ _, demo_clock) "build/kernel.bin" []
  ≠ main no_files (λ _, demo_later) "build/kernel.bin" [].
Proof.
  destruct (build_ok 32 no_files (λ _, demo_clock) "build/kernel.bin" [])
    as (? & ? & ? & ? & bw1 & _ & _ & _ & _ & _ & Hbuild1);
    [change (2 ^ 21) with 2097152; lia|intros _; apply fat_clock_demo
    |apply Forall_nil_2|exact I|].
  destruct (build_ok 32 no_files (λ _, demo_later) "build/kernel.bin" [])
    as (? & ? & ? & ? & bw2 & _ & _ & _ & _ & _ & Hbuild2);
    [change (2 ^ 21) with 2097152; lia|intros _; apply fat_clock_later
    |apply Forall_nil_2|exact I|].
  unfold main. rewrite Hbuild1, Hbuild2. intros [= Heq].
  apply build_root_dir in Hbuild1, Hbuild2; [|lia..].
  cbv zeta in Hbuild1, Hbuild2. rewrite Heq in Hbuild1.
  rewrite <- Hbuild2 in Hbuild1.
  apply (f_equal (λ r, byte_at r 46)) in Hbuild1.
  vm_compute in Hbuild1. discriminate Hbuild1.
Qed.

Lemma make_entry_stamp now1 now2 fn fc S :
  time_val now1 = time_val now2 → date_val now1 = date_val now2 →
  make_entry now1 fn fc S = make_entry now2 fn fc S.
Proof. intros Ht Hd. unfold make_entry. cbv zeta. by rewrite Ht, Hd. Qed.

Lemma insert_entry_stamp now1 now2 fn fc S dir_data :
  time_val now1 = time_val now2 → date_val now1 = date_val now2 →
  insert_entry now1 fn fc S dir_data = insert_entry now2 fn fc S dir_data.
Proof.
  intros Ht Hd. unfold insert_entry.
  destruct (find_free_slot dir_data); [|done].
  by rewrite (make_entry_stamp now1 now2).
Qed.

Lemma add_file_to_directory_stamp now1 now2 filename file_data b :
  time_val now1 = time_val now2 → date_val now1 = date_val now2 →
  add_file_to_directory now1 filename file_data b
  = add_file_to_directory now2 filename file_data b.
Proof.
  intros Ht Hd. unfold add_file_to_directory. cbv zeta.
  destruct (fat_filename_of filename) as [fn|];
    [rewrite !bind_Ok|by rewrite !bind_Raise].
  destruct (allocate_chain _ _ b) as [[fc b1]|];
    [rewrite !bind_Ok|by rewrite !bind_Raise].
  cbv beta iota. by rewrite (insert_entry_stamp now1 now2).
Qed.

Lemma add_files_stamp fs clock1 clock2 paths : ∀ k b,
  (∀ k, time_val (clock1 k) = time_val (clock2 k)) →
  (∀ k, date_val (clock1 k) = date_val (clock2 k)) →
  add_files fs clock1 k paths b = add_files fs clock2 k paths b.
Proof.
  induction paths as [|p paths IH]; intros k b Ht Hd; [done|].
  cbn [add_files]. unfold add_file.
  destruct (fs p) as [file_data|].
  - rewrite (add_file_to_directory_stamp (clock1 k) (clock2 k)) by done.
    destruct (add_file_to_directory _ _ _ b) as [b1|];
      [rewrite !bind_Ok|by rewrite !bind_Raise].
    by apply IH.
  - rewrite !bind_Ok. by apply IH.
Qed.

(** C3 (determinism), amended.  The image [build_disk.py] writes is a
    function of the geometry, the files and the FAT time and date words of
    the clock readings taken at the insertions: two runs whose readings
    give the same words produce the same result, byte for byte. *)
Theorem build_deterministic_in_stamps mb fs clock1 clock2 kernel_path additional_files :
  (∀ k, time_val (clock1 k) = time_val (clock2 k)) →
  (∀ k, date_val (clock1 k) = date_val (clock2 k)) →
  build mb fs clock1 kernel_path additional_files
  = build mb fs clock2 kernel_path additional_files.
Proof.
  intros Ht Hd. unfold build. cbv zeta.
  destruct (create_filesystem_structure (init mb)) as [b0|];
    [rewrite !bind_Ok|by rewrite !bind_Raise].
  unfold add_file.
  assert (∀ b, (b ← add_files fs clock1 1 additional_files b;
                b ← add_file_to_directory (clock1 (S (length additional_files)))
                      (str "CONFIG.TXT") config_data b;
                b ← add_file_to_directory (clock1 (S (S (length additional_files))))
                      (str "README.TXT") readme_data b;
                b ← write_fat_tables b; Ok (save b))
               = (b ← add_files fs clock2 1 additional_files b;
                b ← add_file_to_directory (clock2 (S (length additional_files)))
                      (str "CONFIG.TXT") config_data b;
                b ← add_file_to_directory (clock2 (S (S (length additional_files))))
                      (str "README.TXT") readme_data b;
                b ← write_fat_tables b; Ok (save b))) as Hrest.
  { intros b. rewrite (add_files_stamp fs clock1 clock2) by done.
    destruct (add_files fs clock2 1 additional_files b) as [ba|];
      [rewrite !bind_Ok|by rewrite !bind_Raise].
    rewrite (add_file_to_directory_stamp (clock1 _) (clock2 _)) by done.
    destruct (add_file_to_directory _ (str "CONFIG.TXT") _ ba) as [bc|];
      [rewrite !bind_Ok|by rewrite !bind_Raise].
    by rewrite (add_file_to_directory_stamp (clock1 _) (clock2 _)) by done. }
  destruct (fs kernel_path) as [kernel|].
  - rewrite (add_file_to_directory_stamp (clock1 _) (clock2 _)) by done.
    destruct (add_file_to_directory _ _ kernel b0) as [bk|];
      [rewrite !bind_Ok|by rewrite !bind_Raise].
    apply Hrest.
  - rewrite !bind_Ok. apply Hrest.
Qed.

Lemma build_deterministic_in_stamps_witness :
  build 32 no_files (λ _, demo_clock) "build/kernel.bin" []
  = build 32 no_files (λ _, demo_same_stamp) "build/kernel.bin" [].
Proof.
  apply (build_deterministic_in_stamps 32 no_files
           (λ _, demo_clock) (λ _, demo_same_stamp) "build/kernel.bin" []).
  - intros k. vm_compute. reflexivity.
  - intros k. vm_compute. reflexivity.
Defined.

Lemma load_elf_missing fs path :
  path ≠ EmptyString → fs path = None →
  CreateDiskFixed.load_elf fs (Some path) = Raise (SystemExit 1).
Proof.
  intros Hne Hmiss. unfold CreateDiskFixed.load_elf.
  destruct path; [done|]. by rewrite Hmiss.
Qed.

Lemma add_files_app fs clock before after : ∀ k b,
  add_files fs clock k (before ++ after) b
  = (b1 ← add_files fs clock k before b;
     add_files fs clock (k + length before) after b1).
Proof.
  induction before as [|p before IH]; intros k b.
  - cbn [app add_files length]. rewrite bind_Ok. by rewrite Nat.add_0_r.
  - cbn [app add_files length].
    destruct (add_file fs (clock k) p None b) as [b1|];
      [rewrite !bind_Ok|by rewrite !bind_Raise].
    rewrite IH. by rewrite Nat.add_succ_r.
Qed.

(** C8 as it is stated does not hold of [create_disk_fixed.py]: given the
    path of an ELF file that does not exist, [main] leaves with status 1
    and writes no image. *)
Lemma missing_elf_exits :
  no_files "shell.elf"%string = None ∧
  CreateDiskFixed.main no_files (Some "shell.elf"%string) = Raise (SystemExit 1).
Proof.
  split; [reflexivity|].
  unfold CreateDiskFixed.main, CreateDiskFixed.build.
  rewrite load_elf_missing by done. apply bind_Raise.
Qed.

(** C9 (size of the FAT).  For the 32 MB geometry both builders have
    enough FAT sectors: [build_disk.py] has 8124 data clusters and
    [create_disk_fixed.py] 8148, each needs 64 sectors of 32-bit entries,
    and the hardcoded [sectors_per_fat] (256) and [fat_size] (160) are at
    least that; the tables also hold the two reserved entries. *)
Theorem sectors_per_fat_sufficient :
  let data_clusters :=
    (total_sectors (init 32) - data_start_sector) / sectors_per_cluster in
  let data_clusters_fixed :=
    (CreateDiskFixed.DISK_SIZE_MB * 1024 * 1024 / CreateDiskFixed.BYTES_PER_SECTOR
     - (CreateDiskFixed.RESERVED_SECTORS
        + CreateDiskFixed.NUM_FATS * CreateDiskFixed.fat_size))
    / CreateDiskFixed.SECTORS_PER_CLUSTER in
  data_clusters = 8124 ∧
  (data_clusters * 4 + sector_size - 1) / sector_size = 64 ∧
  64 ≤ sectors_per_fat ∧ sectors_per_fat = 256 ∧
  (data_clusters + 2) * 4 ≤ sectors_per_fat * sector_size ∧
  data_clusters_fixed = 8148 ∧
  (data_clusters_fixed * 4 + CreateDiskFixed.BYTES_PER_SECTOR - 1)
  / CreateDiskFixed.BYTES_PER_SECTOR = 64 ∧
  64 ≤ CreateDiskFixed.fat_size ∧ CreateDiskFixed.fat_size = 160 ∧
  (data_clusters_fixed + 2) * 4
  ≤ CreateDiskFixed.fat_size * CreateDiskFixed.BYTES_PER_SECTOR.
Proof.
  cbv zeta.
  change (total_sectors (init 32)) with 65536.
  split_and!; first [reflexivity | lazy; discriminate].
Qed.

Lemma for_each_snoc {A S} (xs : list A) (x : A) (body : A → S → result S) : ∀ s,
  for_each (xs ++ [x]) body s = (s' ← for_each xs body s; body x s').
Proof.
  induction xs as [|y xs IH]; intros s; cbn [app for_each].
  - rewrite bind_Ok. by destruct (body x s).
  - destruct (body y s) as [s1|]; [rewrite !bind_Ok|by rewrite !bind_Raise].
    apply IH.
Qed.

Lemma fat_entry_at_pack fat c v fat' :
  0 ≤ c → pack_into 4 fat (c * 4) v = Ok fat' →
  len fat' = len fat ∧ 4 * c + 4 ≤ len fat ∧ fat_entry_at fat' c = v ∧
  ∀ s e, 0 ≤ s → e ≤ 4 * c → slice fat' s e = slice fat s e.
Proof.
  intros Hc Hp. pose proof (len_pack_into _ _ _ _ _ Hp) as Hl.
  apply pack_into_Ok in Hp as (Hv & _ & Hfit & ->).
  change (Z.of_nat 4) with 4 in *.
  split; [done|]. split; [lia|]. split.
  - unfold fat_entry_at. replace (4 * c) with (c * 4) by lia.
    rewrite slice_slice_set_same; [by apply le_value_le_bytes|lia|].
    unfold len. rewrite length_le_bytes. lia.
  - intros s e Hs He. apply slice_slice_set_below; lia.
Qed.

Lemma fat_entry_at_below fat fat' c k :
  0 ≤ c < k →
  (∀ s e, 0 ≤ s → e ≤ 4 * k → slice fat' s e = slice fat s e) →
  fat_entry_at fat' c = fat_entry_at fat c.
Proof. intros Hc Hlow. unfold fat_entry_at. by rewrite Hlow by lia. Qed.

Lemma fat_link_loop n (k : nat) : ∀ fat0 fat,
  Z.of_nat k ≤ n →
  for_each (range 0 (Z.of_nat k)) (fat_link n) fat0 = Ok fat →
  len fat = len fat0 ∧ (0 < Z.of_nat k → 4 * (6 + Z.of_nat k) ≤ len fat0) ∧
  (∀ i, 0 ≤ i < Z.of_nat k →
     fat_entry_at fat (6 + i) = if i =? n - 1 then 0x0FFFFFFF else 6 + i + 1) ∧
  ∀ s e, 0 ≤ s → e ≤ 24 → slice fat s e = slice fat0 s e.
Proof.
  induction k as [|k IH]; intros fat0 fat Hk.
  - rewrite range_empty by lia. cbn [for_each]. intros [= <-].
    split_and!; try done; lia.
  - replace (Z.of_nat (S k)) with (Z.of_nat k + 1) by lia.
    rewrite range_snoc by lia. rewrite for_each_snoc.
    destruct (for_each (range 0 (Z.of_nat k)) (fat_link n) fat0) as [fat1|] eqn:Hloop;
      [rewrite bind_Ok|by rewrite bind_Raise].
    apply IH in Hloop as (Hl1 & Hfit1 & Hent1 & Hlow1); [|lia].
    intros Hlast.
    assert (∃ v, pack_into 4 fat1 ((6 + Z.of_nat k) * 4) v = Ok fat ∧
                 v = if Z.of_nat k =? n - 1 then 0x0FFFFFFF else 6 + Z.of_nat k + 1)
      as (v & Hp & Hv).
    { unfold fat_link in Hlast. cbv zeta in Hlast.
      destruct (Z.of_nat k =? n - 1); by eexists. }
    apply fat_entry_at_pack in Hp as (Hl & Hfit & Hent & Hlow); [|lia].
    split; [lia|]. split; [lia|]. split.
    + intros i Hi. destruct (decide (i = Z.of_nat k)) as [->|Hne].
      * by rewrite Hent.
      * rewrite (fat_entry_at_below fat1 fat (6 + i) (6 + Z.of_nat k)) by (done || lia).
        apply Hent1. lia.
    + intros s e Hs He. rewrite Hlow by lia. by apply Hlow1.
Qed.

(** X1 (chain of the ELF file in [create_disk_fixed.py]).  For an ELF file
    of [S > 0] bytes, the FAT that [create_fat] returns links the clusters
    from 6 on: the chain has the ceiling of [S / BYTES_PER_CLUSTER]
    clusters, each entry but the last is the next cluster index and the
    last is 0x0FFFFFFF. *)
Theorem create_fat_chain total_sectors file_size fat :
  0 < file_size →
  CreateDiskFixed.create_fat total_sectors CreateDiskFixed.fat_size file_size = Ok fat →
  let n := (file_size + CreateDiskFixed.BYTES_PER_CLUSTER - 1)
           / CreateDiskFixed.BYTES_PER_CLUSTER in
  (n - 1) * CreateDiskFixed.BYTES_PER_CLUSTER < file_size
  ≤ n * CreateDiskFixed.BYTES_PER_CLUSTER ∧
  len fat = CreateDiskFixed.fat_size * CreateDiskFixed.BYTES_PER_SECTOR ∧
  (∀ i, 0 ≤ i < n - 1 → fat_entry_at fat (6 + i) = 6 + i + 1) ∧
  fat_entry_at fat (6 + n - 1) = 0x0FFFFFFF ∧
  follow_chain (Z.to_nat (len fat / 4)) (serialized_entry fat) 6 = Some (seqZ 6 n).
Proof.
  intros Hpos. unfold CreateDiskFixed.create_fat. cbv zeta.
  change CreateDiskFixed.BYTES_PER_CLUSTER with 4096.
  change (CreateDiskFixed.fat_size * CreateDiskFixed.BYTES_PER_SECTOR) with 81920.
  pose proof (len_bytearray 81920 ltac:(lia)) as Hl0.
  do 6 pack_into_step.
  destruct (Z.ltb_spec 0 file_size); [|lia].
  pose proof (clusters_needed_bounds file_size) as Hb.
  unfold clusters_needed in Hb. rewrite bytes_per_cluster_eq in Hb.
  remember ((file_size + 4096 - 1) `div` 4096) as n eqn:Hn.
  assert (1 ≤ n) as Hn1 by lia.
  intros Hloop.
  match type of Hloop with
  | for_each _ _ ?b = _ =>
      assert (len b = 81920) as Hlb by lia;
      change (for_each (range 0 n) (fat_link n) b = Ok fat) in Hloop
  end.
  replace n with (Z.of_nat (Z.to_nat n)) in Hloop at 1 by lia.
  apply fat_link_loop in Hloop as (Hlf & Hfit & Hent & _); [|lia].
  assert (len fat = 81920) as Hlen by lia.
  assert (∀ i, 0 ≤ i < n - 1 → fat_entry_at fat (6 + i) = 6 + i + 1) as Hlinks.
  { intros i Hi. rewrite Hent by lia. destruct (Z.eqb_spec i (n - 1)); [lia|done]. }
  assert (fat_entry_at fat (6 + n - 1) = 0x0FFFFFFF) as Hlast.
  { replace (6 + n - 1) with (6 + (n - 1)) by lia. rewrite Hent by lia.
    by rewrite Z.eqb_refl. }
  split; [lia|]. split; [done|]. split; [done|]. split; [done|].
  rewrite Hlen. change (81920 `div` 4) with 20480.
  rewrite (follow_chain_linked (Z.to_nat (n - 1)) _ _ 6 0x0FFFFFFF).
  - do 2 f_equal. lia.
  - lia.
  - intros i Hi. unfold serialized_entry.
    destruct (Z.leb_spec 0 (6 + i)); [|lia].
    destruct (Z.leb_spec (4 * (6 + i) + 4) (len fat)); [|lia].
    cbn [andb]. f_equal. apply Hlinks. lia.
  - unfold EOC_MIN. lia.
  - unfold serialized_entry.
    destruct (Z.leb_spec 0 (6 + Z.of_nat (Z.to_nat (n - 1)))); [|lia].
    destruct (Z.leb_spec (4 * (6 + Z.of_nat (Z.to_nat (n - 1))) + 4) (len fat)); [|lia].
    cbn [andb]. f_equal. rewrite <- Hlast. f_equal. lia.
  - unfold EOC_MIN. lia.
Qed.

Lemma fixed_boot_sector_len mb boot :
  CreateDiskFixed.create_boot_sector mb = Ok boot → len boot = 512.
Proof.
  unfold CreateDiskFixed.create_boot_sector. cbv zeta.
  remember (slice_set (slice_set (bytearray 512) 0 3 [235; 88; 144]) 3 11 (str "NUMOS1.0"))
    as buf0 eqn:Hbuf0.
  assert (len buf0 = 512) as Hl0.
  { subst buf0. len_slices. }
  clear Hbuf0.
  do 18 pack_into_step.
  match goal with H : len ?b = len _ |- context [slice_set ?b 52 64 _] =>
    assert (len b = 512) by lia end.
  remember (slice_set _ 52 64 _) as mid eqn:Hmid.
  assert (len mid = 512) as Hlmid.
  { subst mid. len_slices. }
  clear Hmid.
  do 4 pack_into_step.
  match goal with H : len ?b = len _ |- context [slice_set ?b 71 82 _] =>
    assert (len b = 512) by lia end.
  intros [= <-]. len_slices.
Qed.

Lemma fixed_fsinfo_len fsinfo :
  CreateDiskFixed.create_fsinfo = Ok fsinfo → len fsinfo = 512.
Proof.
  unfold CreateDiskFixed.create_fsinfo. cbv zeta.
  pose proof (len_bytearray 512 ltac:(lia)) as Hl0.
  do 4 pack_into_step. intros Hlast. apply len_pack_into in Hlast. lia.
Qed.

Lemma reserved_sector_other r i f :
  i ≠ 6 → reserved_sector r i f = Ok (f ++ bytearray 512).
Proof. intros. unfold reserved_sector. by destruct (Z.eqb_spec i 6). Qed.

Lemma reserved_sector_backup boot f :
  reserved_sector (Ok boot) 6 f = Ok (f ++ boot).
Proof.
  unfold reserved_sector. change (6 =? 6) with true. cbv iota.
  by rewrite bind_Ok.
Qed.

Lemma reserved_zero_sectors r (k : nat) : ∀ lo f,
  6 < lo ∨ lo + Z.of_nat k ≤ 6 →
  for_each (seqZ lo (Z.of_nat k)) (reserved_sector r) f
  = Ok (f ++ bytearray (512 * Z.of_nat k)).
Proof.
  induction k as [|k IH]; intros lo f Hlo.
  - cbn [for_each seqZ Z.of_nat Z.to_nat seq fmap list_fmap].
    rewrite bytearray_nonpos by lia. by rewrite app_nil_r.
  - rewrite seqZ_cons by lia. cbn [for_each].
    rewrite reserved_sector_other by lia. rewrite bind_Ok.
    replace (Z.pred (Z.of_nat (S k))) with (Z.of_nat k) by lia.
    rewrite IH by lia. rewrite <- app_assoc. do 2 f_equal.
    replace (512 * Z.of_nat (S k)) with (512 + 512 * Z.of_nat k) by lia.
    symmetry. apply bytearray_add; lia.
Qed.

Lemma for_each_app {A S} (xs ys : list A) (body : A → S → result S) : ∀ s,
  for_each (xs ++ ys) body s = (s' ← for_each xs body s; for_each ys body s').
Proof.
  induction xs as [|x xs IH]; intros s; cbn [app for_each].
  - by rewrite bind_Ok.
  - destruct (body x s) as [s1|]; [rewrite !bind_Ok|by rewrite !bind_Raise].
    apply IH.
Qed.

Lemma reserved_sectors_loop boot f :
  for_each (range 2 CreateDiskFixed.RESERVED_SECTORS) (reserved_sector (Ok boot)) f
  = Ok (f ++ bytearray 2048 ++ boot ++ bytearray 12800).
Proof.
  change (range 2 CreateDiskFixed.RESERVED_SECTORS)
    with (seqZ 2 (Z.of_nat 4) ++ [6] ++ seqZ 7 (Z.of_nat 25)).
  rewrite for_each_app.
  rewrite reserved_zero_sectors by lia. rewrite bind_Ok, for_each_app.
  cbn [for_each]. rewrite reserved_sector_backup.
  rewrite !bind_Ok. rewrite reserved_zero_sectors by lia.
  by rewrite <- !app_assoc.
Qed.

(** X2 (backup boot sector in [create_disk_fixed.py]).  Every image the
    streamed builder writes starts with the boot sector and holds the same
    512 bytes at sector 6. *)
Theorem fixed_backup_boot_sector mb fs elf_file image :
  CreateDiskFixed.build mb fs elf_file = Ok image →
  ∃ boot, CreateDiskFixed.create_boot_sector mb = Ok boot ∧ len boot = 512 ∧
          slice image 0 512 = boot ∧ slice image (6 * 512) (7 * 512) = boot.
Proof.
  unfold CreateDiskFixed.build. cbv zeta.
  destruct (CreateDiskFixed.load_elf fs elf_file) as [elf_data|];
    [rewrite bind_Ok|by rewrite bind_Raise].
  destruct (CreateDiskFixed.create_boot_sector mb) as [boot|] eqn:Hboot;
    [rewrite bind_Ok|by rewrite bind_Raise].
  destruct CreateDiskFixed.create_fsinfo as [fsinfo|] eqn:Hfs;
    [rewrite bind_Ok|by rewrite bind_Raise].
  pose proof (fixed_boot_sector_len _ _ Hboot) as Hlb.
  pose proof (fixed_fsinfo_len _ Hfs) as Hlf.
  change (for_each (range 2 CreateDiskFixed.RESERVED_SECTORS) _ (boot ++ fsinfo))
    with (for_each (range 2 CreateDiskFixed.RESERVED_SECTORS) (reserved_sector (Ok boot))
            (boot ++ fsinfo)).
  rewrite reserved_sectors_loop.
  rewrite bind_Ok.
  remember ((boot ++ fsinfo) ++ bytearray 2048 ++ boot ++ bytearray 12800) as f eqn:Hf.
  assert (slice f 0 512 = boot ∧ slice f (6 * 512) (7 * 512) = boot ∧ len f = 16384)
    as (Hs0 & Hs6 & Hlen).
  { subst f. split_and!.
    - rewrite <- app_assoc. rewrite slice_app_l by lia. rewrite <- Hlb. apply slice_all.
    - rewrite slice_app_r by (rewrite len_app; lia).
      rewrite slice_app_r by (rewrite len_app, len_bytearray by lia; lia).
      rewrite slice_app_l by (rewrite !len_app, !len_bytearray by lia; lia).
      rewrite len_app, len_bytearray by lia. rewrite Hlb, Hlf.
      change (6 * 512 - (512 + 512) - 2048) with 0.
      change (7 * 512 - (512 + 512) - 2048) with 512.
      rewrite <- Hlb. apply slice_all.
    - rewrite !len_app, !len_bytearray by lia. lia. }
  clear Hf.
  assert (∀ rest, slice (f ++ rest) 0 512 = boot ∧
                  slice (f ++ rest) (6 * 512) (7 * 512) = boot) as Hrest.
  { intros rest. rewrite !slice_app_l by lia. split; [exact Hs0|exact Hs6]. }
  destruct (CreateDiskFixed.create_fat _ _ _) as [fat_data|];
    [rewrite bind_Ok|by rewrite bind_Raise].
  change (range 0 CreateDiskFixed.NUM_FATS) with [0; 1].
  cbn [for_each]. rewrite !bind_Ok.
  destruct CreateDiskFixed.create_root_directory as [root|];
    [rewrite bind_Ok|by rewrite bind_Raise].
  destruct (CreateDiskFixed.create_init_directory _) as [init|];
    [rewrite bind_Ok|by rewrite bind_Raise].
  destruct (CreateDiskFixed.create_empty_directory 4) as [bin|];
    [rewrite bind_Ok|by rewrite bind_Raise].
  destruct (CreateDiskFixed.create_empty_directory 5) as [run|];
    [rewrite bind_Ok|by rewrite bind_Raise].
  rewrite <- !app_assoc.
  match goal with
  | |- context [if 0 <? ?r - len ?g then _ else _] =>
      remember g as g0 eqn:Hg0;
      assert (∃ rest, g0 = f ++ rest) as [rest0 ->]
  end.
  { subst g0. destruct elf_data as [[|x elf]|]; rewrite <- ?app_assoc; by eexists. }
  clear Hg0.
  destruct (0 <? _).
  - destruct (0 <? _); intros [= <-]; exists boot; rewrite <- !app_assoc;
      (split; [reflexivity|]); (split; [exact Hlb|]); apply Hrest.
  - intros [= <-]. exists boot. split; [reflexivity|]. split; [exact Hlb|].
    apply Hrest.
Qed.

Lemma unwrap_bytes_Ok r : is_ok r = true → r = Ok (unwrap_bytes r).
Proof. by destruct r. Qed.

Lemma create_fat_chain_witness :
  let n := (5000 + CreateDiskFixed.BYTES_PER_CLUSTER - 1)
           / CreateDiskFixed.BYTES_PER_CLUSTER in
  (n - 1) * CreateDiskFixed.BYTES_PER_CLUSTER < 5000
  ≤ n * CreateDiskFixed.BYTES_PER_CLUSTER ∧
  len demo_fat = CreateDiskFixed.fat_size * CreateDiskFixed.BYTES_PER_SECTOR ∧
  (∀ i, 0 ≤ i < n - 1 → fat_entry_at demo_fat (6 + i) = 6 + i + 1) ∧
  fat_entry_at demo_fat (6 + n - 1) = 0x0FFFFFFF ∧
  follow_chain (Z.to_nat (len demo_fat / 4)) (serialized_entry demo_fat) 6
  = Some (seqZ 6 n).
Proof.
  apply (create_fat_chain 2048 5000 demo_fat).
  - lia.
  - apply unwrap_bytes_Ok. vm_compute. reflexivity.
Defined.

Lemma fixed_backup_boot_sector_witness :
  ∃ boot, CreateDiskFixed.create_boot_sector 1 = Ok boot ∧ len boot = 512 ∧
          slice demo_fixed_image 0 512 = boot ∧
          slice demo_fixed_image (6 * 512) (7 * 512) = boot.
Proof.
  apply (fixed_backup_boot_sector 1 no_files None demo_fixed_image).
  apply unwrap_bytes_Ok. vm_compute. reflexivity.
Defined.




(** ** The boot sector *)

Lemma boot_sector_bytes_bpb t :
  0 ≤ t < 2 ^ 32 →
  ∃ boot, boot_sector_bytes t = Ok boot ∧ len boot = 512 ∧
          read_bpb boot = mk_bpb 512 8 32 2 t 256 2 1 6 ∧
          slice boot 510 512 = [0x55; 0xAA].
Proof.
  intros Ht.
  assert (pack 4 t = Ok (le_bytes 4 t)) as Hp by (by apply pack_Ok).
  pose proof (length_le_bytes 4 t) as Hlen.
  pose proof (le_value_le_bytes 4 t Ht) as Hval.
  unfold boot_sector_bytes, pack_into. rewrite Hp.
  destruct (le_bytes 4 t) as [|x0 [|x1 [|x2 [|x3 [|? ?]]]]]; try discriminate Hlen.
  clear Hp Hlen.
  eexists. split; [vm_compute; reflexivity|].
  split; [vm_compute; reflexivity|]. split; [|vm_compute; reflexivity].
  rewrite <- Hval. vm_compute. reflexivity.
Qed.

(** X4 (boot sector of [build_disk.py]).  For a disk of less than 2^21
    megabytes [create_boot_sector] succeeds; the BIOS parameter block it
    writes into sector 0 declares the geometry the builder works with
    (bytes per sector, sectors per cluster, reserved sectors, number of
    FATs, total sectors, sectors per FAT, root cluster), FSInfo at sector
    1 and the backup boot sector at sector 6; the sector ends with 55 AA;
    the FAT, the allocator and every byte from offset 512 on are as they
    were. *)
Theorem create_boot_sector_bpb b :
  0 ≤ size_mb b < 2 ^ 21 →
  ∃ b', create_boot_sector b = Ok b' ∧
        fat_table b' = fat_table b ∧ next_free_cluster b' = next_free_cluster b ∧
        read_bpb (slice (disk_image b') 0 512)
        = mk_bpb sector_size sectors_per_cluster reserved_sectors fat_count
                 (total_sectors b) sectors_per_fat root_cluster 1 6 ∧
        slice (disk_image b') 510 512 = [0x55; 0xAA] ∧
        ∀ s e, 512 ≤ s → slice (disk_image b') s e = slice (disk_image b) s e.
Proof.
  intros Hmb.
  destruct (boot_sector_bytes_bpb (total_sectors b)) as (boot & Hboot & Hlen & Hbpb & Hsig).
  { unfold total_sectors, size_bytes. change sector_size with 512.
    change (2 ^ 21) with 2097152 in Hmb. change (2 ^ 32) with 4294967296.
    replace (size_mb b * 1024 * 1024) with (size_mb b * 2048 * 512) by lia.
    rewrite Z.div_mul by lia. lia. }
  pose proof (len_nonneg (disk_image b)) as Himg.
  unfold create_boot_sector. rewrite Hboot, bind_Ok.
  eexists. split; [reflexivity|].
  cbn [fat_table next_free_cluster disk_image set_disk_image].
  assert (slice (slice_set (disk_image b) 0 512 boot) 0 512 = boot) as Hs
    by (apply slice_slice_set_same; lia).
  split; [reflexivity|]. split; [reflexivity|].
  split; [rewrite Hs; exact Hbpb|]. split.
  - rewrite <- Hsig. rewrite <- Hs at 2. rewrite slice_slice by lia. reflexivity.
  - intros s e Hse. apply slice_slice_set_above; lia.
Qed.

Lemma create_boot_sector_bpb_witness :
  ∃ b', create_boot_sector (init 1) = Ok b' ∧
        fat_table b' = fat_table (init 1) ∧
        next_free_cluster b' = next_free_cluster (init 1) ∧
        read_bpb (slice (disk_image b') 0 512)
        = mk_bpb sector_size sectors_per_cluster reserved_sectors fat_count
                 (total_sectors (init 1)) sectors_per_fat root_cluster 1 6 ∧
        slice (disk_image b') 510 512 = [0x55; 0xAA] ∧
        ∀ s e, 512 ≤ s → slice (disk_image b') s e = slice (disk_image (init 1)) s e.
Proof.
  apply (create_boot_sector_bpb (init 1)).
  cbn [size_mb init]. change (2 ^ 21) with 2097152. lia.
Defined.

(** ** Writing the FAT copies *)

Lemma pack_entries_Raise fat : ∀ e, pack_entries fat = Raise e → e = StructError.
Proof.
  induction fat as [|x fat IH]; intros e; cbn [pack_entries]; [done|].
  destruct (pack 4 x) as [xs|e1] eqn:Hx.
  - rewrite bind_Ok. destruct (pack_entries fat) as [rest|e2].
    + by rewrite bind_Ok.
    + rewrite bind_Raise. intros [= <-]. by apply IH.
  - rewrite bind_Raise. intros [= <-]. by eapply pack_Raise.
Qed.

Lemma write_fat_tables_Raise b e : write_fat_tables b = Raise e → e = StructError.
Proof.
  unfold write_fat_tables, fat_bytes.
  destruct (pack_entries (fat_table b)) as [bs|e1] eqn:Hp.
  - rewrite !bind_Ok. change (range 0 fat_count) with [0; 1]. cbn [for_each].
    rewrite !bind_Ok. done.
  - rewrite !bind_Raise. intros [= <-]. by eapply pack_entries_Raise.
Qed.

(** X5 (the FAT copies on disk).  After [write_fat_tables] the two FAT
    regions of the image hold the same bytes, every entry of either copy
    decodes to the entry of the in-memory table, and the image outside the
    FAT regions, its length, the table and the allocator are unchanged. *)
Theorem fat_copies_mirror_table b b' :
  builder_inv b → write_fat_tables b = Ok b' →
  let fat0 := fat_start_sector * sector_size in
  let fat1 := (fat_start_sector + sectors_per_fat) * sector_size in
  fat_table b' = fat_table b ∧ next_free_cluster b' = next_free_cluster b ∧
  len (disk_image b') = len (disk_image b) ∧
  slice (disk_image b') fat0 fat1 = slice (disk_image b') fat1 (cluster_offset 2) ∧
  (∀ copy c, copy = 0 ∨ copy = 1 →
     disk_entry (disk_image b') copy c
     = if (0 <=? c) && (c <? len (fat_table b)) then fat_table b !! Z.to_nat c else None) ∧
  (∀ s e, 0 ≤ s → e ≤ fat0 → slice (disk_image b') s e = slice (disk_image b) s e) ∧
  (∀ s e, cluster_offset 2 ≤ s → slice (disk_image b') s e = slice (disk_image b) s e).
Proof.
  intros Hinv Hw. cbv zeta.
  change (fat_start_sector * sector_size) with 16384.
  change ((fat_start_sector + sectors_per_fat) * sector_size) with 147456.
  pose proof (write_fat_tables_image _ _ Hinv Hw) as (Hlen & Hlow & Hhigh & Hentry).
  pose proof Hinv as (Hfat & Hnfc & Himg).
  change ((sectors_per_fat * sector_size) `div` 4) with 32768 in Hfat.
  apply write_fat_tables_Ok in Hw as (fd & _ & Hlfd & _ & Hft & Hn & Heq); [|done].
  rewrite cluster_offset_eq in *.
  split; [done|]. split; [done|]. split; [done|]. split; [|split; [|split]].
  - rewrite Heq.
    assert (len (slice_set (disk_image b) 16384 (16384 + 131072) fd) = len (disk_image b))
      as Hl1 by (apply len_slice_set_same; lia).
    change (4096 * 2 + 270336) with (147456 + 131072).
    rewrite (slice_slice_set_same _ 147456) by lia.
    rewrite slice_slice_set_below by lia.
    change 147456 with (16384 + 131072).
    apply slice_slice_set_same; lia.
  - intros copy c Hcopy. rewrite Hentry by done. by rewrite Hfat.
  - done.
  - intros s e Hs. by apply Hhigh.
Qed.

Lemma fat_copies_mirror_table_witness :
  let fat0 := fat_start_sector * sector_size in
  let fat1 := (fat_start_sector + sectors_per_fat) * sector_size in
  fat_table demo_written = fat_table demo_added ∧
  next_free_cluster demo_written = next_free_cluster demo_added ∧
  len (disk_image demo_written) = len (disk_image demo_added) ∧
  slice (disk_image demo_written) fat0 fat1
  = slice (disk_image demo_written) fat1 (cluster_offset 2) ∧
  (∀ copy c, copy = 0 ∨ copy = 1 →
     disk_entry (disk_image demo_written) copy c
     = if (0 <=? c) && (c <? len (fat_table demo_added))
       then fat_table demo_added !! Z.to_nat c else None) ∧
  (∀ s e, 0 ≤ s → e ≤ fat0 →
     slice (disk_image demo_written) s e = slice (disk_image demo_added) s e) ∧
  (∀ s e, cluster_offset 2 ≤ s →
     slice (disk_image demo_written) s e = slice (disk_image demo_added) s e).
Proof.
  apply (fat_copies_mirror_table demo_added demo_written).
  - apply builder_inv_b_true. vm_compute. reflexivity.
  - apply unwrap_Ok. vm_compute. reflexivity.
Defined.

(** X6 (when [write_fat_tables] fails).  It succeeds whenever every entry
    of the table fits 32 bits; the only exception it raises is
    [struct.error], and only for a table with an entry that does not fit;
    the table of a builder reached from a fresh one by insertions always
    fits. *)
Theorem write_fat_tables_total b :
  builder_inv b →
  (fat_packable (fat_table b) → ∃ b', write_fat_tables b = Ok b') ∧
  (∀ e, write_fat_tables b = Raise e →
     e = StructError ∧ ¬ fat_packable (fat_table b)) ∧
  (∀ b0 mb, 1 ≤ mb → create_filesystem_structure (init mb) = Ok b0 →
     rtc add_step b0 b → fat_packable (fat_table b)).
Proof.
  intros Hinv. split_and!.
  - by apply write_fat_tables_ok.
  - intros e Hr. split; [by eapply write_fat_tables_Raise|].
    intros Hp. destruct (write_fat_tables_ok b Hinv Hp) as [b' Hb']. congruence.
  - intros b0 mb Hmb Hb0 Hsteps.
    destruct (fresh_builder mb b0 Hmb Hb0) as (Hinv0 & Hp0 & _ & _ & Hlen0 & _).
    by destruct (add_steps_keep _ _ _ Hsteps Hinv0 Hp0 Hlen0) as (_ & Hp & _).
Qed.

Lemma write_fat_tables_total_witness :
  (fat_packable (fat_table demo_added) → ∃ b', write_fat_tables demo_added = Ok b') ∧
  (∀ e, write_fat_tables demo_added = Raise e →
     e = StructError ∧ ¬ fat_packable (fat_table demo_added)) ∧
  (∀ b0 mb, 1 ≤ mb → create_filesystem_structure (init mb) = Ok b0 →
     rtc add_step b0 demo_added → fat_packable (fat_table demo_added)).
Proof.
  apply (write_fat_tables_total demo_added).
  apply builder_inv_b_true. vm_compute. reflexivity.
Defined.

(** ** What an insertion leaves alone *)

(** X7 (what an insertion leaves alone).  A successful
    [add_file_to_directory] advances the allocator by the clusters the
    payload needs, keeps the size of the FAT, changes no FAT entry outside
    the new chain, no byte before the root directory cluster and no
    cluster of an earlier file; the image keeps its length unless the new
    clusters end beyond it. *)
Theorem insertion_frame now filename file_data b b' :
  builder_inv b →
  add_file_to_directory now filename file_data b = Ok b' →
  let n := clusters_needed (len file_data) in
  size_mb b' = size_mb b ∧
  next_free_cluster b' = next_free_cluster b + n ∧ 0 ≤ n ∧
  len (disk_image b')
  = Z.max (len (disk_image b)) (cluster_offset (next_free_cluster b + n)) ∧
  (∀ s e, 0 ≤ s → e ≤ cluster_offset root_cluster →
     slice (disk_image b') s e = slice (disk_image b) s e) ∧
  (∀ c, root_cluster < c < next_free_cluster b →
     read_cluster (disk_image b') c = read_cluster (disk_image b) c) ∧
  length (fat_table b') = length (fat_table b) ∧
  (∀ c, 0 ≤ c → c < next_free_cluster b ∨ next_free_cluster b + n ≤ c →
     fat_table b' !! Z.to_nat c = fat_table b !! Z.to_nat c).
Proof.
  intros Hinv Hadd. cbv zeta.
  pose proof (add_file_to_directory_image _ _ _ _ _ Hinv Hadd)
    as (Hlen & _ & Hold & Hlow).
  apply add_file_to_directory_Ok in Hadd
    as (fn & dir' & _ & _ & Hmb & Hn & _ & _ & [Hl Hsame] & _); [|done].
  pose proof (clusters_needed_nonneg _ (len_nonneg file_data)) as Hn0.
  split_and!; try done.
  intros c Hc. apply Hold. unfold root_cluster in Hc. lia.
Qed.

Lemma insertion_frame_witness :
  let n := clusters_needed (len demo_payload) in
  size_mb demo_added = size_mb demo_builder ∧
  next_free_cluster demo_added = next_free_cluster demo_builder + n ∧ 0 ≤ n ∧
  len (disk_image demo_added)
  = Z.max (len (disk_image demo_builder))
      (cluster_offset (next_free_cluster demo_builder + n)) ∧
  (∀ s e, 0 ≤ s → e ≤ cluster_offset root_cluster →
     slice (disk_image demo_added) s e = slice (disk_image demo_builder) s e) ∧
  (∀ c, root_cluster < c < next_free_cluster demo_builder →
     read_cluster (disk_image demo_added) c = read_cluster (disk_image demo_builder) c) ∧
  length (fat_table demo_added) = length (fat_table demo_builder) ∧
  (∀ c, 0 ≤ c →
     c < next_free_cluster demo_builder ∨ next_free_cluster demo_builder + n ≤ c →
     fat_table demo_added !! Z.to_nat c = fat_table demo_builder !! Z.to_nat c).
Proof.
  apply (insertion_frame demo_clock (str "shell.elf") demo_payload demo_builder demo_added).
  - apply builder_inv_b_true. vm_compute. reflexivity.
  - apply unwrap_Ok. vm_compute. reflexivity.
Defined.

(** ** Running out of FAT entries *)

Lemma allocate_cluster_Raise b e : allocate_cluster b = Raise e → e = IndexError.
Proof.
  unfold allocate_cluster.
  destruct (setitem _ _ _) as [fat|e1] eqn:Hs; [by rewrite bind_Ok|].
  rewrite bind_Raise. intros [= <-]. by eapply setitem_Raise.
Qed.

Lemma link_next_Raise st e : link_next st = Raise e → e = IndexError.
Proof.
  destruct st as [c b]. unfold link_next.
  destruct (allocate_cluster b) as [[c1 b1]|e1] eqn:Ha.
  - rewrite bind_Ok.
    destruct (setitem _ _ _) as [fat|e2] eqn:Hs; [by rewrite bind_Ok|].
    rewrite bind_Raise. intros [= <-]. by eapply setitem_Raise.
  - rewrite bind_Raise. intros [= <-]. by eapply allocate_cluster_Raise.
Qed.

Lemma link_loop_Raise xs : ∀ st e,
  for_each xs (λ _ : Z, link_next) st = Raise e → e = IndexError.
Proof.
  induction xs as [|x xs IH]; intros st e; cbn [for_each]; [done|].
  destruct (link_next st) as [st1|e1] eqn:Hl.
  - rewrite bind_Ok. apply IH.
  - rewrite bind_Raise. intros [= <-]. by eapply link_next_Raise.
Qed.

Lemma allocate_chain_Raise S n b e : allocate_chain S n b = Raise e → e = IndexError.
Proof.
  unfold allocate_chain. destruct (0 <? S); [|done].
  destruct (allocate_cluster b) as [[c1 b1]|e1] eqn:Ha.
  - rewrite bind_Ok.
    destruct (for_each _ _ _) as [[c2 b2]|e2] eqn:Hl; [by rewrite bind_Ok|].
    rewrite bind_Raise. intros [= <-]. by eapply link_loop_Raise.
  - rewrite bind_Raise. intros [= <-]. by eapply allocate_cluster_Raise.
Qed.

(** X8 (FAT exhaustion).  When the payload needs more clusters than the
    FAT has entries left, [add_file_to_directory] raises [IndexError] (the
    assignment to [fat_table] in [allocate_cluster]) and returns no
    builder. *)
Theorem fat_exhaustion now filename file_data b fn :
  builder_inv b →
  fat_filename_of filename = Ok fn →
  len (fat_table b) < next_free_cluster b + clusters_needed (len file_data) →
  add_file_to_directory now filename file_data b = Raise IndexError.
Proof.
  intros Hinv Hfn Hfull. pose proof Hinv as (Hfat & Hnfc & Himg).
  pose proof (len_nonneg file_data) as HS.
  assert (1 ≤ clusters_needed (len file_data)) as Hn1 by lia.
  assert (0 < len file_data) as Hpos.
  { destruct (decide (0 < len file_data)); [done|].
    assert (len file_data = 0) as Hz by lia.
    rewrite Hz, clusters_needed_0 in Hn1. lia. }
  unfold add_file_to_directory. cbv zeta.
  change ((len file_data + bytes_per_cluster - 1) `div` bytes_per_cluster)
    with (clusters_needed (len file_data)).
  rewrite Hfn, bind_Ok.
  destruct (allocate_chain _ _ b) as [[fc b1]|e] eqn:Halloc.
  - apply allocate_chain_Ok in Halloc as (-> & _ & Hle & _); [lia|done|done|lia].
  - rewrite bind_Raise. f_equal. by eapply allocate_chain_Raise.
Qed.

Lemma fat_exhaustion_witness :
  add_file_to_directory demo_clock (str "huge.bin") demo_huge demo_builder
  = Raise IndexError.
Proof.
  apply (fat_exhaustion demo_clock (str "huge.bin") demo_huge demo_builder
           (str "HUGE    BIN")).
  - apply builder_inv_b_true. vm_compute. reflexivity.
  - vm_compute. reflexivity.
  - unfold demo_huge. rewrite len_bytearray by lia. vm_compute. reflexivity.
Defined.

(** ** The order in which the root directory fills *)

Lemma dir_packed_b_true k dir_data : dir_packed_b k dir_data = true → dir_packed k dir_data.
Proof.
  unfold dir_packed_b, dir_packed.
  rewrite !andb_true_iff, Z.eqb_eq, !Z.leb_le, !forallb_forall.
  intros ((((Hlen & Hk0) & Hk) & Hused) & Hzero).
  split; [done|]. split; [done|]. split.
  - intros j Hj. apply negb_true_iff. apply Hused.
    apply list_elem_of_In, elem_of_seqZ. lia.
  - intros i Hi.
    destruct (dir_data !! Z.to_nat i) as [x|] eqn:Hx.
    2:{ apply lookup_ge_None in Hx. unfold len in *. lia. }
    f_equal. apply Z.eqb_eq. apply Hzero. apply list_elem_of_In.
    apply list_elem_of_lookup. exists (Z.to_nat i - Z.to_nat (32 * k))%nat.
    rewrite lookup_drop. rewrite <- Hx. f_equal. lia.
Qed.

Lemma packed_first_free k dir_data :
  dir_packed k dir_data → k < bytes_per_cluster / 32 → first_free dir_data (32 * k).
Proof.
  unfold dir_packed. rewrite bytes_per_cluster_eq. change (4096 `div` 32) with 128.
  intros (Hlen & Hk & Hused & Hzero) Hlt. split; [|split].
  - exists k. lia.
  - unfold slot_free. rewrite Hzero by lia. done.
  - intros j (kj & Hkj & -> & _) Hj. apply Hused. lia.
Qed.

Lemma packed_no_free dir_data :
  dir_packed (bytes_per_cluster / 32) dir_data → no_free dir_data.
Proof.
  unfold dir_packed. rewrite bytes_per_cluster_eq. change (4096 `div` 32) with 128.
  intros (Hlen & Hk & Hused & Hzero) j (kj & Hkj & -> & Hlt).
  apply Hused. lia.
Qed.

Lemma slice_prefix_lookup {A} (a b : list A) i (k : nat) :
  slice a 0 i = slice b 0 i → (k < Z.to_nat i)%nat → a !! k = b !! k.
Proof.
  intros Heq Hk.
  assert (slice a 0 i !! k = slice b 0 i !! k) as Hl by (by rewrite Heq).
  rewrite !lookup_slice in Hl. rewrite !decide_True in Hl by lia. done.
Qed.

Lemma slice_suffix_lookup {A} (a b : list A) s e (k : nat) :
  0 ≤ s → slice a s e = slice b s e → (Z.to_nat s ≤ k < Z.to_nat e)%nat →
  a !! k = b !! k.
Proof.
  intros Hs Heq Hk.
  assert (slice a s e !! (k - Z.to_nat s)%nat = slice b s e !! (k - Z.to_nat s)%nat)
    as Hl by (by rewrite Heq).
  rewrite !lookup_slice in Hl. rewrite !decide_True in Hl by lia.
  replace (Z.to_nat s + (k - Z.to_nat s))%nat with k in Hl by lia. done.
Qed.

Lemma slice_lookup_0 {A} (a : list A) s e :
  0 ≤ s < e → slice a s e !! 0%nat = a !! Z.to_nat s.
Proof.
  intros. rewrite lookup_slice. rewrite decide_True by lia. f_equal. lia.
Qed.

(** The end marker behind a new entry: a zero byte stays zero. *)
Lemma insert_entry_marker now fn fc S dir_data dir_data' i :
  length fn = 11%nat → len dir_data `mod` 32 = 0 →
  first_free dir_data i →
  insert_entry now fn fc S dir_data = Ok dir_data' →
  i + 32 < len dir_data → dir_data !! Z.to_nat (i + 32) = Some 0 →
  dir_data' !! Z.to_nat (i + 32) = Some 0.
Proof.
  intros Hfn Hmod Hff Hins Hlt Hzero. revert Hins. unfold insert_entry.
  pose proof Hff as (Hslot & _).
  pose proof (is_slot_fits _ _ Hmod Hslot) as [Hi0 Hi32].
  apply find_free_slot_Some in Hff. rewrite Hff.
  destruct (make_entry now fn fc S) as [e|] eqn:He; [rewrite bind_Ok|done].
  pose proof (make_entry_Ok _ _ _ _ _ Hfn He) as (Hle & _).
  cbv zeta.
  remember (slice_set dir_data i (i + 32) e) as dir1 eqn:Hd1.
  assert (len dir1 = len dir_data) as Hl1
    by (subst dir1; rewrite len_slice_set by lia; lia).
  assert (dir1 !! Z.to_nat (i + 32) = Some 0) as Hnext.
  { subst dir1. rewrite lookup_slice_set by lia.
    rewrite decide_False by lia. unfold len in Hle.
    rewrite decide_False by lia. rewrite <- Hzero. f_equal. lia. }
  destruct (Z.ltb_spec (i + 32) (len dir1)); [|lia].
  rewrite (getitem_ok _ _ 0) by (done || lia). rewrite bind_Ok.
  change (negb (0 =? 229)) with true. cbv iota.
  intros (_ & ->)%setitem_Ok; [|lia].
  apply list_lookup_insert_eq. unfold len in *. lia.
Qed.

Lemma insert_entry_packed now fn fc S k c dir_data dir_data' :
  dir_packed k dir_data → k < bytes_per_cluster / 32 →
  length fn = 11%nat → fn !! 0%nat = Some c → c ≠ 0 → c ≠ 0xE5 →
  insert_entry now fn fc S dir_data = Ok dir_data' →
  dir_packed (k + 1) dir_data' ∧
  slice dir_data' 0 (32 * k) = slice dir_data 0 (32 * k) ∧
  ∃ e, make_entry now fn fc S = Ok e ∧ dir_slot dir_data' (32 * k) = e.
Proof.
  intros Hpacked Hk Hfn Hc Hc0 Hc229 Hins.
  pose proof (packed_first_free _ _ Hpacked Hk) as Hff.
  destruct Hpacked as (Hlen & Hk0 & Hused & Hzero). unfold dir_packed.
  rewrite bytes_per_cluster_eq in *. change (4096 `div` 32) with 128 in *.
  assert (len dir_data `mod` 32 = 0) as Hmod by (by rewrite Hlen).
  pose proof (insert_entry_Ok _ _ _ _ _ _ Hfn Hmod Hins)
    as (i & e & Hff' & He & Hl & Hslot & Hlow & Hhigh).
  rewrite (first_free_unique _ _ _ Hff' Hff) in *. clear Hff'.
  pose proof (make_entry_Ok _ _ _ _ _ Hfn He) as (Hle & Hname & _).
  split; [|split; [exact Hlow|by exists e]].
  split; [lia|]. split; [lia|]. split.
  - intros j Hj. unfold slot_free.
    destruct (decide (j = k)) as [->|Hne].
    + assert (dir_data' !! Z.to_nat (32 * k) = Some c) as ->; [|].
      { rewrite <- (slice_lookup_0 _ _ (32 * k + 32)) by lia.
        unfold dir_slot in Hslot. rewrite Hslot.
        rewrite <- Hname in Hc. rewrite slice_lookup_0 in Hc by lia. exact Hc. }
      destruct (Z.eqb_spec c 0); [done|]. destruct (Z.eqb_spec c 229); done.
    + rewrite (slice_prefix_lookup dir_data' dir_data (32 * k)) by (done || lia).
      apply Hused. lia.
  - intros idx Hidx. rewrite Hl in Hidx.
    destruct (decide (idx = 32 * k + 32)) as [->|Hne].
    + eapply insert_entry_marker; try done; [lia|]. apply Hzero. lia.
    + rewrite (slice_suffix_lookup dir_data' dir_data (32 * k + 33) (len dir_data))
        by (done || lia).
      apply Hzero. lia.
Qed.

Lemma splitext_stem p name ext :
  splitext p = (name, ext) → name = [] ∨ head name = head p.
Proof.
  unfold splitext. cbv zeta.
  destruct (_ <? _); [|intros [= <- <-]; by right].
  destruct (existsb _ _); [|intros [= <- <-]; by right].
  intros [= <- <-]. rewrite slice_from_0.
  destruct (Z.to_nat (rfind 46 p)); [by left|]. right. by destruct p.
Qed.

Lemma encode_ascii_Ok s bs :
  encode_ascii s = Ok bs → bs = s ∧ ∀ k c, s !! k = Some c → 0 ≤ c < 128.
Proof.
  unfold encode_ascii. destruct (forallb _ s) eqn:Hall; [|done].
  intros [= <-]. split; [done|]. intros k c Hk.
  rewrite forallb_forall in Hall.
  specialize (Hall c). rewrite andb_true_iff, Z.leb_le, Z.ltb_lt in Hall.
  apply Hall. apply list_elem_of_In. by eapply list_elem_of_lookup_2.
Qed.

(** The first byte of an 8.3 name is never a free-slot mark, unless the
    name given starts with the NUL character. *)
Lemma fat_filename_head filename fn :
  fat_filename_of filename = Ok fn → head filename ≠ Some 0 →
  ∃ c, fn !! 0%nat = Some c ∧ c ≠ 0 ∧ c ≠ 0xE5.
Proof.
  unfold fat_filename_of.
  destruct (splitext (upper filename)) as [name ext] eqn:Hsp.
  intros (-> & Hascii)%encode_ascii_Ok Hhead.
  assert (∃ c, (ljust 8 (slice name 0 8)) !! 0%nat = Some c ∧ c ≠ 0) as (c & Hc & Hc0).
  { rewrite slice_from_0. change (Z.to_nat 8) with 8%nat.
    apply splitext_stem in Hsp as [->|Hsp].
    - exists 32. by vm_compute.
    - destruct name as [|x name]; [exists 32; by vm_compute|].
      exists x. split; [done|]. cbn [head] in Hsp.
      destruct filename as [|c0 filename]; [done|]. cbn in Hsp.
      injection Hsp as ->. intros Hx.
      destruct ((97 <=? c0) && (c0 <=? 122)) eqn:Hrange.
      + rewrite andb_true_iff, !Z.leb_le in Hrange. lia.
      + apply Hhead. by rewrite Hx. }
  exists c. split; [|split; [done|]].
  - rewrite lookup_app_l; [done|]. by apply lookup_lt_Some in Hc.
  - specialize (Hascii 0%nat c). rewrite lookup_app_l in Hascii
      by (by apply lookup_lt_Some in Hc).
    specialize (Hascii Hc). lia.
Qed.

Lemma add_file_to_directory_packed now filename file_data k b b' :
  builder_inv b → dir_packed k (root_dir b) → k < bytes_per_cluster / 32 →
  head filename ≠ Some 0 →
  add_file_to_directory now filename file_data b = Ok b' →
  dir_packed (k + 1) (root_dir b') ∧
  slice (root_dir b') 0 (32 * k) = slice (root_dir b) 0 (32 * k) ∧
  ∃ fn, fat_filename_of filename = Ok fn ∧
        slice (dir_slot (root_dir b') (32 * k)) 0 11 = fn ∧
        entry_first_cluster (dir_slot (root_dir b') (32 * k)) = first_cluster_of b file_data ∧
        entry_size (dir_slot (root_dir b') (32 * k)) = len file_data.
Proof.
  intros Hinv Hpacked Hk Hhead Hadd.
  destruct (add_file_to_directory_root _ _ _ _ _ Hinv Hadd) as (fn & Hfn & Hins).
  pose proof (fat_filename_of_length _ _ Hfn) as Hlfn.
  destruct (fat_filename_head _ _ Hfn Hhead) as (c & Hc & Hc0 & Hc229).
  destruct (insert_entry_packed _ _ _ _ _ _ _ _ Hpacked Hk Hlfn Hc Hc0 Hc229 Hins)
    as (Hpacked' & Hlow & e & He & Hslot).
  split; [done|]. split; [done|]. exists fn. split; [done|].
  rewrite Hslot.
  apply make_entry_fields in He as (_ & Hname & Hfc & Hsz); [done|done|].
  pose proof Hinv as (_ & Hnfc & _).
  destruct (first_cluster_of_cases b file_data) as [[_ ->]|(_ & _ & ->)]; lia.
Qed.

(** X9 (insertions append).  In a root directory whose first [k] slots
    are in use and whose rest is zero, an insertion under a name that does
    not start with a NUL character writes its entry into slot [k], leaves
    the slots before it as they were and the rest zero; the entry holds
    the 8.3 name, the first cluster and the size of the file. *)
Theorem insertion_appends now filename file_data k b b' :
  builder_inv b → dir_packed k (root_dir b) → k < bytes_per_cluster / 32 →
  head filename ≠ Some 0 →
  add_file_to_directory now filename file_data b = Ok b' →
  dir_packed (k + 1) (root_dir b') ∧
  slice (root_dir b') 0 (32 * k) = slice (root_dir b) 0 (32 * k) ∧
  ∃ fn, fat_filename_of filename = Ok fn ∧
        slice (dir_slot (root_dir b') (32 * k)) 0 11 = fn ∧
        entry_first_cluster (dir_slot (root_dir b') (32 * k)) = first_cluster_of b file_data ∧
        entry_size (dir_slot (root_dir b') (32 * k)) = len file_data.
Proof.
  intros Hinv Hpacked Hk Hhead Hadd.
  exact (add_file_to_directory_packed now filename file_data k b b'
           Hinv Hpacked Hk Hhead Hadd).
Qed.

Lemma insertion_appends_witness :
  dir_packed (1 + 1) (root_dir demo_added) ∧
  slice (root_dir demo_added) 0 (32 * 1) = slice (root_dir demo_builder) 0 (32 * 1) ∧
  ∃ fn, fat_filename_of (str "shell.elf") = Ok fn ∧
        slice (dir_slot (root_dir demo_added) (32 * 1)) 0 11 = fn ∧
        entry_first_cluster (dir_slot (root_dir demo_added) (32 * 1))
        = first_cluster_of demo_builder demo_payload ∧
        entry_size (dir_slot (root_dir demo_added) (32 * 1)) = len demo_payload.
Proof.
  apply (insertion_appends demo_clock (str "shell.elf") demo_payload 1
           demo_builder demo_added).
  - apply builder_inv_b_true. vm_compute. reflexivity.
  - apply dir_packed_b_true. vm_compute. reflexivity.
  - vm_compute. reflexivity.
  - vm_compute. discriminate.
  - apply unwrap_Ok. vm_compute. reflexivity.
Defined.

(** An insertion that reaches a full directory raises "Directory full". *)
Lemma add_file_to_directory_full now filename file_data b fn :
  builder_inv b →
  fat_filename_of filename = Ok fn →
  next_free_cluster b + clusters_needed (len file_data) ≤ len (fat_table b) →
  no_free (root_dir b) →
  add_file_to_directory now filename file_data b = Raise DirectoryFull.
Proof.
  intros Hinv Hfn Hfit Hfull. pose proof Hinv as (Hfat & Hnfc & Himg).
  assert (insert_entry now fn (first_cluster_of b file_data) (len file_data) (root_dir b)
          = Raise DirectoryFull) as Hins by (by apply insert_entry_full).
  rewrite root_dir_eq in Hins.
  unfold add_file_to_directory. cbv zeta.
  change ((len file_data + bytes_per_cluster - 1) `div` bytes_per_cluster)
    with (clusters_needed (len file_data)).
  change (cluster_to_sector root_cluster * sector_size) with (cluster_offset 2).
  change (cluster_offset 2 + bytes_per_cluster) with (cluster_offset 2 + 4096).
  rewrite Hfn, bind_Ok.
  destruct (first_cluster_of_cases b file_data) as [[Hpos Hfc]|(Hz & Hn0 & Hfc)];
    rewrite Hfc in Hins.
  - pose proof (clusters_needed_pos _ Hpos) as Hn1.
    destruct (allocate_chain_ok (len file_data) (clusters_needed (len file_data)) b)
      as [bf Halloc]; [done|done|lia|done|].
    rewrite Halloc, bind_Ok. cbv beta iota.
    apply allocate_chain_Ok in Halloc as (_ & _ & _ & _ & Hd & _); [|done|done|lia].
    cbn [disk_image set_disk_image]. rewrite Hd.
    pose proof (write_file_data_spec file_data (next_free_cluster b)
                  (Z.to_nat (clusters_needed (len file_data))) (disk_image b))
      as (_ & _ & Hlow).
    { rewrite cluster_offset_eq in *. lia. }
    rewrite Z2Nat.id in Hlow by lia.
    rewrite Hlow by (rewrite !cluster_offset_eq; lia).
    rewrite Hins, bind_Raise. reflexivity.
  - rewrite Hz, Hn0 in *. rewrite allocate_chain_empty by lia.
    rewrite bind_Ok. cbv beta iota. cbn [disk_image set_disk_image].
    rewrite write_file_data_0, Hins, bind_Raise. reflexivity.
Qed.

Lemma named_add_steps (k : nat) : ∀ j b0 b,
  builder_inv b0 → dir_packed j (root_dir b0) →
  nsteps named_add k b0 b →
  j + Z.of_nat k ≤ bytes_per_cluster / 32 ∧
  builder_inv b ∧ dir_packed (j + Z.of_nat k) (root_dir b).
Proof.
  induction k as [|k IH]; intros j b0 b Hinv Hpacked Hsteps.
  - inversion Hsteps; subst. rewrite Z.add_0_r.
    pose proof Hpacked as (_ & Hj & _). split; [lia|done].
  - inversion Hsteps as [|? ? b1 ? (now & filename & file_data & Hhead & Hadd) Hrest];
      subst.
    destruct (decide (j < bytes_per_cluster / 32)) as [Hj|Hj].
    + destruct (add_file_to_directory_packed now filename file_data j b0 b1
                  Hinv Hpacked Hj Hhead Hadd) as (Hpacked1 & _).
      pose proof (add_file_to_directory_inv _ _ _ _ _ Hinv Hadd) as Hinv1.
      destruct (IH (j + 1) b1 b Hinv1 Hpacked1 Hrest) as (Hle & Hinvb & Hpb).
      replace (j + Z.of_nat (S k)) with (j + 1 + Z.of_nat k) by lia.
      split; [lia|done].
    + exfalso. pose proof Hpacked as (Hlen & Hjk & _).
      assert (j = bytes_per_cluster / 32) as -> by lia.
      pose proof (packed_no_free _ Hpacked) as Hfull.
      destruct (add_file_to_directory_root _ _ _ _ _ Hinv Hadd) as (fn & _ & Hins).
      apply (insert_entry_full now fn (first_cluster_of b0 file_data) (len file_data))
        in Hfull. congruence.
Qed.

(** X10 (capacity of the root directory).  After [k] insertions into a
    fresh builder, under names that do not start with a NUL character,
    the volume label and the [k] entries fill the first [k + 1] slots, so
    [k] is at most 127; while a slot is left the next free one is slot
    [k + 1], and once all 128 are in use an insertion that gets as far as
    the directory raises [DirectoryFull]. *)
Theorem directory_capacity mb b0 (k : nat) b :
  1 ≤ mb → create_filesystem_structure (init mb) = Ok b0 →
  nsteps named_add k b0 b →
  Z.of_nat k + 1 ≤ bytes_per_cluster / 32 ∧
  dir_packed (Z.of_nat k + 1) (root_dir b) ∧
  (Z.of_nat k + 1 < bytes_per_cluster / 32 →
   first_free (root_dir b) (32 * (Z.of_nat k + 1))) ∧
  (Z.of_nat k + 1 = bytes_per_cluster / 32 →
   ∀ now filename file_data fn,
     fat_filename_of filename = Ok fn →
     next_free_cluster b + clusters_needed (len file_data) ≤ len (fat_table b) →
     add_file_to_directory now filename file_data b = Raise DirectoryFull).
Proof.
  intros Hmb Hb0 Hsteps.
  destruct (fresh_builder mb b0 Hmb Hb0) as (Hinv0 & _ & _ & _ & _ & _ & _ & _ & Hroot0).
  assert (dir_packed 1 (root_dir b0)) as Hp0.
  { apply dir_packed_b_true.
    assert (root_dir b0 = unwrap_bytes root_directory_bytes) as ->
      by (by rewrite Hroot0).
    vm_compute. reflexivity. }
  destruct (named_add_steps k 1 b0 b Hinv0 Hp0 Hsteps) as (Hle & Hinv & Hpacked).
  replace (1 + Z.of_nat k) with (Z.of_nat k + 1) in * by lia.
  split; [done|]. split; [done|]. split.
  - intros Hlt. by apply packed_first_free.
  - intros Heq now filename file_data fn Hfn Hfit.
    eapply add_file_to_directory_full; try done.
    apply packed_no_free. by rewrite <- Heq.
Qed.

Lemma directory_capacity_witness :
  Z.of_nat 1 + 1 ≤ bytes_per_cluster / 32 ∧
  dir_packed (Z.of_nat 1 + 1) (root_dir demo_added) ∧
  (Z.of_nat 1 + 1 < bytes_per_cluster / 32 →
   first_free (root_dir demo_added) (32 * (Z.of_nat 1 + 1))) ∧
  (Z.of_nat 1 + 1 = bytes_per_cluster / 32 →
   ∀ now filename file_data fn,
     fat_filename_of filename = Ok fn →
     next_free_cluster demo_added + clusters_needed (len file_data)
     ≤ len (fat_table demo_added) →
     add_file_to_directory now filename file_data demo_added = Raise DirectoryFull).
Proof.
  apply (directory_capacity 1 demo_builder 1 demo_added).
  - lia.
  - apply unwrap_Ok. vm_compute. reflexivity.
  - apply nsteps_once. exists demo_clock, (str "shell.elf"), demo_payload.
    split; [vm_compute; discriminate|apply unwrap_Ok; vm_compute; reflexivity].
Defined.

(** ** File names *)

Lemma rfind_eq ch s :
  rfind ch s = fold_left (rfind_step ch) (zip (seqZ 0 (len s)) s) (-1).
Proof. reflexivity. Qed.

Lemma rfind_scan_absent ch s : ∀ o n acc,
  ch ∉ s → fold_left (rfind_step ch) (zip (seqZ o n) s) acc = acc.
Proof.
  induction s as [|x s IH]; intros o n acc Hnot.
  - by rewrite zip_with_nil_r.
  - apply not_elem_of_cons in Hnot as [Hx Hs].
    destruct (decide (0 < n)) as [Hn|Hn].
    + rewrite seqZ_cons by done. cbn [zip zip_with fold_left].
      unfold rfind_step at 2. cbn [fst snd].
      destruct (Z.eqb_spec x ch); [congruence|]. by apply IH.
    + rewrite seqZ_nil by lia. done.
Qed.

Lemma rfind_scan_last ch s1 s2 : ∀ o n acc,
  len s1 < n → ch ∉ s2 →
  fold_left (rfind_step ch) (zip (seqZ o n) (s1 ++ ch :: s2)) acc = o + len s1.
Proof.
  induction s1 as [|x s1 IH]; intros o n acc Hn Hnot.
  - change (len []) with 0 in *. rewrite seqZ_cons by lia.
    cbn [app zip zip_with fold_left]. unfold rfind_step at 2. cbn [fst snd].
    rewrite Z.eqb_refl. rewrite rfind_scan_absent by done. lia.
  - assert (len (x :: s1) = len s1 + 1) as Hl by (unfold len; cbn [length]; lia).
    rewrite Hl in *. pose proof (len_nonneg s1).
    rewrite seqZ_cons by lia. cbn [app zip zip_with fold_left].
    rewrite IH by (done || lia). lia.
Qed.

Lemma rfind_absent ch s : ch ∉ s → rfind ch s = -1.
Proof. intros. rewrite rfind_eq. by apply rfind_scan_absent. Qed.

Lemma rfind_last ch s1 s2 : ch ∉ s2 → rfind ch (s1 ++ ch :: s2) = len s1.
Proof.
  intros. rewrite rfind_eq. rewrite rfind_scan_last; [lia| |done].
  rewrite len_app. pose proof (len_nonneg s2).
  assert (len (ch :: s2) = len s2 + 1) by (unfold len; cbn [length]; lia). lia.
Qed.

Lemma plain_ascii_spec s :
  plain_ascii s = true →
  (∀ c, c ∈ s → 0 ≤ c < 128) ∧ 46 ∉ s ∧ 47 ∉ s.
Proof.
  unfold plain_ascii. rewrite forallb_forall. intros Hall.
  assert (∀ c, c ∈ s → 0 ≤ c < 128 ∧ c ≠ 46 ∧ c ≠ 47) as Hs.
  { intros c Hc. apply list_elem_of_In in Hc. specialize (Hall c Hc).
    rewrite !andb_true_iff, !negb_true_iff, Z.leb_le, Z.ltb_lt, !Z.eqb_neq in Hall.
    lia. }
  split_and!.
  - intros c Hc. by apply Hs.
  - intros Hc. apply Hs in Hc. lia.
  - intros Hc. apply Hs in Hc. lia.
Qed.

Lemma component_ascii_spec s :
  component_ascii s = true → (∀ c, c ∈ s → 0 ≤ c < 128) ∧ 47 ∉ s.
Proof.
  unfold component_ascii. rewrite forallb_forall. intros Hall.
  assert (∀ c, c ∈ s → 0 ≤ c < 128 ∧ c ≠ 47) as Hs.
  { intros c Hc. apply list_elem_of_In in Hc. specialize (Hall c Hc).
    rewrite !andb_true_iff, !negb_true_iff, Z.leb_le, Z.ltb_lt, !Z.eqb_neq in Hall.
    lia. }
  split.
  - intros c Hc. by apply Hs.
  - intros Hc. apply Hs in Hc. lia.
Qed.

Lemma upper_eq s : upper s = upper_char <$> s.
Proof. reflexivity. Qed.

Lemma upper_char_range c : 0 ≤ c < 128 → 0 ≤ upper_char c < 128.
Proof.
  intros. unfold upper_char. destruct ((97 <=? c) && (c <=? 122)) eqn:Hr; [|done].
  rewrite andb_true_iff, !Z.leb_le in Hr. lia.
Qed.

Lemma upper_char_keeps c d :
  d < 65 ∨ 90 < d → upper_char c = d → c = d.
Proof.
  intros Hd. unfold upper_char. destruct ((97 <=? c) && (c <=? 122)) eqn:Hr; [|done].
  rewrite andb_true_iff, !Z.leb_le in Hr. lia.
Qed.

Lemma upper_absent d s : d < 65 ∨ 90 < d → d ∉ s → d ∉ upper s.
Proof.
  intros Hd Hs. rewrite upper_eq. intros (c & Hc & Hin)%list_elem_of_fmap.
  symmetry in Hc. apply upper_char_keeps in Hc; [|done]. by subst.
Qed.

Lemma upper_ascii s :
  (∀ c, c ∈ s → 0 ≤ c < 128) → ∀ c, c ∈ upper s → 0 ≤ c < 128.
Proof.
  intros Hs c. rewrite upper_eq. intros (c0 & -> & Hin)%list_elem_of_fmap.
  apply upper_char_range. by apply Hs.
Qed.

Lemma encode_ascii_ok s : (∀ c, c ∈ s → 0 ≤ c < 128) → encode_ascii s = Ok s.
Proof.
  intros Hs. unfold encode_ascii.
  assert (forallb (λ c, (0 <=? c) && (c <? 128)) s = true) as ->; [|done].
  apply forallb_forall. intros c Hc%list_elem_of_In.
  apply Hs in Hc. apply andb_true_iff. rewrite Z.leb_le, Z.ltb_lt. lia.
Qed.

Lemma elem_of_slice {A} (l : list A) s e x : x ∈ slice l s e → x ∈ l.
Proof.
  intros (k & Hk)%list_elem_of_lookup. rewrite lookup_slice in Hk.
  case_decide; [|done]. by eapply list_elem_of_lookup_2.
Qed.

Lemma elem_of_ljust n s x : x ∈ ljust n s → x ∈ s ∨ x = 32.
Proof.
  unfold ljust. intros [?|Hr]%elem_of_app; [by left|].
  right. by apply elem_of_replicate in Hr as [-> _].
Qed.

Lemma upper_app s1 s2 : upper (s1 ++ s2) = upper s1 ++ upper s2.
Proof. rewrite !upper_eq. apply fmap_app. Qed.

Lemma len_upper s : len (upper s) = len s.
Proof. rewrite upper_eq. unfold len. by rewrite length_fmap. Qed.

Lemma rfind_scan_lower ch s : ∀ o n acc,
  -1 ≤ acc → 0 ≤ o → -1 ≤ fold_left (rfind_step ch) (zip (seqZ o n) s) acc.
Proof.
  induction s as [|x s IH]; intros o n acc Hacc Ho.
  - by rewrite zip_with_nil_r.
  - destruct (decide (0 < n)) as [Hn|Hn].
    + rewrite seqZ_cons by done. cbn [zip zip_with fold_left].
      apply IH; [|lia]. unfold rfind_step. cbn [fst snd].
      destruct (x =? ch); lia.
    + rewrite seqZ_nil by lia. done.
Qed.

Lemma rfind_lower ch s : -1 ≤ rfind ch s.
Proof. rewrite rfind_eq. apply rfind_scan_lower; lia. Qed.

Lemma splitext_no_dot p : 46 ∉ p → splitext p = (p, []).
Proof.
  intros Hdot. unfold splitext. cbv zeta. rewrite (rfind_absent 46) by done.
  pose proof (rfind_lower 47 p).
  destruct (Z.ltb_spec (rfind 47 p) (-1)); [lia|done].
Qed.

Lemma splitext_stem_ext stem ext :
  stem ≠ [] → 46 ∉ stem → 47 ∉ stem → 46 ∉ ext → 47 ∉ ext →
  splitext (stem ++ 46 :: ext) = (stem, 46 :: ext).
Proof.
  intros Hne Hd1 Hs1 Hd2 Hs2. unfold splitext. cbv zeta.
  rewrite rfind_last by done.
  rewrite (rfind_absent 47).
  2:{ rewrite elem_of_app, elem_of_cons. intros [?|[?|?]]; done. }
  pose proof (len_nonneg stem).
  destruct (Z.ltb_spec (-1) (len stem)); [|lia].
  change (-1 + 1) with 0.
  assert (slice (stem ++ 46 :: ext) 0 (len stem) = stem) as Hstem.
  { rewrite slice_app_l by lia. apply slice_all. }
  rewrite Hstem.
  assert (existsb (λ c, negb (c =? 46)) stem = true) as ->.
  { destruct stem as [|x stem]; [done|]. cbn [existsb].
    apply not_elem_of_cons in Hd1 as [Hx _].
    destruct (Z.eqb_spec x 46); [congruence|done]. }
  f_equal. unfold len. rewrite Nat2Z.id. by rewrite drop_app_length.
Qed.

Lemma fat_filename_bytes s1 s2 :
  (∀ c, c ∈ s1 → 0 ≤ c < 128) → (∀ c, c ∈ s2 → 0 ≤ c < 128) →
  encode_ascii (ljust 8 (slice (upper s1) 0 8) ++ ljust 3 (slice (upper s2) 0 3))
  = Ok (ljust 8 (slice (upper s1) 0 8) ++ ljust 3 (slice (upper s2) 0 3)).
Proof.
  intros H1 H2. apply encode_ascii_ok. intros c [Hc|Hc]%elem_of_app.
  - apply elem_of_ljust in Hc as [Hc%elem_of_slice| ->]; [|lia].
    by apply (upper_ascii s1).
  - apply elem_of_ljust in Hc as [Hc%elem_of_slice| ->]; [|lia].
    by apply (upper_ascii s2).
Qed.

(** X11 (8.3 names).  For ASCII text without dots, NUL or path
    separators: a name without an extension becomes its first eight
    characters in upper case, padded with spaces to eight, then three
    spaces; [stem.ext] becomes the stem likewise, then the first three
    characters of the extension in upper case, padded to three. *)
Theorem fat_filename_of_stem_ext stem ext :
  plain_ascii stem = true → plain_ascii ext = true →
  fat_filename_of stem
  = Ok (ljust 8 (slice (upper stem) 0 8) ++ str "   ") ∧
  (stem ≠ [] →
   fat_filename_of (stem ++ 46 :: ext)
   = Ok (ljust 8 (slice (upper stem) 0 8) ++ ljust 3 (slice (upper ext) 0 3))).
Proof.
  intros (Ha1 & Hd1 & Hs1)%plain_ascii_spec (Ha2 & Hd2 & Hs2)%plain_ascii_spec.
  split.
  - unfold fat_filename_of.
    rewrite splitext_no_dot by (apply upper_absent; [lia|done]).
    pose proof (fat_filename_bytes stem [] Ha1) as Hb.
    change (ljust 3 (slice (upper []) 0 3)) with (str "   ") in Hb.
    apply Hb. intros c Hc. by apply elem_of_nil in Hc.
  - intros Hne. unfold fat_filename_of.
    rewrite upper_app. change (upper (46 :: ext)) with (46 :: upper ext).
    rewrite splitext_stem_ext.
    + change (46 :: upper ext) with ([46] ++ upper ext) at 1.
      rewrite (slice_app_r [46]) by (vm_compute; discriminate).
      change (1 - len [46]) with 0. change (4 - len [46]) with 3.
      by apply fat_filename_bytes.
    + rewrite upper_eq. by destruct stem.
    + apply upper_absent; [lia|done].
    + apply upper_absent; [lia|done].
    + apply upper_absent; [lia|done].
    + apply upper_absent; [lia|done].
Qed.

Lemma fat_filename_of_stem_ext_witness :
  fat_filename_of (str "kernel_image")
  = Ok (ljust 8 (slice (upper (str "kernel_image")) 0 8) ++ str "   ") ∧
  (str "kernel_image" ≠ [] →
   fat_filename_of (str "kernel_image" ++ 46 :: str "binary")
   = Ok (ljust 8 (slice (upper (str "kernel_image")) 0 8)
         ++ ljust 3 (slice (upper (str "binary")) 0 3))).
Proof.
  apply (fat_filename_of_stem_ext (str "kernel_image") (str "binary")).
  - vm_compute. reflexivity.
  - vm_compute. reflexivity.
Defined.

(** ** The name [add_file] gives a file *)

Lemma basename_component dir name :
  47 ∉ name → basename (dir ++ 47 :: name) = name ∧ basename name = name.
Proof.
  intros Hname. unfold basename. split.
  - rewrite rfind_last by done. unfold len.
    replace (Z.to_nat (Z.of_nat (length dir) + 1)) with (length dir + 1)%nat by lia.
    rewrite <- drop_drop. rewrite drop_app_length. done.
  - rewrite rfind_absent by done. done.
Qed.

(** ** Directory entries of [create_disk_fixed.py] *)

Lemma cluster_words cluster :
  Z.land (Z.shiftr cluster 16) 0xFFFF * 65536 + Z.land cluster 0xFFFF
  = cluster mod 2 ^ 32.
Proof.
  rewrite Z.shiftr_div_pow2 by lia.
  change 0xFFFF with (Z.ones 16). rewrite !Z.land_ones by lia.
  change (2 ^ 32) with (2 ^ 16 * 2 ^ 16).
  rewrite Z.rem_mul_r by lia. lia.
Qed.

Lemma land_word v : 0 ≤ Z.land v 0xFFFF < 2 ^ 16.
Proof.
  change 0xFFFF with (Z.ones 16). rewrite Z.land_ones by lia.
  apply Z.mod_pos_bound. lia.
Qed.

Lemma len_slice_ljust s : len (slice (ljust 11 s) 0 11) = 11.
Proof.
  rewrite len_slice by lia. unfold ljust. rewrite len_app.
  pose proof (len_nonneg s).
  destruct (decide (len s ≤ 11)).
  - rewrite len_replicate by lia. lia.
  - pose proof (len_nonneg (replicate (Z.to_nat (11 - len s)) 32)). lia.
Qed.

Lemma ascii_ljust n s : ascii_text s = true → encode_ascii (ljust n s) = Ok (ljust n s).
Proof.
  unfold ascii_text. rewrite forallb_forall. intros Hs.
  apply encode_ascii_ok. intros c [Hc| ->]%elem_of_ljust; [|lia].
  apply list_elem_of_In, Hs in Hc.
  rewrite andb_true_iff, Z.leb_le, Z.ltb_lt in Hc. lia.
Qed.

(** The 32 bytes of a directory entry. *)
Lemma create_directory_entry_bytes name attr cluster size :
  ascii_text name = true → 0 ≤ size < 2 ^ 32 →
  CreateDiskFixed.create_directory_entry name attr cluster size
  = Ok (slice (ljust 11 name) 0 11 ++ [attr; 0; 0; 0; 0; 0x21; 0; 0x21; 0]
        ++ le_bytes 2 (Z.land (Z.shiftr cluster 16) 0xFFFF) ++ [0; 0; 0x21; 0]
        ++ le_bytes 2 (Z.land cluster 0xFFFF) ++ le_bytes 4 size).
Proof.
  intros Hname Hsize.
  unfold CreateDiskFixed.create_directory_entry, pack_into.
  rewrite (ascii_ljust 11 name Hname), bind_Ok.
  assert (pack 2 (Z.land (Z.shiftr cluster 16) 0xFFFF)
          = Ok (le_bytes 2 (Z.land (Z.shiftr cluster 16) 0xFFFF))) as ->
    by (apply pack_Ok; split; [apply land_word|done]).
  assert (pack 2 (Z.land cluster 0xFFFF) = Ok (le_bytes 2 (Z.land cluster 0xFFFF))) as ->
    by (apply pack_Ok; split; [apply land_word|done]).
  assert (pack 4 size = Ok (le_bytes 4 size)) as -> by (by apply pack_Ok).
  assert (length (slice (ljust 11 name) 0 11) = 11%nat) as Hl
    by (pose proof (len_slice_ljust name) as Hl; unfold len in Hl; lia).
  pose proof (length_le_bytes 2 (Z.land (Z.shiftr cluster 16) 0xFFFF)) as Hhi.
  pose proof (length_le_bytes 2 (Z.land cluster 0xFFFF)) as Hlo.
  pose proof (length_le_bytes 4 size) as Hsz.
  destruct (slice (ljust 11 name) 0 11)
    as [|n0 [|n1 [|n2 [|n3 [|n4 [|n5 [|n6 [|n7 [|n8 [|n9 [|n10 [|? ?]]]]]]]]]]]];
    try discriminate Hl.
  destruct (le_bytes 2 (Z.land (Z.shiftr cluster 16) 0xFFFF)) as [|h0 [|h1 [|? ?]]];
    try discriminate Hhi.
  destruct (le_bytes 2 (Z.land cluster 0xFFFF)) as [|l0 [|l1 [|? ?]]];
    try discriminate Hlo.
  destruct (le_bytes 4 size) as [|s0 [|s1 [|s2 [|s3 [|? ?]]]]]; try discriminate Hsz.
  vm_compute. reflexivity.
Qed.

Lemma pack_out_of_range n v :
  ¬ (0 ≤ v < 2 ^ (8 * Z.of_nat n)) → pack n v = Raise StructError.
Proof.
  intros Hv. unfold pack.
  destruct (Z.leb_spec 0 v), (Z.ltb_spec v (2 ^ (8 * Z.of_nat n))); cbn [andb];
    try done; lia.
Qed.

Lemma create_directory_entry_overflow name attr cluster size :
  ascii_text name = true → ¬ (0 ≤ size < 2 ^ 32) →
  CreateDiskFixed.create_directory_entry name attr cluster size = Raise StructError.
Proof.
  intros Hname Hsize.
  unfold CreateDiskFixed.create_directory_entry, pack_into.
  rewrite (ascii_ljust 11 name Hname), bind_Ok.
  assert (pack 2 (Z.land (Z.shiftr cluster 16) 0xFFFF)
          = Ok (le_bytes 2 (Z.land (Z.shiftr cluster 16) 0xFFFF))) as ->
    by (apply pack_Ok; split; [apply land_word|done]).
  assert (pack 2 (Z.land cluster 0xFFFF) = Ok (le_bytes 2 (Z.land cluster 0xFFFF))) as ->
    by (apply pack_Ok; split; [apply land_word|done]).
  rewrite (pack_out_of_range 4 size) by done.
  assert (length (slice (ljust 11 name) 0 11) = 11%nat) as Hl
    by (pose proof (len_slice_ljust name) as Hl; unfold len in Hl; lia).
  pose proof (length_le_bytes 2 (Z.land (Z.shiftr cluster 16) 0xFFFF)) as Hhi.
  pose proof (length_le_bytes 2 (Z.land cluster 0xFFFF)) as Hlo.
  destruct (slice (ljust 11 name) 0 11)
    as [|n0 [|n1 [|n2 [|n3 [|n4 [|n5 [|n6 [|n7 [|n8 [|n9 [|n10 [|? ?]]]]]]]]]]]];
    try discriminate Hl.
  destruct (le_bytes 2 (Z.land (Z.shiftr cluster 16) 0xFFFF)) as [|h0 [|h1 [|? ?]]];
    try discriminate Hhi.
  destruct (le_bytes 2 (Z.land cluster 0xFFFF)) as [|l0 [|l1 [|? ?]]];
    try discriminate Hlo.
  vm_compute. reflexivity.
Qed.

(** What a reader decodes from an entry [create_directory_entry] made. *)
Lemma create_directory_entry_decoded name attr cluster size :
  ascii_text name = true → 0 ≤ size < 2 ^ 32 →
  ∃ e, CreateDiskFixed.create_directory_entry name attr cluster size = Ok e ∧
       len e = 32 ∧ slice e 0 11 = slice (ljust 11 name) 0 11 ∧
       entry_attr e = Some attr ∧
       entry_first_cluster e = cluster mod 2 ^ 32 ∧
       entry_size e = size ∧ entry_dates e = [0x21; 0x21; 0x21].
Proof.
  intros Hname Hsize.
  pose proof (create_directory_entry_bytes name attr cluster size Hname Hsize) as Hb.
  rewrite <- (cluster_words cluster).
  pose proof (le_value_le_bytes 2 (Z.land (Z.shiftr cluster 16) 0xFFFF) (land_word _))
    as Hvh.
  pose proof (le_value_le_bytes 2 (Z.land cluster 0xFFFF) (land_word _)) as Hvl.
  pose proof (le_value_le_bytes 4 size Hsize) as Hvs.
  assert (length (slice (ljust 11 name) 0 11) = 11%nat) as Hl
    by (pose proof (len_slice_ljust name) as Hl; unfold len in Hl; lia).
  pose proof (length_le_bytes 2 (Z.land (Z.shiftr cluster 16) 0xFFFF)) as Hhi.
  pose proof (length_le_bytes 2 (Z.land cluster 0xFFFF)) as Hlo.
  pose proof (length_le_bytes 4 size) as Hsz.
  remember (slice (ljust 11 name) 0 11) as nb eqn:Hnb.
  remember (le_bytes 2 (Z.land (Z.shiftr cluster 16) 0xFFFF)) as hb eqn:Hhb.
  remember (le_bytes 2 (Z.land cluster 0xFFFF)) as lb eqn:Hlb.
  remember (le_bytes 4 size) as sb eqn:Hsb.
  eexists. split; [exact Hb|]. clear Hb.
  rewrite <- Hvh, <- Hvl, <- Hvs. clear Hvh Hvl Hvs Hnb Hhb Hlb Hsb.
  destruct nb
    as [|n0 [|n1 [|n2 [|n3 [|n4 [|n5 [|n6 [|n7 [|n8 [|n9 [|n10 [|? ?]]]]]]]]]]]];
    try discriminate Hl.
  destruct hb as [|h0 [|h1 [|? ?]]]; try discriminate Hhi.
  destruct lb as [|l0 [|l1 [|? ?]]]; try discriminate Hlo.
  destruct sb as [|s0 [|s1 [|s2 [|s3 [|? ?]]]]]; try discriminate Hsz.
  split_and!; vm_compute; reflexivity.
Qed.

(** X13 (directory entries of [create_disk_fixed.py]).  For an ASCII name
    and an attribute byte, [create_directory_entry] returns 32 bytes when
    the size fits 32 bits: the name padded or cut to 11 bytes, the
    attribute, the cluster number modulo 2^32 split over the high and low
    words, the size, and the date 0x21 in the three date fields.  For any
    other size it raises [struct.error]. *)
Theorem create_directory_entry_fields name attr cluster size :
  ascii_text name = true → 0 ≤ attr < 256 →
  (0 ≤ size < 2 ^ 32 →
   ∃ e, CreateDiskFixed.create_directory_entry name attr cluster size = Ok e ∧
        len e = 32 ∧ slice e 0 11 = slice (ljust 11 name) 0 11 ∧
        entry_attr e = Some attr ∧
        entry_first_cluster e = cluster mod 2 ^ 32 ∧
        entry_size e = size ∧ entry_dates e = [0x21; 0x21; 0x21]) ∧
  (¬ (0 ≤ size < 2 ^ 32) →
   CreateDiskFixed.create_directory_entry name attr cluster size = Raise StructError).
Proof.
  intros Hname Hattr. split.
  - intros Hsize. by apply create_directory_entry_decoded.
  - intros Hsize. by apply create_directory_entry_overflow.
Qed.

Lemma create_directory_entry_fields_witness :
  (0 ≤ 5000 < 2 ^ 32 →
   ∃ e, CreateDiskFixed.create_directory_entry (str "SHELL") 0x20 6 5000 = Ok e ∧
        len e = 32 ∧ slice e 0 11 = slice (ljust 11 (str "SHELL")) 0 11 ∧
        entry_attr e = Some 0x20 ∧
        entry_first_cluster e = 6 mod 2 ^ 32 ∧
        entry_size e = 5000 ∧ entry_dates e = [0x21; 0x21; 0x21]) ∧
  (¬ (0 ≤ 5000 < 2 ^ 32) →
   CreateDiskFixed.create_directory_entry (str "SHELL") 0x20 6 5000 = Raise StructError).
Proof.
  apply (create_directory_entry_fields (str "SHELL") 0x20 6 5000).
  - vm_compute. reflexivity.
  - lia.
Defined.

(** ** The FAT of [create_disk_fixed.py] *)

(** Rewrites the outermost [pack_into] on a buffer of known length [L];
    the value and the offset are closed. *)
Ltac pack_into_closed L :=
  match goal with
  | Hl : len ?buf = L |- context [pack_into ?n ?buf ?off ?v] =>
      let H := fresh "Hp" in
      assert (pack_into n buf off v
              = Ok (slice_set buf off (off + Z.of_nat n) (le_bytes n v))) as H
        by (apply pack_into_ok;
            [vm_compute; split; congruence|lia|rewrite Hl; vm_compute; congruence]);
      rewrite H; rewrite bind_Ok; cbv beta;
      apply len_pack_into in H; rewrite Hl in H
  end.

Lemma create_fat_unfold total_sectors file_size :
  ∃ head,
    len head = 81920 ∧ slice head 0 24 = reserved_entries ∧
    (∀ s e, 24 ≤ s ≤ e → e ≤ 81920 → slice head s e = bytearray (e - s)) ∧
    CreateDiskFixed.create_fat total_sectors CreateDiskFixed.fat_size file_size
    = if 0 <? file_size
      then for_each (range 0 (chained_clusters file_size))
             (fat_link (chained_clusters file_size)) head
      else Ok head.
Proof.
  unfold CreateDiskFixed.create_fat, chained_clusters. cbv zeta.
  change (CreateDiskFixed.fat_size * CreateDiskFixed.BYTES_PER_SECTOR) with 81920.
  pose proof (len_bytearray 81920 ltac:(lia)) as Hl0.
  remember (bytearray 81920) as b0 eqn:Hb0.
  pack_into_closed 81920. remember (slice_set b0 _ _ _) as b1 eqn:Hb1.
  pack_into_closed 81920. remember (slice_set b1 _ _ _) as b2 eqn:Hb2.
  pack_into_closed 81920. remember (slice_set b2 _ _ _) as b3 eqn:Hb3.
  pack_into_closed 81920. remember (slice_set b3 _ _ _) as b4 eqn:Hb4.
  pack_into_closed 81920. remember (slice_set b4 _ _ _) as b5 eqn:Hb5.
  pack_into_closed 81920. remember (slice_set b5 _ _ _) as b6 eqn:Hb6.
  exists b6. split; [done|]. split; [|split].
  - subst. vm_compute. reflexivity.
  - intros s e Hs He. rewrite Hb6.
    rewrite slice_slice_set_above by (done || lia). rewrite Hb5.
    rewrite slice_slice_set_above by (done || lia). rewrite Hb4.
    rewrite slice_slice_set_above by (done || lia). rewrite Hb3.
    rewrite slice_slice_set_above by (done || lia). rewrite Hb2.
    rewrite slice_slice_set_above by (done || lia). rewrite Hb1.
    rewrite slice_slice_set_above by (done || lia). rewrite Hb0.
    apply slice_bytearray; lia.
  - destruct (0 <? file_size); reflexivity.
Qed.

Lemma fat_link_ok n i fat :
  0 ≤ i → 4 * (6 + i) + 4 ≤ len fat → 6 + i + 1 < 2 ^ 32 →
  ∃ fat', fat_link n i fat = Ok fat' ∧ len fat' = len fat.
Proof.
  intros Hi Hfit Hval. unfold fat_link. cbv zeta.
  assert (∀ v, 0 ≤ v < 2 ^ 32 →
            ∃ fat', pack_into 4 fat ((6 + i) * 4) v = Ok fat' ∧ len fat' = len fat)
    as Hp.
  { intros v Hv.
    exists (slice_set fat ((6 + i) * 4) ((6 + i) * 4 + Z.of_nat 4) (le_bytes 4 v)).
    change (Z.of_nat 4) with 4. split.
    - apply pack_into_ok; [exact Hv|lia|change (Z.of_nat 4) with 4; lia].
    - apply len_slice_set_same; [done|lia| |lia].
      unfold len. rewrite length_le_bytes. lia. }
  change (2 ^ 32) with 4294967296 in *.
  destruct (i =? n - 1); apply Hp; lia.
Qed.

Lemma fat_link_overflow n i fat :
  0 ≤ i → len fat < 4 * (6 + i) + 4 → fat_link n i fat = Raise StructError.
Proof.
  intros Hi Hfit. unfold fat_link. cbv zeta.
  assert (∀ v, pack_into 4 fat ((6 + i) * 4) v = Raise StructError) as Hp.
  { intros v. unfold pack_into. destruct (pack 4 v) as [bs|e] eqn:Hv.
    - rewrite bind_Ok. change (Z.of_nat 4) with 4.
      destruct (Z.leb_spec ((6 + i) * 4 + 4) (len fat)); [lia|].
      by rewrite andb_false_r.
    - rewrite bind_Raise. f_equal. by eapply pack_Raise. }
  destruct (i =? n - 1); apply Hp.
Qed.

Lemma fat_link_loop_ok n (k : nat) : ∀ fat0,
  (0 < Z.of_nat k → 4 * (6 + Z.of_nat k) ≤ len fat0) → Z.of_nat k + 7 < 2 ^ 32 →
  ∃ fat, for_each (range 0 (Z.of_nat k)) (fat_link n) fat0 = Ok fat ∧
         len fat = len fat0.
Proof.
  induction k as [|k IH]; intros fat0 Hfit Hval.
  - rewrite range_empty by lia. by eexists.
  - replace (Z.of_nat (S k)) with (Z.of_nat k + 1) in * by lia.
    rewrite range_snoc by lia. rewrite for_each_snoc.
    destruct (IH fat0) as (fat1 & -> & Hl1); [lia|lia|]. rewrite bind_Ok.
    destruct (fat_link_ok n (Z.of_nat k) fat1) as (fat & -> & Hl); [lia|lia|lia|].
    exists fat. split; [done|lia].
Qed.

Lemma fat_link_loop_rest n (k : nat) : ∀ fat0 fat,
  for_each (range 0 (Z.of_nat k)) (fat_link n) fat0 = Ok fat →
  ∀ s e, 4 * (6 + Z.of_nat k) ≤ s → slice fat s e = slice fat0 s e.
Proof.
  induction k as [|k IH]; intros fat0 fat.
  - rewrite range_empty by lia. cbn [for_each]. by intros [= <-].
  - replace (Z.of_nat (S k)) with (Z.of_nat k + 1) by lia.
    rewrite range_snoc by lia. rewrite for_each_snoc.
    destruct (for_each (range 0 (Z.of_nat k)) (fat_link n) fat0) as [fat1|] eqn:Hloop;
      [rewrite bind_Ok|by rewrite bind_Raise].
    intros Hlast s e Hs. rewrite <- (IH _ _ Hloop) by lia.
    assert (∃ v, pack_into 4 fat1 ((6 + Z.of_nat k) * 4) v = Ok fat) as (v & Hp).
    { unfold fat_link in Hlast. cbv zeta in Hlast.
      destruct (Z.of_nat k =? n - 1); by eexists. }
    apply pack_into_Ok in Hp as (_ & _ & Hfit & ->).
    change (Z.of_nat 4) with 4 in *.
    apply slice_slice_set_above; [lia| |lia].
    unfold len at 1. rewrite length_le_bytes. lia.
Qed.

Lemma range_split lo mid hi :
  lo ≤ mid ≤ hi → range lo hi = range lo mid ++ range mid hi.
Proof.
  intros. unfold range.
  replace (hi - lo) with ((mid - lo) + (hi - mid)) by lia.
  rewrite seqZ_app by lia. do 2 f_equal. lia.
Qed.

Lemma chained_clusters_nonneg file_size : 0 ≤ chained_clusters file_size.
Proof.
  unfold chained_clusters. destruct (Z.ltb_spec 0 file_size); [|lia].
  change CreateDiskFixed.BYTES_PER_CLUSTER with 4096.
  apply Z.div_pos; lia.
Qed.

(** When the chain fits, [create_fat] returns a FAT with the reserved
    entries, the chain, and zeros behind it. *)
Lemma create_fat_entries total_sectors file_size :
  6 + chained_clusters file_size ≤ 20480 →
  ∃ fat,
    CreateDiskFixed.create_fat total_sectors CreateDiskFixed.fat_size file_size = Ok fat ∧
    len fat = CreateDiskFixed.fat_size * CreateDiskFixed.BYTES_PER_SECTOR ∧
    fat_entry_at fat 0 = 0x0FFFFFF8 ∧
    (∀ c, 1 ≤ c < 6 → fat_entry_at fat c = 0x0FFFFFFF) ∧
    (∀ c, 6 + chained_clusters file_size ≤ c < 20480 → fat_entry_at fat c = 0) ∧
    (∀ i, 0 ≤ i < chained_clusters file_size →
       fat_entry_at fat (6 + i)
       = if i =? chained_clusters file_size - 1 then 0x0FFFFFFF else 6 + i + 1).
Proof.
  intros Hfit.
  change (CreateDiskFixed.fat_size * CreateDiskFixed.BYTES_PER_SECTOR) with 81920.
  destruct (create_fat_unfold total_sectors file_size)
    as (head & Hlen & Hres & Hzero & ->).
  pose proof (chained_clusters_nonneg file_size) as Hn0.
  assert (∃ fat, (if 0 <? file_size
                  then for_each (range 0 (chained_clusters file_size))
                         (fat_link (chained_clusters file_size)) head
                  else Ok head) = Ok fat ∧ len fat = 81920 ∧
                 (∀ s e, 0 ≤ s → e ≤ 24 → slice fat s e = slice head s e) ∧
                 (∀ s e, 4 * (6 + chained_clusters file_size) ≤ s →
                    slice fat s e = slice head s e) ∧
                 (∀ i, 0 ≤ i < chained_clusters file_size →
                    fat_entry_at fat (6 + i)
                    = if i =? chained_clusters file_size - 1
                      then 0x0FFFFFFF else 6 + i + 1))
    as (fat & -> & Hl & Hlow & Hhigh & Hchain).
  { destruct (0 <? file_size) eqn:Hpos.
    - destruct (fat_link_loop_ok (chained_clusters file_size)
                  (Z.to_nat (chained_clusters file_size)) head)
        as (fat & Hloop & Hl).
      + rewrite Z2Nat.id by done. lia.
      + rewrite Z2Nat.id by done. change (2 ^ 32) with 4294967296. lia.
      + pose proof Hloop as Hloop'.
        apply fat_link_loop in Hloop' as (_ & _ & Hent & Hlow); [|lia].
        pose proof (fat_link_loop_rest _ _ _ _ Hloop) as Hhigh.
        rewrite Z2Nat.id in * by done.
        exists fat. split; [done|]. split; [lia|]. split; [done|]. split; done.
    - exists head. split_and!; try done.
      intros i Hi. unfold chained_clusters in Hi. rewrite Hpos in Hi. lia. }
  exists fat. split; [done|]. split; [done|].
  assert (∀ c, 0 ≤ c < 6 → fat_entry_at fat c = fat_entry_at reserved_entries c)
    as Hhead.
  { intros c Hc. unfold fat_entry_at. rewrite Hlow by lia. rewrite <- Hres.
    rewrite slice_slice by lia. reflexivity. }
  split; [by rewrite Hhead by lia|]. split; [|split; [|done]].
  - intros c Hc. rewrite Hhead by lia.
    assert (c = 1 ∨ c = 2 ∨ c = 3 ∨ c = 4 ∨ c = 5) as [->|[->|[->|[->| ->]]]] by lia;
      vm_compute; reflexivity.
  - intros c Hc. unfold fat_entry_at. rewrite Hhigh by lia.
    rewrite Hzero by lia. replace (4 * c + 4 - 4 * c) with 4 by lia.
    vm_compute. reflexivity.
Qed.

(** X14 ([create_fat] succeeds).  When the chain of the ELF file ends
    within the 20480 entries of the table, [create_fat] returns a table of
    [fat_size] sectors whose entry 0 is the media descriptor 0x0FFFFFF8,
    whose entries 1 to 5 are end-of-chain marks, and whose entries behind
    the chain of the ELF file are free. *)
Theorem create_fat_total total_sectors file_size :
  6 + chained_clusters file_size ≤ 20480 →
  ∃ fat,
    CreateDiskFixed.create_fat total_sectors CreateDiskFixed.fat_size file_size = Ok fat ∧
    len fat = CreateDiskFixed.fat_size * CreateDiskFixed.BYTES_PER_SECTOR ∧
    fat_entry_at fat 0 = 0x0FFFFFF8 ∧
    (∀ c, 1 ≤ c < 6 → fat_entry_at fat c = 0x0FFFFFFF) ∧
    (∀ c, 6 + chained_clusters file_size ≤ c < 20480 → fat_entry_at fat c = 0).
Proof.
  intros Hfit.
  destruct (create_fat_entries total_sectors file_size Hfit)
    as (fat & Hfat & Hlen & H0 & Hres & Hzero & _).
  exists fat. split_and!; assumption.
Qed.

Lemma create_fat_total_witness :
  ∃ fat,
    CreateDiskFixed.create_fat 65536 CreateDiskFixed.fat_size 5000 = Ok fat ∧
    len fat = CreateDiskFixed.fat_size * CreateDiskFixed.BYTES_PER_SECTOR ∧
    fat_entry_at fat 0 = 0x0FFFFFF8 ∧
    (∀ c, 1 ≤ c < 6 → fat_entry_at fat c = 0x0FFFFFFF) ∧
    (∀ c, 6 + chained_clusters 5000 ≤ c < 20480 → fat_entry_at fat c = 0).
Proof.
  apply (create_fat_total 65536 5000).
  vm_compute. discriminate.
Defined.

Lemma create_fat_too_long total_sectors file_size :
  20480 < 6 + chained_clusters file_size →
  CreateDiskFixed.create_fat total_sectors CreateDiskFixed.fat_size file_size
  = Raise StructError.
Proof.
  intros Hover.
  destruct (create_fat_unfold total_sectors file_size)
    as (head & Hlen & _ & _ & ->).
  assert (0 < file_size) as Hpos.
  { unfold chained_clusters in Hover. destruct (Z.ltb_spec 0 file_size); lia. }
  destruct (Z.ltb_spec 0 file_size); [|lia].
  remember (chained_clusters file_size) as n eqn:Hn.
  rewrite (range_split 0 20475 n) by lia.
  change 20475 with (20474 + 1). rewrite range_snoc by lia.
  rewrite for_each_app, for_each_snoc.
  destruct (fat_link_loop_ok n (Z.to_nat 20474) head) as (fat1 & Hloop & Hl1).
  - rewrite Z2Nat.id by lia. lia.
  - rewrite Z2Nat.id by lia. change (2 ^ 32) with 4294967296. lia.
  - rewrite Z2Nat.id in Hloop by lia. rewrite Hloop, bind_Ok.
    rewrite fat_link_overflow by lia. rewrite bind_Raise. reflexivity.
Qed.

(** X15 ([create_fat] overflows).  For an ELF file whose chain would need
    entries beyond the 20480 of the table, [create_fat] raises
    [struct.error]. *)
Theorem create_fat_overflow total_sectors file_size :
  20480 < 6 + chained_clusters file_size →
  CreateDiskFixed.create_fat total_sectors CreateDiskFixed.fat_size file_size
  = Raise StructError.
Proof. intros Hover. by apply create_fat_too_long. Qed.

Lemma create_fat_overflow_witness :
  CreateDiskFixed.create_fat 65536 CreateDiskFixed.fat_size demo_elf_size
  = Raise StructError.
Proof.
  apply (create_fat_overflow 65536 demo_elf_size).
  vm_compute. reflexivity.
Defined.

(** ** The image [create_disk_fixed.py] writes *)

Lemma concat_replicate_bytearray (k : nat) c :
  0 ≤ c → concat (replicate k (bytearray c)) = bytearray (Z.of_nat k * c).
Proof.
  intros Hc. induction k as [|k IH].
  - cbn [replicate concat]. by rewrite bytearray_nonpos by lia.
  - cbn [replicate concat]. rewrite IH.
    replace (Z.of_nat (S k) * c) with (c + Z.of_nat k * c) by lia.
    symmetry. apply bytearray_add; lia.
Qed.

(** The tail of [main], lines 316-330: the zeros that fill the disk. *)
Lemma fill_remaining f total :
  (let remaining := total - len f in
   if 0 <? remaining then
     let chunk_size := 1024 * 1024 in
     let chunks := remaining / chunk_size in
     let last_chunk := remaining mod chunk_size in
     let f := f ++ concat (replicate (Z.to_nat chunks) (bytearray chunk_size)) in
     if 0 <? last_chunk then Ok (f ++ bytearray last_chunk) else Ok f
   else Ok f)
  = Ok (f ++ bytearray (total - len f)).
Proof.
  cbv zeta. change (1024 * 1024) with 1048576.
  remember (total - len f) as r eqn:Hr.
  destruct (Z.ltb_spec 0 r) as [Hpos|Hneg].
  - pose proof (Z.div_mod r 1048576 ltac:(lia)) as Hdm.
    pose proof (Z.mod_pos_bound r 1048576 ltac:(lia)) as Hm.
    assert (0 ≤ r `div` 1048576) as Hq by (apply Z.div_pos; lia).
    rewrite concat_replicate_bytearray by lia. rewrite Z2Nat.id by done.
    destruct (Z.ltb_spec 0 (r `mod` 1048576)).
    + rewrite <- app_assoc. rewrite <- bytearray_add by lia.
      do 3 f_equal. lia.
    + do 3 f_equal. lia.
  - by rewrite bytearray_nonpos, app_nil_r by lia.
Qed.

(** [main] as the sequence of the parts it writes. *)
Lemma fixed_build_eq mb fs elf_file :
  CreateDiskFixed.build mb fs elf_file
  = (elf_data ← CreateDiskFixed.load_elf fs elf_file;
     boot ← CreateDiskFixed.create_boot_sector mb;
     fsinfo ← CreateDiskFixed.create_fsinfo;
     fat ← CreateDiskFixed.create_fat (mb * 1024 * 1024 / CreateDiskFixed.BYTES_PER_SECTOR)
             CreateDiskFixed.fat_size (elf_size_of elf_data);
     root ← CreateDiskFixed.create_root_directory;
     init ← CreateDiskFixed.create_init_directory (elf_size_of elf_data);
     bin ← CreateDiskFixed.create_empty_directory 4;
     run ← CreateDiskFixed.create_empty_directory 5;
     Ok (fixed_layout mb elf_data boot fsinfo fat root init bin run)).
Proof.
  unfold CreateDiskFixed.build. cbv zeta.
  destruct (CreateDiskFixed.load_elf fs elf_file) as [elf_data|];
    [rewrite !bind_Ok|by rewrite !bind_Raise].
  destruct (CreateDiskFixed.create_boot_sector mb) as [boot|] eqn:Hboot;
    [rewrite !bind_Ok|by rewrite !bind_Raise].
  destruct CreateDiskFixed.create_fsinfo as [fsinfo|] eqn:Hfs;
    [rewrite !bind_Ok|by rewrite !bind_Raise].
  change (for_each (range 2 CreateDiskFixed.RESERVED_SECTORS) _ (boot ++ fsinfo))
    with (for_each (range 2 CreateDiskFixed.RESERVED_SECTORS) (reserved_sector (Ok boot))
            (boot ++ fsinfo)).
  rewrite reserved_sectors_loop. rewrite bind_Ok.
  change (match elf_data with Some d => len d | None => 0 end)
    with (elf_size_of elf_data).
  destruct (CreateDiskFixed.create_fat _ _ _) as [fat|];
    [rewrite !bind_Ok|by rewrite !bind_Raise].
  change (range 0 CreateDiskFixed.NUM_FATS) with [0; 1].
  cbn [for_each]. rewrite !bind_Ok.
  destruct CreateDiskFixed.create_root_directory as [root|];
    [rewrite !bind_Ok|by rewrite !bind_Raise].
  destruct (CreateDiskFixed.create_init_directory _) as [init|];
    [rewrite !bind_Ok|by rewrite !bind_Raise].
  destruct (CreateDiskFixed.create_empty_directory 4) as [bin|];
    [rewrite !bind_Ok|by rewrite !bind_Raise].
  destruct (CreateDiskFixed.create_empty_directory 5) as [run|];
    [rewrite !bind_Ok|by rewrite !bind_Raise].
  match goal with
  | |- context [if 0 <? ?t - len ?g then _ else _] =>
      assert (g = fixed_body elf_data boot fsinfo fat root init bin run) as ->
  end.
  { unfold fixed_body, elf_clusters.
    destruct elf_data as [[|x elf]|]; rewrite <- ?app_assoc; rewrite ?app_nil_r;
      reflexivity. }
  apply fill_remaining.
Qed.

Lemma fixed_boot_sector_bpb mb :
  0 ≤ mb < 2 ^ 21 →
  ∃ boot, CreateDiskFixed.create_boot_sector mb = Ok boot ∧ len boot = 512 ∧
          read_bpb boot
          = mk_bpb 512 8 32 2 (mb * 1024 * 1024 / CreateDiskFixed.BYTES_PER_SECTOR)
                   160 2 1 6 ∧
          slice boot 510 512 = [0x55; 0xAA].
Proof.
  intros Hmb.
  remember (mb * 1024 * 1024 / CreateDiskFixed.BYTES_PER_SECTOR) as t eqn:Ht.
  assert (0 ≤ t < 2 ^ 32) as Hrange.
  { subst t. change CreateDiskFixed.BYTES_PER_SECTOR with 512.
    change (2 ^ 21) with 2097152 in Hmb. change (2 ^ 32) with 4294967296.
    replace (mb * 1024 * 1024) with (mb * 2048 * 512) by lia.
    rewrite Z.div_mul by lia. lia. }
  assert (pack 4 t = Ok (le_bytes 4 t)) as Hp by (by apply pack_Ok).
  pose proof (length_le_bytes 4 t) as Hlen.
  pose proof (le_value_le_bytes 4 t Hrange) as Hval.
  unfold CreateDiskFixed.create_boot_sector, pack_into. cbv zeta.
  rewrite <- Ht, Hp. clear Ht.
  destruct (le_bytes 4 t) as [|x0 [|x1 [|x2 [|x3 [|? ?]]]]]; try discriminate Hlen.
  clear Hp Hlen.
  eexists. split; [vm_compute; reflexivity|].
  split; [vm_compute; reflexivity|]. split; [|vm_compute; reflexivity].
  rewrite <- Hval. vm_compute. reflexivity.
Qed.

Lemma len_le_bytes n v : len (le_bytes n v) = Z.of_nat n.
Proof. unfold len. by rewrite length_le_bytes. Qed.

Lemma fixed_parts_ok :
  CreateDiskFixed.create_fsinfo = Ok fixed_fsinfo ∧ len fixed_fsinfo = 512 ∧
  CreateDiskFixed.create_root_directory = Ok fixed_root ∧ len fixed_root = 4096 ∧
  CreateDiskFixed.create_empty_directory 4 = Ok fixed_bin ∧ len fixed_bin = 4096 ∧
  CreateDiskFixed.create_empty_directory 5 = Ok fixed_run ∧ len fixed_run = 4096 ∧
  CreateDiskFixed.create_init_directory 0 = Ok fixed_init_empty ∧
  len fixed_init_empty = 4096.
Proof.
  split_and!; first [apply unwrap_bytes_Ok|idtac]; vm_compute; reflexivity.
Qed.

(** The /init directory: the cluster without a file, with the SHELL entry
    in its third slot when an ELF file was given. *)
Lemma create_init_directory_Ok elf_size init :
  CreateDiskFixed.create_init_directory elf_size = Ok init →
  len init = 4096 ∧ slice init 0 64 = slice fixed_init_empty 0 64 ∧
  slice init 96 4096 = bytearray 4000 ∧
  if 0 <? elf_size
  then CreateDiskFixed.create_directory_entry (str "SHELL      ")
         CreateDiskFixed.FILE_ATTR 6 elf_size = Ok (slice init 64 96)
  else init = fixed_init_empty.
Proof.
  destruct fixed_parts_ok as (_ & _ & _ & _ & _ & _ & _ & _ & Hempty & Hlen).
  revert Hempty. unfold CreateDiskFixed.create_init_directory.
  destruct (CreateDiskFixed.create_directory_entry (str ".          ") _ 3 0)
    as [e1|]; [rewrite !bind_Ok|by rewrite !bind_Raise].
  destruct (CreateDiskFixed.create_directory_entry (str "..         ") _ 2 0)
    as [e2|]; [rewrite !bind_Ok|by rewrite !bind_Raise].
  change (0 <? 0) with false. cbv iota. intros [= Hempty].
  rewrite Hempty.
  assert (slice fixed_init_empty 64 4096 = bytearray 4032) as Hzero
    by (vm_compute; reflexivity).
  destruct (0 <? elf_size) eqn:Hpos.
  - destruct (CreateDiskFixed.create_directory_entry (str "SHELL      ") _ 6 elf_size)
      as [e|err] eqn:He; [rewrite bind_Ok|by rewrite bind_Raise].
    intros [= <-].
    assert (len e = 32) as Hle.
    { destruct (decide (0 ≤ elf_size < 2 ^ 32)) as [Hr|Hr].
      - rewrite create_directory_entry_bytes in He by (done || by vm_compute).
        injection He as <-. rewrite !len_app, len_slice_ljust.
        reflexivity.
      - rewrite create_directory_entry_overflow in He by (done || by vm_compute).
        done. }
    split; [apply len_slice_set_same; [done|lia|lia|lia]|].
    split; [apply slice_slice_set_below; lia|].
    split; [|f_equal; symmetry; apply slice_slice_set_same; lia].
    rewrite slice_slice_set_above by lia.
    change 96 with (64 + 32) at 1. change 4096 with (64 + 4032).
    rewrite <- (slice_slice _ 64 (64 + 4032)) by lia.
    change (64 + 4032) with 4096. rewrite Hzero. apply slice_bytearray; lia.
  - intros [= <-]. split; [done|]. split; [done|]. split; [|done].
    change 96 with (64 + 32). change 4096 with (64 + 4032) at 1.
    rewrite <- (slice_slice _ 64 (64 + 4032)) by lia.
    change (64 + 4032) with 4096. rewrite Hzero. apply slice_bytearray; lia.
Qed.

Lemma create_init_directory_ok elf_size :
  elf_size < 2 ^ 32 → ∃ init, CreateDiskFixed.create_init_directory elf_size = Ok init.
Proof.
  intros Hsize.
  destruct fixed_parts_ok as (_ & _ & _ & _ & _ & _ & _ & _ & Hempty & Hlen).
  revert Hempty. unfold CreateDiskFixed.create_init_directory.
  destruct (CreateDiskFixed.create_directory_entry (str ".          ") _ 3 0)
    as [e1|]; [rewrite !bind_Ok|by rewrite !bind_Raise].
  destruct (CreateDiskFixed.create_directory_entry (str "..         ") _ 2 0)
    as [e2|]; [rewrite !bind_Ok|by rewrite !bind_Raise].
  intros _. destruct (Z.ltb_spec 0 elf_size); [|by eexists].
  rewrite create_directory_entry_bytes by (lia || by vm_compute).
  rewrite bind_Ok. by eexists.
Qed.

Lemma len_bytearray_max n : len (bytearray n) = Z.max 0 n.
Proof.
  destruct (decide (0 ≤ n)).
  - rewrite len_bytearray by done. lia.
  - rewrite bytearray_nonpos by lia. change (len []) with 0. lia.
Qed.

Lemma slice_app_here {A} (x rest : list A) s e :
  s = 0 → e = len x → slice (x ++ rest) s e = x.
Proof. intros -> ->. rewrite slice_app_l by lia. apply slice_all. Qed.

Lemma chained_clusters_bounds file_size :
  0 < file_size →
  (chained_clusters file_size - 1) * 4096 < file_size ≤ chained_clusters file_size * 4096.
Proof.
  intros Hpos. unfold chained_clusters. destruct (Z.ltb_spec 0 file_size); [|lia].
  change CreateDiskFixed.BYTES_PER_CLUSTER with 4096.
  pose proof (clusters_needed_bounds file_size) as Hb.
  unfold clusters_needed in Hb. rewrite bytes_per_cluster_eq in Hb. lia.
Qed.

Lemma len_elf_clusters elf_data :
  len (elf_clusters elf_data) = chained_clusters (elf_size_of elf_data) * 4096.
Proof.
  destruct elf_data as [[|x d]|]; [done| |done].
  unfold elf_clusters, elf_size_of.
  assert (0 < len (x :: d)) as Hpos by (unfold len; cbn [length]; lia).
  pose proof (chained_clusters_bounds _ Hpos) as Hb.
  unfold chained_clusters in *. destruct (Z.ltb_spec 0 (len (x :: d))); [|lia].
  change CreateDiskFixed.BYTES_PER_CLUSTER with 4096 in *.
  rewrite len_app, len_bytearray by lia. lia.
Qed.

(** A successful run wrote these parts. *)
Lemma fixed_build_Ok mb fs elf_file image :
  CreateDiskFixed.build mb fs elf_file = Ok image →
  ∃ elf_data boot fat init,
    CreateDiskFixed.load_elf fs elf_file = Ok elf_data ∧
    CreateDiskFixed.create_boot_sector mb = Ok boot ∧
    CreateDiskFixed.create_fat (mb * 1024 * 1024 / CreateDiskFixed.BYTES_PER_SECTOR)
      CreateDiskFixed.fat_size (elf_size_of elf_data) = Ok fat ∧
    CreateDiskFixed.create_init_directory (elf_size_of elf_data) = Ok init ∧
    image = fixed_layout mb elf_data boot fixed_fsinfo fat fixed_root init
              fixed_bin fixed_run.
Proof.
  rewrite fixed_build_eq.
  destruct fixed_parts_ok as (Hfs & _ & Hroot & _ & Hbin & _ & Hrun & _).
  rewrite Hfs, Hroot, Hbin, Hrun.
  destruct (CreateDiskFixed.load_elf fs elf_file) as [elf_data|];
    [rewrite !bind_Ok|by rewrite !bind_Raise].
  destruct (CreateDiskFixed.create_boot_sector mb) as [boot|] eqn:Hboot;
    [rewrite !bind_Ok|by rewrite !bind_Raise].
  destruct (CreateDiskFixed.create_fat _ _ _) as [fat|] eqn:Hfat;
    [rewrite !bind_Ok|by rewrite !bind_Raise].
  destruct (CreateDiskFixed.create_init_directory _) as [init|] eqn:Hinit;
    [rewrite !bind_Ok|by rewrite !bind_Raise].
  intros [= <-]. exists elf_data, boot, fat, init.
  split; [reflexivity|]. split; [reflexivity|]. split; [exact Hfat|].
  split; [exact Hinit|reflexivity].
Qed.

(** Where the parts lie in the image. *)
Lemma fixed_layout_parts mb elf_data boot fsinfo fat root init bin run :
  len boot = 512 → len fsinfo = 512 → len fat = 81920 →
  len root = 4096 → len init = 4096 → len bin = 4096 → len run = 4096 →
  let image := fixed_layout mb elf_data boot fsinfo fat root init bin run in
  let n := chained_clusters (elf_size_of elf_data) in
  len image = Z.max (mb * 1024 * 1024 / 512 * 512) (196608 + n * 4096) ∧
  slice image 0 512 = boot ∧ slice image 3072 3584 = boot ∧
  slice image 16384 98304 = fat ∧ slice image 98304 180224 = fat ∧
  slice image 180224 184320 = root ∧ slice image 184320 188416 = init ∧
  slice image 188416 192512 = bin ∧ slice image 192512 196608 = run ∧
  slice image 196608 (196608 + n * 4096) = elf_clusters elf_data.
Proof.
  intros Hboot Hfsinfo Hfat Hroot Hinit Hbin Hrun. cbv zeta.
  unfold fixed_layout, fixed_body. cbv zeta.
  change CreateDiskFixed.BYTES_PER_SECTOR with 512.
  pose proof (len_bytearray 2048 ltac:(lia)) as Hz1.
  pose proof (len_bytearray 12800 ltac:(lia)) as Hz2.
  pose proof (len_elf_clusters elf_data) as Helf.
  pose proof (chained_clusters_nonneg (elf_size_of elf_data)) as Hn.
  remember (chained_clusters (elf_size_of elf_data)) as n eqn:Hn'. clear Hn'.
  remember (elf_clusters elf_data) as elf eqn:Helf'.
  remember (bytearray 2048) as z1 eqn:Hz1'. remember (bytearray 12800) as z2 eqn:Hz2'.
  assert (len (boot ++ fsinfo ++ z1 ++ boot ++ z2 ++ fat ++ fat ++ root ++ init
               ++ bin ++ run ++ elf) = 196608 + n * 4096) as Hbody
    by (rewrite !len_app; lia).
  rewrite Hbody. rewrite <- !app_assoc.
  remember (bytearray (_ - (196608 + n * 4096))) as fill eqn:Hfill.
  split.
  { rewrite !len_app. rewrite Hfill, len_bytearray_max. lia. }
  split_and!;
    repeat (rewrite slice_app_r by lia);
    apply slice_app_here; lia.
Qed.

Lemma create_fat_Ok total_sectors file_size fat :
  CreateDiskFixed.create_fat total_sectors CreateDiskFixed.fat_size file_size = Ok fat →
  6 + chained_clusters file_size ≤ 20480 ∧ len fat = 81920 ∧
  ∀ i, 0 ≤ i < chained_clusters file_size →
    fat_entry_at fat (6 + i)
    = if i =? chained_clusters file_size - 1 then 0x0FFFFFFF else 6 + i + 1.
Proof.
  intros Hfat.
  destruct (decide (6 + chained_clusters file_size ≤ 20480)) as [Hfit|Hover].
  - destruct (create_fat_entries total_sectors file_size Hfit)
      as (fat' & Hfat' & Hlen & _ & _ & _ & Hchain).
    rewrite Hfat in Hfat'. injection Hfat' as <-.
    split; [exact Hfit|]. split; [exact Hlen|exact Hchain].
  - rewrite create_fat_too_long in Hfat by lia. discriminate Hfat.
Qed.

Lemma fixed_chain fat n :
  1 ≤ n → 6 + n ≤ 20480 → len fat = 81920 →
  (∀ i, 0 ≤ i < n → fat_entry_at fat (6 + i) = if i =? n - 1 then 0x0FFFFFFF else 6 + i + 1) →
  follow_chain (Z.to_nat 20480) (serialized_entry fat) 6 = Some (seqZ 6 n).
Proof.
  intros Hn Hfit Hlen Hent.
  assert (∀ i, 0 ≤ i < n → serialized_entry fat (6 + i) = Some (fat_entry_at fat (6 + i)))
    as Hser.
  { intros i Hi. unfold serialized_entry.
    destruct (Z.leb_spec 0 (6 + i)); [|lia].
    destruct (Z.leb_spec (4 * (6 + i) + 4) (len fat)); [done|lia]. }
  rewrite (follow_chain_linked (Z.to_nat (n - 1)) _ _ 6 0x0FFFFFFF).
  - do 2 f_equal. lia.
  - lia.
  - intros i Hi. rewrite Hser, Hent by lia.
    destruct (Z.eqb_spec i (n - 1)); [lia|done].
  - unfold EOC_MIN. lia.
  - rewrite Hser, Hent by lia.
    destruct (Z.eqb_spec (Z.of_nat (Z.to_nat (n - 1))) (n - 1)); [done|lia].
  - unfold EOC_MIN. lia.
Qed.

Lemma slice_empty {A} (l : list A) a : slice l a a = [].
Proof.
  apply list_eq. intros i. rewrite lookup_slice.
  rewrite decide_False by lia. done.
Qed.

Lemma concat_adjacent_slices {A} (l : list A) a (k : nat) :
  0 ≤ a →
  concat ((λ i, slice l (a + 4096 * i) (a + 4096 * i + 4096)) <$> seqZ 0 (Z.of_nat k))
  = slice l a (a + 4096 * Z.of_nat k).
Proof.
  intros Ha. induction k as [|k IH].
  - cbn. rewrite Z.add_0_r. by rewrite slice_empty.
  - rewrite seqZ_S, fmap_app, concat_app, IH.
    cbn [fmap list_fmap concat]. rewrite app_nil_r.
    rewrite slice_app_adjacent by lia. f_equal. lia.
Qed.

Lemma fixed_cluster_offset_eq c : fixed_cluster_offset c = 4096 * c + 172032.
Proof.
  unfold fixed_cluster_offset.
  change CreateDiskFixed.RESERVED_SECTORS with 32.
  change CreateDiskFixed.NUM_FATS with 2. change CreateDiskFixed.fat_size with 160.
  change CreateDiskFixed.SECTORS_PER_CLUSTER with 8.
  change CreateDiskFixed.BYTES_PER_SECTOR with 512. lia.
Qed.

Lemma concat_fixed_clusters image n :
  0 ≤ n →
  concat (fixed_read_cluster image <$> seqZ 6 n)
  = slice image 196608 (196608 + n * 4096).
Proof.
  intros Hn.
  replace (seqZ 6 n) with (Z.add 6 <$> seqZ 0 (Z.of_nat (Z.to_nat n))).
  2:{ rewrite fmap_add_seqZ. f_equal; lia. }
  rewrite <- list_fmap_compose.
  rewrite <- (Z2Nat.id n) at 2 by done.
  replace (Z.of_nat (Z.to_nat n) * 4096) with (4096 * Z.of_nat (Z.to_nat n)) by lia.
  rewrite <- concat_adjacent_slices by lia.
  f_equal. apply list_fmap_ext. intros k i _. cbn.
  unfold fixed_read_cluster. rewrite fixed_cluster_offset_eq.
  change CreateDiskFixed.BYTES_PER_CLUSTER with 4096. f_equal; lia.
Qed.

(** What holds of every image a run wrote. *)
Lemma fixed_image_parts mb fs elf_file image :
  CreateDiskFixed.build mb fs elf_file = Ok image →
  ∃ elf_data boot fat init,
    CreateDiskFixed.load_elf fs elf_file = Ok elf_data ∧
    CreateDiskFixed.create_boot_sector mb = Ok boot ∧
    CreateDiskFixed.create_fat (mb * 1024 * 1024 / CreateDiskFixed.BYTES_PER_SECTOR)
      CreateDiskFixed.fat_size (elf_size_of elf_data) = Ok fat ∧
    CreateDiskFixed.create_init_directory (elf_size_of elf_data) = Ok init ∧
    let n := chained_clusters (elf_size_of elf_data) in
    len image = Z.max (mb * 1024 * 1024 / 512 * 512) (196608 + n * 4096) ∧
    slice image 0 512 = boot ∧ slice image 3072 3584 = boot ∧
    fixed_fat_copy image 0 = fat ∧ fixed_fat_copy image 1 = fat ∧
    fixed_read_cluster image 2 = fixed_root ∧ fixed_read_cluster image 3 = init ∧
    fixed_read_cluster image 4 = fixed_bin ∧ fixed_read_cluster image 5 = fixed_run ∧
    slice image 196608 (196608 + n * 4096) = elf_clusters elf_data.
Proof.
  intros (elf_data & boot & fat & init & Hload & Hboot & Hfat & Hinit & ->)%fixed_build_Ok.
  exists elf_data, boot, fat, init.
  split; [exact Hload|]. split; [exact Hboot|]. split; [exact Hfat|].
  split; [exact Hinit|].
  destruct fixed_parts_ok as (_ & Hlf & _ & Hlr & _ & Hlb & _ & Hlrun & _).
  pose proof (fixed_boot_sector_len _ _ Hboot) as Hlboot.
  apply create_fat_Ok in Hfat as (_ & Hlfat & _).
  apply create_init_directory_Ok in Hinit as (Hlinit & _).
  pose proof (fixed_layout_parts mb elf_data boot fixed_fsinfo fat fixed_root init
                fixed_bin fixed_run Hlboot Hlf Hlfat Hlr Hlinit Hlb Hlrun) as Hparts.
  cbv zeta in Hparts. cbv zeta.
  remember (fixed_layout mb elf_data boot fixed_fsinfo fat fixed_root init
              fixed_bin fixed_run) as image eqn:Himage.
  clear Himage.
  destruct Hparts as (Hlen & Hs0 & Hs6 & Hf0 & Hf1 & Hc2 & Hc3 & Hc4 & Hc5 & Helf).
  unfold fixed_fat_copy, fixed_read_cluster. cbv zeta.
  rewrite !fixed_cluster_offset_eq.
  change CreateDiskFixed.BYTES_PER_CLUSTER with 4096.
  change ((CreateDiskFixed.RESERVED_SECTORS + 0 * CreateDiskFixed.fat_size)
          * CreateDiskFixed.BYTES_PER_SECTOR) with 16384.
  change ((CreateDiskFixed.RESERVED_SECTORS + 1 * CreateDiskFixed.fat_size)
          * CreateDiskFixed.BYTES_PER_SECTOR) with 98304.
  change (CreateDiskFixed.fat_size * CreateDiskFixed.BYTES_PER_SECTOR) with 81920.
  change (16384 + 81920) with 98304. change (98304 + 81920) with 180224.
  change (4096 * 2 + 172032) with 180224. change (4096 * 3 + 172032) with 184320.
  change (4096 * 4 + 172032) with 188416. change (4096 * 5 + 172032) with 192512.
  change (180224 + 4096) with 184320. change (184320 + 4096) with 188416.
  change (188416 + 4096) with 192512. change (192512 + 4096) with 196608.
  split; [exact Hlen|]. split; [exact Hs0|]. split; [exact Hs6|].
  split; [exact Hf0|]. split; [exact Hf1|]. split; [exact Hc2|].
  split; [exact Hc3|]. split; [exact Hc4|]. split; [exact Hc5|exact Helf].
Qed.

Lemma chained_clusters_size file_size :
  6 + chained_clusters file_size ≤ 20480 → file_size < 2 ^ 32.
Proof.
  intros Hfit. destruct (decide (0 < file_size)) as [Hpos|]; [|lia].
  pose proof (chained_clusters_bounds file_size Hpos). lia.
Qed.

Lemma len_nonempty {A} (l : list A) : l ≠ [] → 0 < len l.
Proof. destruct l as [|x d]; [congruence|]. intros _. unfold len. cbn [length]. lia. Qed.

Lemma elf_clusters_nonempty elf :
  elf ≠ [] →
  elf_clusters (Some elf) = elf ++ bytearray (chained_clusters (len elf) * 4096 - len elf).
Proof.
  intros Hne. pose proof (len_nonempty elf Hne) as Hpos.
  destruct elf as [|x d]; [congruence|]. unfold elf_clusters.
  unfold chained_clusters. destruct (Z.ltb_spec 0 (len (x :: d))); [|lia].
  reflexivity.
Qed.

(** X16 (the image of [create_disk_fixed.py]).  For a disk of less than
    2^21 megabytes and an ELF file, if any, whose chain fits the FAT,
    [main] succeeds.  The image is as long as the nominal size, or longer
    when the ELF clusters end beyond it; its boot sector declares the
    geometry the layout uses (512-byte sectors, 8 per cluster, 32 reserved,
    2 FATs of 160 sectors, root at cluster 2, FSInfo at 1, backup at 6)
    and ends with 55 AA; the two FAT copies are equal, with the reserved
    entries and the free tail of [create_fat]; clusters 2 to 5 hold the
    root, /init, /bin and /run directories. *)
Theorem fixed_build_total mb fs elf_file elf_data :
  0 ≤ mb < 2 ^ 21 →
  CreateDiskFixed.load_elf fs elf_file = Ok elf_data →
  6 + chained_clusters (elf_size_of elf_data) ≤ 20480 →
  let n := chained_clusters (elf_size_of elf_data) in
  ∃ image,
    CreateDiskFixed.build mb fs elf_file = Ok image ∧
    len image = Z.max (mb * 1024 * 1024 / 512 * 512) (196608 + n * 4096) ∧
    read_bpb (slice image 0 512)
    = mk_bpb 512 8 32 2 (mb * 1024 * 1024 / CreateDiskFixed.BYTES_PER_SECTOR) 160 2 1 6 ∧
    slice (slice image 0 512) 510 512 = [0x55; 0xAA] ∧
    fixed_fat_copy image 1 = fixed_fat_copy image 0 ∧
    fat_entry_at (fixed_fat_copy image 0) 0 = 0x0FFFFFF8 ∧
    (∀ c, 1 ≤ c < 6 → fat_entry_at (fixed_fat_copy image 0) c = 0x0FFFFFFF) ∧
    (∀ c, 6 + n ≤ c < 20480 → fat_entry_at (fixed_fat_copy image 0) c = 0) ∧
    CreateDiskFixed.create_root_directory = Ok (fixed_read_cluster image 2) ∧
    CreateDiskFixed.create_init_directory (elf_size_of elf_data)
    = Ok (fixed_read_cluster image 3) ∧
    CreateDiskFixed.create_empty_directory 4 = Ok (fixed_read_cluster image 4) ∧
    CreateDiskFixed.create_empty_directory 5 = Ok (fixed_read_cluster image 5).
Proof.
  intros Hmb Hload Hfit. cbv zeta.
  destruct (fixed_boot_sector_bpb mb Hmb) as (boot & Hboot & Hlboot & Hbpb & Hsig).
  destruct (create_fat_entries (mb * 1024 * 1024 / CreateDiskFixed.BYTES_PER_SECTOR)
              (elf_size_of elf_data) Hfit)
    as (fat & Hfat & Hlfat & Hf0 & Hres & Hzero & _).
  destruct (create_init_directory_ok (elf_size_of elf_data)
              (chained_clusters_size _ Hfit)) as (init & Hinit).
  destruct fixed_parts_ok as (Hfs & _ & Hroot & _ & Hbin & _ & Hrun & _).
  assert (CreateDiskFixed.build mb fs elf_file
          = Ok (fixed_layout mb elf_data boot fixed_fsinfo fat fixed_root init
                  fixed_bin fixed_run)) as Hbuild.
  { rewrite fixed_build_eq, Hload, bind_Ok, Hboot, bind_Ok, Hfs, bind_Ok.
    rewrite Hfat, bind_Ok, Hroot, bind_Ok, Hinit, bind_Ok, Hbin, bind_Ok.
    rewrite Hrun, bind_Ok. reflexivity. }
  remember (fixed_layout mb elf_data boot fixed_fsinfo fat fixed_root init
              fixed_bin fixed_run) as image eqn:Himage.
  clear Himage. exists image. split; [exact Hbuild|].
  destruct (fixed_image_parts mb fs elf_file image Hbuild)
    as (elf_data' & boot' & fat' & init' & Hload' & Hboot' & Hfat' & Hinit' & Hparts).
  rewrite Hload in Hload'. injection Hload' as <-.
  rewrite Hboot in Hboot'. injection Hboot' as <-.
  rewrite Hfat in Hfat'. injection Hfat' as <-.
  rewrite Hinit in Hinit'. injection Hinit' as <-.
  cbv zeta in Hparts.
  destruct Hparts as (Hlen & Hs0 & _ & Hc0 & Hc1 & Hr2 & Hr3 & Hr4 & Hr5 & _).
  rewrite Hs0, Hc0, Hc1, Hr2, Hr3, Hr4, Hr5.
  split; [exact Hlen|]. split; [exact Hbpb|]. split; [exact Hsig|].
  split; [reflexivity|]. split; [exact Hf0|]. split; [exact Hres|].
  split; [exact Hzero|]. split; [exact Hroot|]. split; [exact Hinit|].
  split; [exact Hbin|exact Hrun].
Qed.

Lemma fixed_build_total_witness :
  let n := chained_clusters (elf_size_of (Some demo_payload)) in
  ∃ image,
    CreateDiskFixed.build 1 demo_elf_fs (Some "user/shell.elf"%string) = Ok image ∧
    len image = Z.max (1 * 1024 * 1024 / 512 * 512) (196608 + n * 4096) ∧
    read_bpb (slice image 0 512)
    = mk_bpb 512 8 32 2 (1 * 1024 * 1024 / CreateDiskFixed.BYTES_PER_SECTOR) 160 2 1 6 ∧
    slice (slice image 0 512) 510 512 = [0x55; 0xAA] ∧
    fixed_fat_copy image 1 = fixed_fat_copy image 0 ∧
    fat_entry_at (fixed_fat_copy image 0) 0 = 0x0FFFFFF8 ∧
    (∀ c, 1 ≤ c < 6 → fat_entry_at (fixed_fat_copy image 0) c = 0x0FFFFFFF) ∧
    (∀ c, 6 + n ≤ c < 20480 → fat_entry_at (fixed_fat_copy image 0) c = 0) ∧
    CreateDiskFixed.create_root_directory = Ok (fixed_read_cluster image 2) ∧
    CreateDiskFixed.create_init_directory (elf_size_of (Some demo_payload))
    = Ok (fixed_read_cluster image 3) ∧
    CreateDiskFixed.create_empty_directory 4 = Ok (fixed_read_cluster image 4) ∧
    CreateDiskFixed.create_empty_directory 5 = Ok (fixed_read_cluster image 5).
Proof.
  apply (fixed_build_total 1 demo_elf_fs (Some "user/shell.elf"%string)
           (Some demo_payload)).
  - change (2 ^ 21) with 2097152. lia.
  - vm_compute. reflexivity.
  - vm_compute. discriminate.
Defined.

(** X17 (the ELF file is readable from the image).  In every image
    [main] of [create_disk_fixed.py] writes for a non-empty ELF file, the
    chain from cluster 6 in either FAT copy is 6, 7, ..., 6 + n - 1 with
    [n] the clusters the file needs; the clusters of the chain hold the
    file followed by zeros up to the cluster boundary; and the third entry
    of /init names SHELL, a file, with first cluster 6 and the size of the
    ELF file. *)
Theorem fixed_elf_round_trip mb fs elf_file image elf :
  CreateDiskFixed.build mb fs elf_file = Ok image →
  CreateDiskFixed.load_elf fs elf_file = Ok (Some elf) →
  elf ≠ [] →
  let n := chained_clusters (len elf) in
  (n - 1) * 4096 < len elf ≤ n * 4096 ∧
  follow_chain (Z.to_nat 20480) (serialized_entry (fixed_fat_copy image 0)) 6
  = Some (seqZ 6 n) ∧
  follow_chain (Z.to_nat 20480) (serialized_entry (fixed_fat_copy image 1)) 6
  = Some (seqZ 6 n) ∧
  concat (fixed_read_cluster image <$> seqZ 6 n)
  = elf ++ bytearray (n * 4096 - len elf) ∧
  let e := slice (fixed_read_cluster image 3) 64 96 in
  slice e 0 11 = str "SHELL      " ∧ entry_attr e = Some CreateDiskFixed.FILE_ATTR ∧
  entry_first_cluster e = 6 ∧ entry_size e = len elf.
Proof.
  intros Hbuild Hload Hne. cbv zeta.
  destruct (fixed_image_parts mb fs elf_file image Hbuild)
    as (elf_data & boot & fat & init & Hload' & _ & Hfat & Hinit & Hparts).
  rewrite Hload in Hload'. injection Hload' as <-.
  cbv zeta in Hparts. change (elf_size_of (Some elf)) with (len elf) in *.
  destruct Hparts as (_ & _ & _ & Hc0 & Hc1 & _ & Hr3 & _ & _ & Helf).
  pose proof (len_nonempty elf Hne) as Hpos.
  pose proof (chained_clusters_bounds (len elf) Hpos) as Hb.
  apply create_fat_Ok in Hfat as (Hfit & Hlfat & Hent).
  split; [exact Hb|].
  rewrite Hc0, Hc1, Hr3.
  assert (follow_chain (Z.to_nat 20480) (serialized_entry fat) 6
          = Some (seqZ 6 (chained_clusters (len elf)))) as Hchain.
  { apply fixed_chain; [lia|exact Hfit|exact Hlfat|exact Hent]. }
  split; [exact Hchain|]. split; [exact Hchain|].
  split.
  { rewrite concat_fixed_clusters by lia. rewrite Helf.
    apply elf_clusters_nonempty. exact Hne. }
  apply create_init_directory_Ok in Hinit as (_ & _ & _ & Hshell).
  destruct (Z.ltb_spec 0 (len elf)); [|lia].
  pose proof (chained_clusters_size (len elf) Hfit) as Hsize.
  destruct (create_directory_entry_decoded (str "SHELL      ")
              CreateDiskFixed.FILE_ATTR 6 (len elf) eq_refl ltac:(lia))
    as (e & He & _ & Hname & Hattr & Hcl & Hsz & _).
  rewrite Hshell in He. injection He as <-.
  split; [exact Hname|]. split; [exact Hattr|]. split; [exact Hcl|exact Hsz].
Qed.

Lemma fixed_elf_round_trip_witness :
  let n := chained_clusters (len demo_payload) in
  (n - 1) * 4096 < len demo_payload ≤ n * 4096 ∧
  follow_chain (Z.to_nat 20480) (serialized_entry (fixed_fat_copy demo_elf_image 0)) 6
  = Some (seqZ 6 n) ∧
  follow_chain (Z.to_nat 20480) (serialized_entry (fixed_fat_copy demo_elf_image 1)) 6
  = Some (seqZ 6 n) ∧
  concat (fixed_read_cluster demo_elf_image <$> seqZ 6 n)
  = demo_payload ++ bytearray (n * 4096 - len demo_payload) ∧
  let e := slice (fixed_read_cluster demo_elf_image 3) 64 96 in
  slice e 0 11 = str "SHELL      " ∧ entry_attr e = Some CreateDiskFixed.FILE_ATTR ∧
  entry_first_cluster e = 6 ∧ entry_size e = len demo_payload.
Proof.
  apply (fixed_elf_round_trip 1 demo_elf_fs (Some "user/shell.elf"%string)
           demo_elf_image demo_payload).
  - apply unwrap_bytes_Ok. vm_compute. reflexivity.
  - vm_compute. reflexivity.
  - vm_compute. discriminate.
Defined.

(** X18 (ELF file too long).  When the chain of the ELF file does not
    fit the FAT of 20480 entries, [main] of [create_disk_fixed.py] ends
    with [struct.error] instead of an image. *)
Theorem fixed_build_overflow mb fs elf_file elf_data :
  0 ≤ mb < 2 ^ 21 →
  CreateDiskFixed.load_elf fs elf_file = Ok elf_data →
  20480 < 6 + chained_clusters (elf_size_of elf_data) →
  CreateDiskFixed.build mb fs elf_file = Raise StructError.
Proof.
  intros Hmb Hload Hover.
  destruct (fixed_boot_sector_bpb mb Hmb) as (boot & Hboot & _).
  destruct fixed_parts_ok as (Hfs & _).
  rewrite fixed_build_eq, Hload, bind_Ok, Hboot, bind_Ok, Hfs, bind_Ok.
  rewrite create_fat_too_long by exact Hover. reflexivity.
Qed.

Lemma fixed_build_overflow_witness :
  CreateDiskFixed.build 128 demo_long_fs (Some "user/shell.elf"%string)
  = Raise StructError.
Proof.
  apply (fixed_build_overflow 128 demo_long_fs (Some "user/shell.elf"%string)
           (Some demo_huge)).
  - change (2 ^ 21) with 2097152. lia.
  - reflexivity.
  - unfold elf_size_of, demo_huge. rewrite len_bytearray by lia.
    vm_compute. reflexivity.
Defined.

(** A file stored in a builder stays readable, through either FAT copy of
    the image, after later insertions and [write_fat_tables]. *)
Lemma stored_readable b1 b2 b3 fc file_data copy :
  builder_inv b1 → file_at b1 fc file_data →
  rtc add_step b1 b2 → write_fat_tables b2 = Ok b3 →
  copy = 0 ∨ copy = 1 →
  read_chain (disk_entry (disk_image b3) copy) (disk_image b3) fc
  = Some (file_data ++ bytearray (clusters_needed (len file_data) * bytes_per_cluster
                                  - len file_data)).
Proof.
  intros Hinv1 Hat Hsteps Hwrite Hcopy.
  pose proof (file_at_add_steps _ _ _ _ Hsteps Hinv1 Hat)
    as (Hpos & Hfc & Hle & [Hl1 Hl2] & Hread).
  pose proof (add_steps_inv _ _ Hsteps Hinv1) as Hinv2.
  pose proof Hinv2 as (Hfat & Hnfc & Himg).
  change ((sectors_per_fat * sector_size) `div` 4) with 32768 in Hfat.
  pose proof (write_fat_tables_image _ _ Hinv2 Hwrite) as (_ & _ & Hdata & Hentry).
  pose proof (clusters_needed_pos _ Hpos) as Hn1.
  apply read_chain_stored.
  - exact Hpos.
  - lia.
  - change ((sectors_per_fat * sector_size) `div` 4) with 32768. lia.
  - intros i Hi. rewrite Hentry by exact Hcopy.
    destruct (Z.leb_spec 0 (fc + i)); [|lia].
    destruct (Z.ltb_spec (fc + i) 32768); [|lia].
    apply Hl1. lia.
  - rewrite Hentry by exact Hcopy.
    destruct (Z.leb_spec 0 (fc + clusters_needed (len file_data) - 1)); [|lia].
    destruct (Z.ltb_spec (fc + clusters_needed (len file_data) - 1) 32768); [|lia].
    exact Hl2.
  - intros i Hi. rewrite <- Hread by exact Hi. unfold read_cluster.
    apply Hdata. rewrite !cluster_offset_eq. lia.
Qed.

(** What one insertion into a packed directory leaves of it and adds. *)
Lemma insertion_slots now filename file_data k b b' fn :
  builder_inv b → dir_packed k (root_dir b) → k < bytes_per_cluster / 32 →
  head filename ≠ Some 0 → fat_filename_of filename = Ok fn → 0 < len file_data →
  add_file_to_directory now filename file_data b = Ok b' →
  builder_inv b' ∧ dir_packed (k + 1) (root_dir b') ∧
  (∀ j, 0 ≤ j < k → dir_slot (root_dir b') (32 * j) = dir_slot (root_dir b) (32 * j)) ∧
  slice (dir_slot (root_dir b') (32 * k)) 0 11 = fn ∧
  entry_first_cluster (dir_slot (root_dir b') (32 * k)) = next_free_cluster b ∧
  entry_size (dir_slot (root_dir b') (32 * k)) = len file_data.
Proof.
  intros Hinv Hpacked Hk Hhead Hfn Hpos Hadd.
  pose proof (add_file_to_directory_inv _ _ _ _ _ Hinv Hadd) as Hinv'.
  destruct (add_file_to_directory_packed _ _ _ _ _ _ Hinv Hpacked Hk Hhead Hadd)
    as (Hpacked' & Hlow & fn' & Hfn' & Hname & Hfc & Hsz).
  rewrite Hfn in Hfn'. injection Hfn' as <-.
  split; [exact Hinv'|]. split; [exact Hpacked'|]. split.
  { intros j Hj. unfold dir_slot.
    pose proof (slice_slice (root_dir b') 0 (32 * k) (32 * j) (32 * j + 32)
                  ltac:(lia) ltac:(lia) ltac:(lia)) as Hs'.
    pose proof (slice_slice (root_dir b) 0 (32 * k) (32 * j) (32 * j + 32)
                  ltac:(lia) ltac:(lia) ltac:(lia)) as Hs.
    rewrite !Z.add_0_l in Hs', Hs. rewrite <- Hs', <- Hs, Hlow. reflexivity. }
  split; [exact Hname|]. split; [|exact Hsz].
  rewrite Hfc. unfold first_cluster_of. destruct (decide (0 < len file_data)); [reflexivity|lia].
Qed.

Lemma write_fat_tables_root b b' :
  builder_inv b → write_fat_tables b = Ok b' → root_dir b' = root_dir b.
Proof.
  intros Hinv Hwrite.
  pose proof (write_fat_tables_image _ _ Hinv Hwrite) as (_ & _ & Hdata & _).
  rewrite !root_dir_eq. apply Hdata. lia.
Qed.

(** X19 (contents of the image of [build_disk.py]).  For clock readings
    whose year is within 1980 to 2107: a build that finds a non-empty
    kernel, and none of the additional files, succeeds when the kernel
    leaves two FAT entries free.  In its image the kernel is read back
    from cluster 3, CONFIG.TXT from the cluster behind the kernel and
    README.TXT from the next, each followed by zeros up to the cluster
    boundary, through either FAT copy; slots 1 to 3 of the root directory
    name KERNEL.BIN, CONFIG.TXT and README.TXT with these first clusters
    and their sizes; the directory is zero behind them. *)
Theorem build_contents mb fs clock kernel_path additional_files kernel :
  1 ≤ mb < 2 ^ 21 → (∀ k, fat_clock (clock k)) →
  Forall (λ p, fs p = None) additional_files →
  fs kernel_path = Some kernel → 0 < len kernel →
  clusters_needed (len kernel) ≤ 32763 →
  let n := clusters_needed (len kernel) in
  ∃ image,
    build mb fs clock kernel_path additional_files = Ok image ∧
    (∀ copy, copy = 0 ∨ copy = 1 →
       read_chain (disk_entry image copy) image 3
       = Some (kernel ++ bytearray (n * bytes_per_cluster - len kernel)) ∧
       read_chain (disk_entry image copy) image (3 + n)
       = Some (config_data ++ bytearray (bytes_per_cluster - len config_data)) ∧
       read_chain (disk_entry image copy) image (4 + n)
       = Some (readme_data ++ bytearray (bytes_per_cluster - len readme_data))) ∧
    let root := read_cluster image root_cluster in
    (slice (dir_slot root 32) 0 11 = str "KERNEL  BIN" ∧
     entry_first_cluster (dir_slot root 32) = 3 ∧
     entry_size (dir_slot root 32) = len kernel) ∧
    (slice (dir_slot root 64) 0 11 = str "CONFIG  TXT" ∧
     entry_first_cluster (dir_slot root 64) = 3 + n ∧
     entry_size (dir_slot root 64) = len config_data) ∧
    (slice (dir_slot root 96) 0 11 = str "README  TXT" ∧
     entry_first_cluster (dir_slot root 96) = 4 + n ∧
     entry_size (dir_slot root 96) = len readme_data) ∧
    ∀ i, 128 ≤ i < bytes_per_cluster → root !! Z.to_nat i = Some 0.
Proof.
  intros Hmb Hclock Hmiss Hk Hpos Hn. cbv zeta.
  destruct (build_ok mb fs clock kernel_path additional_files Hmb Hclock Hmiss)
    as (b0 & bk & bc & br & bw & Hb0 & Hbk & Hbc & Hbr & Hbw & Hbuild).
  { rewrite Hk. exact Hn. }
  unfold add_file in Hbk. rewrite Hk in Hbk.
  destruct (fresh_builder mb b0 ltac:(lia) Hb0)
    as (Hinv0 & _ & _ & Hn0 & _ & _ & _ & _ & Hroot0).
  assert (dir_packed 1 (root_dir b0)) as Hp0.
  { apply dir_packed_b_true.
    assert (root_dir b0 = unwrap_bytes root_directory_bytes) as ->
      by (rewrite Hroot0; reflexivity).
    vm_compute. reflexivity. }
  assert (0 < len config_data) as Hposc by (vm_compute; reflexivity).
  assert (0 < len readme_data) as Hposr by (vm_compute; reflexivity).
  assert (1 < bytes_per_cluster / 32) as H1 by (vm_compute; reflexivity).
  assert (2 < bytes_per_cluster / 32) as H2 by (vm_compute; reflexivity).
  assert (3 < bytes_per_cluster / 32) as H3 by (vm_compute; reflexivity).
  destruct (insertion_slots _ (str "KERNEL.BIN") kernel 1 b0 bk (str "KERNEL  BIN")
              Hinv0 Hp0 H1 ltac:(vm_compute; discriminate)
              ltac:(vm_compute; reflexivity) Hpos Hbk)
    as (Hinvk & Hpk & _ & Hkname & Hkfc & Hksz).
  destruct (insertion_slots _ (str "CONFIG.TXT") config_data 2 bk bc (str "CONFIG  TXT")
              Hinvk Hpk H2 ltac:(vm_compute; discriminate)
              ltac:(vm_compute; reflexivity) Hposc Hbc)
    as (Hinvc & Hpc & Hckeep & Hcname & Hcfc & Hcsz).
  destruct (insertion_slots _ (str "README.TXT") readme_data 3 bc br (str "README  TXT")
              Hinvc Hpc H3 ltac:(vm_compute; discriminate)
              ltac:(vm_compute; reflexivity) Hposr Hbr)
    as (Hinvr & Hpr & Hrkeep & Hrname & Hrfc & Hrsz).
  pose proof (add_file_at _ _ _ _ _ Hinv0 Hpos Hbk) as Hatk.
  pose proof (add_file_at _ _ _ _ _ Hinvk Hposc Hbc) as Hatc.
  pose proof (add_file_at _ _ _ _ _ Hinvc Hposr Hbr) as Hatr.
  assert (next_free_cluster bk = 3 + clusters_needed (len kernel)) as Hnk.
  { pose proof Hbk as Hbk'.
    apply add_file_to_directory_Ok in Hbk' as (? & ? & _ & _ & _ & Hnk & _);
      [|exact Hinv0].
    lia. }
  assert (next_free_cluster bc = 4 + clusters_needed (len kernel)) as Hnc.
  { pose proof Hbc as Hbc'.
    apply add_file_to_directory_Ok in Hbc' as (? & ? & _ & _ & _ & Hnc & _);
      [|exact Hinvk].
    change (clusters_needed (len config_data)) with 1 in Hnc. lia. }
  rewrite Hn0 in Hatk, Hkfc. rewrite Hnk in Hatc, Hcfc. rewrite Hnc in Hatr, Hrfc.
  assert (add_step bk bc) as Hs1 by (eexists _, _, _; exact Hbc).
  assert (add_step bc br) as Hs2 by (eexists _, _, _; exact Hbr).
  pose proof (write_fat_tables_root _ _ Hinvr Hbw) as Hroot.
  exists (disk_image bw). split; [exact Hbuild|]. split.
  { intros copy Hcopy.
    pose proof (stored_readable bk br bw _ _ copy Hinvk Hatk
                  (rtc_l _ _ _ _ Hs1 (rtc_once _ _ Hs2)) Hbw Hcopy) as Hrk.
    pose proof (stored_readable bc br bw _ _ copy Hinvc Hatc
                  (rtc_once _ _ Hs2) Hbw Hcopy) as Hrc.
    pose proof (stored_readable br br bw _ _ copy Hinvr Hatr
                  (rtc_refl _ _) Hbw Hcopy) as Hrr.
    change (clusters_needed (len config_data)) with 1 in Hrc.
    change (clusters_needed (len readme_data)) with 1 in Hrr.
    rewrite Z.mul_1_l in Hrc, Hrr.
    split; [exact Hrk|]. split; [exact Hrc|exact Hrr]. }
  change (read_cluster (disk_image bw) root_cluster) with (root_dir bw).
  rewrite Hroot.
  pose proof (Hrkeep 1 ltac:(lia)) as Hr1. pose proof (Hrkeep 2 ltac:(lia)) as Hr2.
  pose proof (Hckeep 1 ltac:(lia)) as Hc1.
  change (32 * 1) with 32 in *. change (32 * 2) with 64 in *.
  change (32 * 3) with 96 in *.
  split.
  { rewrite Hr1, Hc1. split; [exact Hkname|]. split; [exact Hkfc|exact Hksz]. }
  split.
  { rewrite Hr2. split; [exact Hcname|]. split; [exact Hcfc|exact Hcsz]. }
  split.
  { split; [exact Hrname|]. split; [exact Hrfc|exact Hrsz]. }
  destruct Hpr as (Hlen & _ & _ & Hzero).
  intros i Hi. apply Hzero. rewrite Hlen. lia.
Qed.

Lemma build_contents_witness :
  let n := clusters_needed (len demo_payload) in
  ∃ image,
    build 1 demo_kernel_fs (λ _, demo_clock) "build/kernel.bin" [] = Ok image ∧
    (∀ copy, copy = 0 ∨ copy = 1 →
       read_chain (disk_entry image copy) image 3
       = Some (demo_payload ++ bytearray (n * bytes_per_cluster - len demo_payload)) ∧
       read_chain (disk_entry image copy) image (3 + n)
       = Some (config_data ++ bytearray (bytes_per_cluster - len config_data)) ∧
       read_chain (disk_entry image copy) image (4 + n)
       = Some (readme_data ++ bytearray (bytes_per_cluster - len readme_data))) ∧
    let root := read_cluster image root_cluster in
    (slice (dir_slot root 32) 0 11 = str "KERNEL  BIN" ∧
     entry_first_cluster (dir_slot root 32) = 3 ∧
     entry_size (dir_slot root 32) = len demo_payload) ∧
    (slice (dir_slot root 64) 0 11 = str "CONFIG  TXT" ∧
     entry_first_cluster (dir_slot root 64) = 3 + n ∧
     entry_size (dir_slot root 64) = len config_data) ∧
    (slice (dir_slot root 96) 0 11 = str "README  TXT" ∧
     entry_first_cluster (dir_slot root 96) = 4 + n ∧
     entry_size (dir_slot root 96) = len readme_data) ∧
    ∀ i, 128 ≤ i < bytes_per_cluster → root !! Z.to_nat i = Some 0.
Proof.
  apply (build_contents 1 demo_kernel_fs (λ _, demo_clock) "build/kernel.bin" []
           demo_payload).
  - change (2 ^ 21) with 2097152. lia.
  - intros k. exact fat_clock_demo.
  - apply Forall_nil_2.
  - vm_compute. reflexivity.
  - vm_compute. reflexivity.
  - vm_compute. discriminate.
Defined.

(** The 32 bytes of the directory entry that [make_entry] returns. *)
Lemma make_entry_bytes now fn fc S e :
  length fn = 11%nat →
  make_entry now fn fc S = Ok e →
  e = fn ++ [0x20; 0; 0]
      ++ le_bytes 2 (time_val now) ++ le_bytes 2 (date_val now)
      ++ le_bytes 2 (date_val now) ++ le_bytes 2 (Z.shiftr fc 16)
      ++ le_bytes 2 (time_val now) ++ le_bytes 2 (date_val now)
      ++ le_bytes 2 (Z.land fc 0xFFFF) ++ le_bytes 4 S.
Proof.
  intros Hfn He. unfold make_entry, pack_into in He. cbv zeta in He.
  pose proof (length_le_bytes 2 (time_val now)) as Ht.
  pose proof (length_le_bytes 2 (date_val now)) as Hd.
  pose proof (length_le_bytes 2 (Z.shiftr fc 16)) as Hh.
  pose proof (length_le_bytes 2 (Z.land fc 0xFFFF)) as Hl.
  pose proof (length_le_bytes 4 S) as Hs.
  destruct fn as [|n0 [|n1 [|n2 [|n3 [|n4 [|n5 [|n6 [|n7 [|n8 [|n9 [|n10 [|? ?]]]]]]]]]]]];
    try discriminate Hfn.
  destruct (pack 2 (time_val now)) as [tb|] eqn:Hpt;
    [apply pack_Ok in Hpt as [_ ->]|vm_compute in He; discriminate He].
  destruct (le_bytes 2 (time_val now)) as [|t0 [|t1 [|? ?]]]; try discriminate Ht.
  destruct (pack 2 (date_val now)) as [db|] eqn:Hpd;
    [apply pack_Ok in Hpd as [_ ->]|vm_compute in He; discriminate He].
  destruct (le_bytes 2 (date_val now)) as [|d0 [|d1 [|? ?]]]; try discriminate Hd.
  destruct (pack 2 (Z.shiftr fc 16)) as [hb|] eqn:Hph;
    [apply pack_Ok in Hph as [_ ->]|vm_compute in He; discriminate He].
  destruct (le_bytes 2 (Z.shiftr fc 16)) as [|h0 [|h1 [|? ?]]]; try discriminate Hh.
  destruct (pack 2 (Z.land fc 0xFFFF)) as [lb|] eqn:Hpl;
    [apply pack_Ok in Hpl as [_ ->]|vm_compute in He; discriminate He].
  destruct (le_bytes 2 (Z.land fc 0xFFFF)) as [|l0 [|l1 [|? ?]]]; try discriminate Hl.
  destruct (pack 4 S) as [sb|] eqn:Hps;
    [apply pack_Ok in Hps as [_ ->]|vm_compute in He; discriminate He].
  destruct (le_bytes 4 S) as [|s0 [|s1 [|s2 [|s3 [|? ?]]]]]; try discriminate Hs.
  vm_compute in He. injection He as <-. reflexivity.
Qed.

(** C7 (zero-byte file).  Adding an empty payload leaves
    [next_free_cluster] and the whole FAT as they were.  The first free
    slot of the root directory then holds the entry of the file, byte for
    byte: its 8.3 name in bytes 0 to 10, the attribute 0x20, the time and
    date words of the clock reading, zero in both first-cluster words and
    zero in the size; so the entry records first cluster 0 and size 0. *)
Theorem zero_byte_file now filename b b' :
  builder_inv b →
  add_file_to_directory now filename [] b = Ok b' →
  next_free_cluster b' = next_free_cluster b ∧
  fat_table b' = fat_table b ∧
  ∃ i fn, first_free (root_dir b) i ∧
          fat_filename_of filename = Ok fn ∧ length fn = 11%nat ∧
          dir_slot (root_dir b') i
          = fn ++ [0x20; 0; 0]
            ++ le_bytes 2 (time_val now) ++ le_bytes 2 (date_val now)
            ++ le_bytes 2 (date_val now) ++ [0; 0]
            ++ le_bytes 2 (time_val now) ++ le_bytes 2 (date_val now)
            ++ [0; 0] ++ [0; 0; 0; 0] ∧
          entry_first_cluster (dir_slot (root_dir b') i) = 0 ∧
          entry_size (dir_slot (root_dir b') i) = 0.
Proof.
  intros Hinv Hadd.
  pose proof (len_root_dir _ Hinv) as Hroot.
  destruct (add_file_to_directory_root _ _ _ _ _ Hinv Hadd) as (fn & Hfn & Hins).
  apply add_file_to_directory_Ok in Hadd
    as (fn' & dir' & _ & _ & _ & Hn & _ & _ & _ & _ & Hfat); [|exact Hinv].
  change (len []) with 0 in *. rewrite clusters_needed_0, Z.add_0_r in Hn.
  split; [exact Hn|]. split; [by apply Hfat|].
  rewrite first_cluster_of_empty in Hins by reflexivity.
  pose proof (fat_filename_of_length _ _ Hfn) as Hlfn.
  apply insert_entry_Ok in Hins as (i & e & Hff & He & _ & Hslot & _);
    [|exact Hlfn|by rewrite Hroot].
  exists i, fn. split; [exact Hff|]. split; [exact Hfn|]. split; [exact Hlfn|].
  rewrite Hslot.
  split; [exact (make_entry_bytes now fn 0 0 e Hlfn He)|].
  apply make_entry_fields in He as (_ & _ & Hfc & Hsz); [|exact Hlfn|lia].
  split; [exact Hfc|exact Hsz].
Qed.

Lemma zero_byte_file_witness :
  next_free_cluster demo_empty = next_free_cluster demo_builder ∧
  fat_table demo_empty = fat_table demo_builder ∧
  ∃ i fn, first_free (root_dir demo_builder) i ∧
          fat_filename_of (str "empty.txt") = Ok fn ∧ length fn = 11%nat ∧
          dir_slot (root_dir demo_empty) i
          = fn ++ [0x20; 0; 0]
            ++ le_bytes 2 (time_val demo_clock) ++ le_bytes 2 (date_val demo_clock)
            ++ le_bytes 2 (date_val demo_clock) ++ [0; 0]
            ++ le_bytes 2 (time_val demo_clock) ++ le_bytes 2 (date_val demo_clock)
            ++ [0; 0] ++ [0; 0; 0; 0] ∧
          entry_first_cluster (dir_slot (root_dir demo_empty) i) = 0 ∧
          entry_size (dir_slot (root_dir demo_empty) i) = 0.
Proof.
  apply (zero_byte_file demo_clock (str "empty.txt") demo_builder demo_empty).
  - apply builder_inv_b_true. vm_compute. reflexivity.
  - apply unwrap_Ok. vm_compute. reflexivity.
Defined.

(** ** The files a build inserts *)

Lemma inserted_app items1 : ∀ items2 b b1 b2,
  inserted items1 b b1 → inserted items2 b1 b2 → inserted (items1 ++ items2) b b2.
Proof.
  induction items1 as [|item items1 IH]; intros items2 b b1 b2 H1 H2.
  - cbn in H1. subst b1. exact H2.
  - cbn [inserted] in H1. destruct H1 as (now & b' & Hadd & Hrest).
    cbn [app inserted]. exists now, b'. split; [exact Hadd|].
    exact (IH items2 b' b1 b2 Hrest H2).
Qed.

Lemma add_files_inserted fs clock paths : ∀ k b b',
  add_files fs clock k paths b = Ok b' → inserted (existing_files fs paths) b b'.
Proof.
  induction paths as [|p paths IH]; intros k b b' Hadd.
  - cbn in Hadd. injection Hadd as <-. reflexivity.
  - cbn [add_files] in Hadd. unfold add_file in Hadd. cbn [existing_files].
    destruct (fs p) as [file_data|].
    + destruct (add_file_to_directory (clock k) (basename (str p)) file_data b)
        as [b1|] eqn:H1; [rewrite bind_Ok in Hadd|rewrite bind_Raise in Hadd; discriminate Hadd].
      cbn [inserted]. exists (clock k), b1. split; [exact H1|].
      exact (IH (S k) b1 b' Hadd).
    + rewrite bind_Ok in Hadd. exact (IH (S k) b b' Hadd).
Qed.

Lemma existing_files_app fs before after :
  existing_files fs (before ++ after) = existing_files fs before ++ existing_files fs after.
Proof.
  induction before as [|p before IH]; [reflexivity|].
  cbn [app existing_files]. destruct (fs p); [|exact IH].
  rewrite IH. reflexivity.
Qed.

Lemma existing_files_skip fs before path after :
  fs path = None →
  existing_files fs (before ++ path :: after)
  = existing_files fs before ++ existing_files fs after.
Proof.
  intros Hmiss. rewrite existing_files_app. cbn [existing_files].
  rewrite Hmiss. reflexivity.
Qed.

(** A successful build is the fresh structure, the insertions of the files
    that exist, and the FAT tables. *)
Lemma build_inserted mb fs clock kernel_path additional_files image :
  build mb fs clock kernel_path additional_files = Ok image →
  ∃ b0 bn bw,
    create_filesystem_structure (init mb) = Ok b0 ∧
    inserted (kernel_file fs kernel_path ++ existing_files fs additional_files
              ++ sample_files) b0 bn ∧
    write_fat_tables bn = Ok bw ∧ image = disk_image bw.
Proof.
  unfold build. cbv zeta. intros Hbuild.
  destruct (create_filesystem_structure (init mb)) as [b0|] eqn:Hb0;
    [rewrite bind_Ok in Hbuild|rewrite bind_Raise in Hbuild; discriminate Hbuild].
  destruct (add_file fs (clock 0%nat) kernel_path (Some "KERNEL.BIN"%string) b0)
    as [bk|] eqn:Hbk;
    [rewrite bind_Ok in Hbuild|rewrite bind_Raise in Hbuild; discriminate Hbuild].
  destruct (add_files fs clock 1 additional_files bk) as [ba|] eqn:Hba;
    [rewrite bind_Ok in Hbuild|rewrite bind_Raise in Hbuild; discriminate Hbuild].
  destruct (add_file_to_directory (clock (S (length additional_files)))
              (str "CONFIG.TXT") config_data ba) as [bc|] eqn:Hbc;
    [rewrite bind_Ok in Hbuild|rewrite bind_Raise in Hbuild; discriminate Hbuild].
  destruct (add_file_to_directory (clock (S (S (length additional_files))))
              (str "README.TXT") readme_data bc) as [br|] eqn:Hbr;
    [rewrite bind_Ok in Hbuild|rewrite bind_Raise in Hbuild; discriminate Hbuild].
  destruct (write_fat_tables br) as [bw|] eqn:Hbw;
    [rewrite bind_Ok in Hbuild|rewrite bind_Raise in Hbuild; discriminate Hbuild].
  injection Hbuild as <-.
  exists b0, br, bw. split; [reflexivity|]. split; [|split; [exact Hbw|reflexivity]].
  apply (inserted_app _ _ b0 bk br).
  - unfold kernel_file, add_file in *. destruct (fs kernel_path) as [file_data|].
    + cbn [inserted]. exists (clock 0%nat), bk. split; [exact Hbk|reflexivity].
    + injection Hbk as <-. reflexivity.
  - apply (inserted_app _ _ bk ba br).
    + exact (add_files_inserted fs clock additional_files 1 bk ba Hba).
    + cbn [sample_files inserted]. exists (clock (S (length additional_files))), bc.
      split; [exact Hbc|].
      exists (clock (S (S (length additional_files)))), br.
      split; [exact Hbr|reflexivity].
Qed.

Lemma slice_prefix_le {A} (a b : list A) m n :
  0 ≤ n ≤ m → slice a 0 m = slice b 0 m → slice a 0 n = slice b 0 n.
Proof.
  intros Hn Heq.
  pose proof (slice_slice a 0 m 0 n ltac:(lia) ltac:(lia) ltac:(lia)) as Ha.
  pose proof (slice_slice b 0 m 0 n ltac:(lia) ltac:(lia) ltac:(lia)) as Hb.
  rewrite !Z.add_0_l in Ha, Hb. rewrite <- Ha, <- Hb, Heq. reflexivity.
Qed.

Lemma dir_slot_prefix (a b : list Z) m j :
  slice a 0 m = slice b 0 m → 0 ≤ j → 32 * j + 32 ≤ m →
  dir_slot a (32 * j) = dir_slot b (32 * j).
Proof.
  intros Heq Hj Hm. unfold dir_slot.
  pose proof (slice_slice a 0 m (32 * j) (32 * j + 32) ltac:(lia) ltac:(lia) ltac:(lia))
    as Ha.
  pose proof (slice_slice b 0 m (32 * j) (32 * j + 32) ltac:(lia) ltac:(lia) ltac:(lia))
    as Hb.
  rewrite !Z.add_0_l in Ha, Hb. rewrite <- Ha, <- Hb, Heq. reflexivity.
Qed.

(** Insertions into a packed directory: file [j] of the list is in slot
    [k + j], and its clusters hold it. *)
Lemma inserted_holds items : ∀ k b b',
  builder_inv b → dir_packed k (root_dir b) → Forall named items →
  inserted items b b' →
  builder_inv b' ∧ dir_packed (k + len items) (root_dir b') ∧ rtc add_step b b' ∧
  slice (root_dir b') 0 (32 * k) = slice (root_dir b) 0 (32 * k) ∧
  ∀ (j : nat) name file_data,
    items !! j = Some (name, file_data) → entry_holds b' (k + Z.of_nat j) name file_data.
Proof.
  induction items as [|[name0 data0] items IH]; intros k b b' Hinv Hpacked Hnamed Hins.
  - cbn in Hins. subst b'. change (len []) with 0. rewrite Z.add_0_r.
    split; [exact Hinv|]. split; [exact Hpacked|]. split; [apply rtc_refl|].
    split; [reflexivity|]. intros j name file_data Hj. discriminate Hj.
  - cbn [inserted fst snd] in Hins. destruct Hins as (now & b1 & Hadd & Hrest).
    apply Forall_cons in Hnamed as [Hhead Hnamed]. unfold named in Hhead.
    cbn [fst] in Hhead.
    pose proof Hpacked as (Hlen & Hk & _).
    destruct (decide (k < bytes_per_cluster / 32)) as [Hlt|Hge].
    2:{ exfalso. assert (k = bytes_per_cluster / 32) as Hfull by lia.
        rewrite Hfull in Hpacked.
        pose proof (packed_no_free _ Hpacked) as Hno.
        destruct (add_file_to_directory_root _ _ _ _ _ Hinv Hadd) as (fn & _ & Hroot).
        apply (insert_entry_full now fn (first_cluster_of b data0) (len data0)) in Hno.
        rewrite Hno in Hroot. discriminate Hroot. }
    destruct (add_file_to_directory_packed now name0 data0 k b b1
                Hinv Hpacked Hlt Hhead Hadd)
      as (Hpacked1 & Hlow & fn & Hfn & Hname & Hfc & Hsz).
    pose proof (add_file_to_directory_inv _ _ _ _ _ Hinv Hadd) as Hinv1.
    destruct (IH (k + 1) b1 b' Hinv1 Hpacked1 Hnamed Hrest)
      as (Hinv' & Hpacked' & Hrtc & Hlow' & Hitems).
    assert (len ((name0, data0) :: items) = 1 + len items) as Hl
      by (unfold len; cbn [length]; lia).
    pose proof (len_nonneg items) as Hl0.
    split; [exact Hinv'|]. split.
    { rewrite Hl. replace (k + (1 + len items)) with (k + 1 + len items) by lia.
      exact Hpacked'. }
    split.
    { apply (rtc_l _ _ b1); [|exact Hrtc]. exists now, name0, data0. exact Hadd. }
    split.
    { rewrite <- Hlow. apply (slice_prefix_le _ _ (32 * (k + 1))); [lia|exact Hlow']. }
    intros j name file_data Hj. destruct j as [|j].
    + cbn in Hj. injection Hj as <- <-.
      replace (k + Z.of_nat 0) with k by lia.
      assert (dir_slot (root_dir b') (32 * k) = dir_slot (root_dir b1) (32 * k)) as Hslot
        by (apply (dir_slot_prefix _ _ (32 * (k + 1))); [exact Hlow'|lia|lia]).
      unfold entry_holds. cbv zeta. rewrite Hslot.
      split; [rewrite Hname; exact Hfn|]. split; [exact Hsz|]. split.
      * intros Hempty. rewrite Hfc. apply first_cluster_of_empty. exact Hempty.
      * intros Hpos. rewrite Hfc. unfold first_cluster_of.
        destruct (decide (0 < len data0)) as [_|Hn]; [|lia].
        apply (file_at_add_steps b1 b'); [exact Hrtc|exact Hinv1|].
        exact (add_file_at _ _ _ _ _ Hinv Hpos Hadd).
    + cbn in Hj. replace (k + Z.of_nat (S j)) with (k + 1 + Z.of_nat j) by lia.
      exact (Hitems j name file_data Hj).
Qed.

Lemma existing_files_missing fs paths :
  Forall (λ p, fs p = None) paths → existing_files fs paths = [].
Proof.
  induction 1 as [|p paths Hp _ IH]; [reflexivity|].
  cbn [existing_files]. rewrite Hp. exact IH.
Qed.

(** From the builder to the image that [write_fat_tables] and [save] leave. *)
Lemma entry_holds_image b bw slot name file_data :
  builder_inv b → entry_holds b slot name file_data →
  write_fat_tables b = Ok bw →
  holds_file (save bw) slot name file_data.
Proof.
  intros Hinv (Hname & Hsz & Hempty & Hat) Hbw.
  pose proof (write_fat_tables_root _ _ Hinv Hbw) as Hroot.
  unfold holds_file, save. cbv zeta.
  change (read_cluster (disk_image bw) root_cluster) with (root_dir bw).
  rewrite Hroot.
  split; [exact Hname|]. split; [exact Hsz|]. split; [exact Hempty|].
  intros Hpos copy Hcopy.
  exact (stored_readable b b bw _ _ copy Hinv (Hat Hpos) (rtc_refl _ _) Hbw Hcopy).
Qed.

(** The image of a successful build holds every file that exists, in the
    order of insertion, from slot 1 of the root directory on. *)
Lemma build_holds mb fs clock kernel_path additional_files image :
  1 ≤ mb →
  build mb fs clock kernel_path additional_files = Ok image →
  Forall named (existing_files fs additional_files) →
  mb * 1048576 ≤ len image ∧ slice image 510 512 = [0x55; 0xAA] ∧
  ∀ (k : nat) name file_data,
    (kernel_file fs kernel_path ++ existing_files fs additional_files ++ sample_files)
      !! k = Some (name, file_data) →
    holds_file image (1 + Z.of_nat k) name file_data.
Proof.
  intros Hmb Hbuild Hnamed.
  destruct (build_inserted _ _ _ _ _ _ Hbuild) as (b0 & bn & bw & Hb0 & Hins & Hbw & ->).
  destruct (fresh_builder mb b0 Hmb Hb0)
    as (Hinv0 & Hp0 & _ & _ & Hlen0 & _ & Hsig0 & _ & Hroot0).
  assert (dir_packed 1 (root_dir b0)) as Hpacked0.
  { apply dir_packed_b_true.
    assert (root_dir b0 = unwrap_bytes root_directory_bytes) as ->
      by (rewrite Hroot0; reflexivity).
    vm_compute. reflexivity. }
  assert (Forall named (kernel_file fs kernel_path ++ existing_files fs additional_files
                        ++ sample_files)) as Hall.
  { apply Forall_app. split.
    - unfold kernel_file. destruct (fs kernel_path); [|apply Forall_nil_2].
      apply Forall_cons. split; [|apply Forall_nil_2]. vm_compute. discriminate.
    - apply Forall_app. split; [exact Hnamed|].
      apply Forall_cons. split; [vm_compute; discriminate|].
      apply Forall_cons. split; [vm_compute; discriminate|apply Forall_nil_2]. }
  destruct (inserted_holds _ 1 b0 bn Hinv0 Hpacked0 Hall Hins)
    as (Hinvn & _ & Hrtc & _ & Hitems).
  destruct (add_steps_keep (mb * 1048576) b0 bn Hrtc Hinv0 Hp0 Hlen0)
    as (_ & _ & Hlenn & _ & _ & Hlow).
  pose proof (write_fat_tables_image _ _ Hinvn Hbw) as (Hlenw & Hloww & _ & _).
  pose proof (write_fat_tables_root _ _ Hinvn Hbw) as Hrootw.
  split.
  { rewrite Hlenw. unfold image_len_inv in Hlenn. rewrite Hlenn. lia. }
  split.
  { rewrite Hloww by lia. rewrite Hlow; [exact Hsig0|lia|].
    rewrite cluster_offset_eq. lia. }
  intros k name file_data Hk.
  destruct (Hitems k name file_data Hk) as (Hname & Hsz & Hempty & Hat).
  unfold holds_file. cbv zeta.
  change (read_cluster (disk_image bw) root_cluster) with (root_dir bw).
  rewrite Hrootw.
  split; [exact Hname|]. split; [exact Hsz|]. split; [exact Hempty|].
  intros Hpos copy Hcopy.
  exact (stored_readable bn bn bw _ _ copy Hinvn (Hat Hpos) (rtc_refl _ _) Hbw Hcopy).
Qed.

Lemma add_files_ext fs clock1 clock2 paths : ∀ k b,
  (∀ i, (k ≤ i < k + length paths)%nat → clock1 i = clock2 i) →
  add_files fs clock1 k paths b = add_files fs clock2 k paths b.
Proof.
  induction paths as [|p paths IH]; intros k b Hext; [reflexivity|].
  cbn [add_files length] in *. rewrite (Hext k) by lia.
  destruct (add_file fs (clock2 k) p None b) as [b1|];
    [rewrite !bind_Ok|rewrite !bind_Raise; reflexivity].
  apply IH. intros i Hi. apply Hext. lia.
Qed.

Lemma add_files_succ fs clock paths : ∀ k b,
  add_files fs clock (S k) paths b = add_files fs (λ i, clock (S i)) k paths b.
Proof.
  induction paths as [|p paths IH]; intros k b; [reflexivity|].
  cbn [add_files].
  destruct (add_file fs (clock (S k)) p None b) as [b1|];
    [rewrite !bind_Ok|rewrite !bind_Raise; reflexivity].
  apply IH.
Qed.

(** A path that does not exist can be dropped from the list: the later
    files keep their clock readings. *)
Lemma add_files_skip fs clock before path after k b :
  fs path = None →
  add_files fs clock k (before ++ path :: after) b
  = add_files fs (skip_reading (k + length before) clock) k (before ++ after) b.
Proof.
  intros Hmiss. rewrite !add_files_app.
  rewrite (add_files_ext fs clock (skip_reading (k + length before) clock) before).
  2:{ intros i Hi. unfold skip_reading.
      destruct (Nat.ltb_spec i (k + length before)); [reflexivity|lia]. }
  destruct (add_files fs (skip_reading (k + length before) clock) k before b) as [b1|];
    [rewrite !bind_Ok|rewrite !bind_Raise; reflexivity].
  cbn [add_files]. unfold add_file at 1. rewrite Hmiss, bind_Ok.
  rewrite add_files_succ. apply add_files_ext.
  intros i Hi. unfold skip_reading.
  destruct (Nat.ltb_spec i (k + length before)); [lia|reflexivity].
Qed.

Lemma build_skip mb fs clock kernel_path before path after :
  fs path = None →
  build mb fs clock kernel_path (before ++ path :: after)
  = build mb fs (skip_reading (S (length before)) clock) kernel_path (before ++ after).
Proof.
  intros Hmiss. unfold build. cbv zeta.
  destruct (create_filesystem_structure (init mb)) as [b0|];
    [rewrite !bind_Ok|rewrite !bind_Raise; reflexivity].
  change (skip_reading (S (length before)) clock 0%nat) with (clock 0%nat).
  destruct (add_file fs (clock 0%nat) kernel_path (Some "KERNEL.BIN"%string) b0) as [bk|];
    [rewrite !bind_Ok|rewrite !bind_Raise; reflexivity].
  rewrite (add_files_skip fs clock before path after 1 bk Hmiss).
  change (1 + length before)%nat with (S (length before)).
  destruct (add_files fs (skip_reading (S (length before)) clock) 1 (before ++ after) bk)
    as [ba|]; [rewrite !bind_Ok|rewrite !bind_Raise; reflexivity].
  rewrite !length_app. cbn [length].
  assert (∀ i, (S (length before) ≤ i)%nat →
               skip_reading (S (length before)) clock i = clock (S i)) as Hskip.
  { intros i Hi. unfold skip_reading.
    destruct (Nat.ltb_spec i (S (length before))); [lia|reflexivity]. }
  rewrite !Hskip by lia.
  replace (length before + S (length after))%nat
    with (S (length before + length after)) by lia.
  reflexivity.
Qed.

(** C8 (missing input), amended.  In [build_disk.py] a path that does not
    exist is skipped.  [add_file] returns the builder unchanged, and a
    build that lists the path gives the result of the build that does not
    list it, the remaining insertions keeping their clock readings; so the
    missing path cannot make the build fail.  Whenever such a build
    succeeds, with a missing additional path or a missing kernel path, the
    image is complete (at least the nominal size, boot signature 55 AA)
    and holds every remaining input: the kernel if it exists, the
    additional files that exist, CONFIG.TXT and README.TXT occupy the root
    directory slots from slot 1 on, in this order, each with its 8.3 name
    and size, and the content of each is read back from its first cluster
    through either FAT copy (no stored name may start with a NUL
    character).  With valid clock readings, a kernel that is missing or
    fits the FAT, and no additional file on disk, the build does succeed,
    and with the kernel missing too the image has the nominal size.  In
    [create_disk_fixed.py] a non-empty ELF path that does not exist ends
    the script with status 1. *)
Theorem missing_input_skipped fs path :
  fs path = None →
  (∀ now name b, add_file fs now path name b = Ok b) ∧
  (∀ mb clock kernel_path before after,
     build mb fs clock kernel_path (before ++ path :: after)
     = build mb fs (skip_reading (S (length before)) clock) kernel_path
         (before ++ after)) ∧
  (∀ mb clock kernel_path before after image,
     1 ≤ mb →
     build mb fs clock kernel_path (before ++ path :: after) = Ok image →
     Forall named (existing_files fs before ++ existing_files fs after) →
     mb * 1048576 ≤ len image ∧ slice image 510 512 = [0x55; 0xAA] ∧
     ∀ (k : nat) name file_data,
       (kernel_file fs kernel_path ++ existing_files fs before
        ++ existing_files fs after ++ sample_files) !! k = Some (name, file_data) →
       holds_file image (1 + Z.of_nat k) name file_data) ∧
  (∀ mb clock additional_files image,
     1 ≤ mb →
     build mb fs clock path additional_files = Ok image →
     Forall named (existing_files fs additional_files) →
     mb * 1048576 ≤ len image ∧ slice image 510 512 = [0x55; 0xAA] ∧
     ∀ (k : nat) name file_data,
       (existing_files fs additional_files ++ sample_files) !! k
       = Some (name, file_data) →
       holds_file image (1 + Z.of_nat k) name file_data) ∧
  (∀ mb clock kernel_path additional_files,
     1 ≤ mb < 2 ^ 21 → (∀ k, fat_clock (clock k)) →
     Forall (λ p, fs p = None) additional_files →
     match fs kernel_path with
     | Some kernel => clusters_needed (len kernel) ≤ 32763
     | None => True
     end →
     ∃ image,
       build mb fs clock kernel_path (path :: additional_files) = Ok image ∧
       ∀ (k : nat) name file_data,
         (kernel_file fs kernel_path ++ sample_files) !! k = Some (name, file_data) →
         holds_file image (1 + Z.of_nat k) name file_data) ∧
  (∀ mb clock additional_files,
     1 ≤ mb < 2 ^ 21 → (∀ k, fat_clock (clock k)) →
     Forall (λ p, fs p = None) additional_files →
     ∃ image, build mb fs clock path additional_files = Ok image ∧
              len image = mb * 1048576) ∧
  (path ≠ EmptyString →
   ∀ mb, CreateDiskFixed.build mb fs (Some path) = Raise (SystemExit 1)).
Proof.
  intros Hmiss. split.
  { intros now name b. unfold add_file. rewrite Hmiss. reflexivity. }
  split.
  { intros mb clock kernel_path before after. apply build_skip. exact Hmiss. }
  split.
  { intros mb clock kernel_path before after image Hmb Hbuild Hnamed.
    pose proof (build_holds mb fs clock kernel_path (before ++ path :: after) image
                  Hmb Hbuild) as Hholds.
    rewrite (existing_files_skip fs before path after Hmiss) in Hholds.
    rewrite <- app_assoc in Hholds. exact (Hholds Hnamed). }
  split.
  { intros mb clock additional_files image Hmb Hbuild Hnamed.
    pose proof (build_holds mb fs clock path additional_files image Hmb Hbuild Hnamed)
      as Hholds.
    unfold kernel_file in Hholds. rewrite Hmiss in Hholds. exact Hholds. }
  split.
  { intros mb clock kernel_path additional_files Hmb Hclock Hall Hkernel.
    destruct (build_ok mb fs clock kernel_path (path :: additional_files) Hmb Hclock)
      as (b0 & bk & bc & br & bw & _ & _ & _ & _ & _ & Hbuild).
    - apply Forall_cons. split; [exact Hmiss|exact Hall].
    - exact Hkernel.
    - exists (disk_image bw). split; [exact Hbuild|].
      assert (existing_files fs (path :: additional_files) = []) as Hnone
        by (apply existing_files_missing, Forall_cons; split; [exact Hmiss|exact Hall]).
      destruct (build_holds mb fs clock kernel_path (path :: additional_files)
                  (disk_image bw) ltac:(lia) Hbuild) as (_ & _ & Hholds).
      { rewrite Hnone. apply Forall_nil_2. }
      rewrite Hnone in Hholds. exact Hholds. }
  split.
  { intros mb clock additional_files Hmb Hclock Hall.
    destruct (build_length mb fs clock path additional_files Hmb Hclock Hall)
      as (image & Hbuild & Hlen).
    { rewrite Hmiss. lia. }
    exists image. split; [exact Hbuild|].
    rewrite Hlen, Hmiss, cluster_offset_eq. lia. }
  intros Hne mb. unfold CreateDiskFixed.build.
  rewrite load_elf_missing by assumption. apply bind_Raise.
Qed.

Lemma missing_input_skipped_witness :
  (∀ now name b, add_file demo_two_fs now "missing.txt" name b = Ok b) ∧
  (∀ mb clock kernel_path before after,
     build mb demo_two_fs clock kernel_path (before ++ "missing.txt"%string :: after)
     = build mb demo_two_fs (skip_reading (S (length before)) clock) kernel_path
         (before ++ after)) ∧
  (∀ mb clock kernel_path before after image,
     1 ≤ mb →
     build mb demo_two_fs clock kernel_path (before ++ "missing.txt"%string :: after)
     = Ok image →
     Forall named (existing_files demo_two_fs before ++ existing_files demo_two_fs after) →
     mb * 1048576 ≤ len image ∧ slice image 510 512 = [0x55; 0xAA] ∧
     ∀ (k : nat) name file_data,
       (kernel_file demo_two_fs kernel_path ++ existing_files demo_two_fs before
        ++ existing_files demo_two_fs after ++ sample_files) !! k
       = Some (name, file_data) →
       holds_file image (1 + Z.of_nat k) name file_data) ∧
  (∀ mb clock additional_files image,
     1 ≤ mb →
     build mb demo_two_fs clock "missing.txt" additional_files = Ok image →
     Forall named (existing_files demo_two_fs additional_files) →
     mb * 1048576 ≤ len image ∧ slice image 510 512 = [0x55; 0xAA] ∧
     ∀ (k : nat) name file_data,
       (existing_files demo_two_fs additional_files ++ sample_files) !! k
       = Some (name, file_data) →
       holds_file image (1 + Z.of_nat k) name file_data) ∧
  (∀ mb clock kernel_path additional_files,
     1 ≤ mb < 2 ^ 21 → (∀ k, fat_clock (clock k)) →
     Forall (λ p, demo_two_fs p = None) additional_files →
     match demo_two_fs kernel_path with
     | Some kernel => clusters_needed (len kernel) ≤ 32763
     | None => True
     end →
     ∃ image,
       build mb demo_two_fs clock kernel_path ("missing.txt"%string :: additional_files)
       = Ok image ∧
       ∀ (k : nat) name file_data,
         (kernel_file demo_two_fs kernel_path ++ sample_files) !! k
         = Some (name, file_data) →
         holds_file image (1 + Z.of_nat k) name file_data) ∧
  (∀ mb clock additional_files,
     1 ≤ mb < 2 ^ 21 → (∀ k, fat_clock (clock k)) →
     Forall (λ p, demo_two_fs p = None) additional_files →
     ∃ image, build mb demo_two_fs clock "missing.txt" additional_files = Ok image ∧
              len image = mb * 1048576) ∧
  ("missing.txt"%string ≠ EmptyString →
   ∀ mb, CreateDiskFixed.build mb demo_two_fs (Some "missing.txt"%string)
         = Raise (SystemExit 1)).
Proof.
  apply (missing_input_skipped demo_two_fs "missing.txt").
  vm_compute. reflexivity.
Defined.

(** X12 (what [add_file] stores).  [add_file] without a disk name, given
    an existing path whose last component is an ASCII name that does not
    start with a NUL character, on a root directory whose first [k] slots
    are in use and whose rest is zero: once it and [write_fat_tables]
    have succeeded, slot [k] of the root directory in the saved image
    carries the 8.3 name of that last component and the size of the file,
    the content of the file is read back from the first cluster of the
    entry through either FAT copy, and the earlier slots are as they
    were. *)
Theorem add_file_stores fs now path dir name file_data k b b' bw :
  fs path = Some file_data →
  str path = dir ++ 47 :: name ∨ str path = name →
  component_ascii name = true → head name ≠ Some 0 →
  builder_inv b → dir_packed k (root_dir b) →
  add_file fs now path None b = Ok b' →
  write_fat_tables b' = Ok bw →
  dir_packed (k + 1) (root_dir b') ∧
  slice (root_dir b') 0 (32 * k) = slice (root_dir b) 0 (32 * k) ∧
  holds_file (save bw) k name file_data.
Proof.
  intros Hfs Hpath (_ & Hname)%component_ascii_spec Hhead Hinv Hpacked Hadd Hbw.
  unfold add_file in Hadd. rewrite Hfs in Hadd.
  destruct (basename_component dir name Hname) as [Hb1 Hb2].
  assert (basename (str path) = name) as Hbase
    by (destruct Hpath as [-> | ->]; [exact Hb1|exact Hb2]).
  rewrite Hbase in Hadd.
  assert (inserted [(name, file_data)] b b') as Hins
    by (cbn [inserted fst snd]; exists now, b'; split; [exact Hadd|reflexivity]).
  assert (Forall named [(name, file_data)]) as Hnamed
    by (apply Forall_cons; split; [exact Hhead|apply Forall_nil_2]).
  destruct (inserted_holds _ k b b' Hinv Hpacked Hnamed Hins)
    as (Hinv' & Hpacked' & _ & Hlow & Hitems).
  change (len [(name, file_data)]) with 1 in Hpacked'.
  split; [exact Hpacked'|]. split; [exact Hlow|].
  pose proof (Hitems 0%nat name file_data eq_refl) as Hholds.
  replace (k + Z.of_nat 0) with k in Hholds by lia.
  exact (entry_holds_image b' bw k name file_data Hinv' Hholds Hbw).
Qed.

Lemma add_file_stores_witness :
  dir_packed (1 + 1) (root_dir demo_stored) ∧
  slice (root_dir demo_stored) 0 (32 * 1) = slice (root_dir demo_builder) 0 (32 * 1) ∧
  holds_file (save demo_stored_written) 1 (str "shell.elf") demo_payload.
Proof.
  apply (add_file_stores demo_shell_fs demo_clock "build/user/shell.elf"
           (str "build/user") (str "shell.elf") demo_payload 1
           demo_builder demo_stored demo_stored_written).
  - apply single_file_same.
  - left. vm_compute. reflexivity.
  - vm_compute. reflexivity.
  - vm_compute. discriminate.
  - apply builder_inv_b_true. vm_compute. reflexivity.
  - apply dir_packed_b_true. vm_compute. reflexivity.
  - apply unwrap_Ok. vm_compute. reflexivity.
  - apply unwrap_Ok. vm_compute. reflexivity.
Defined.

(** A run on a kernel, a path that does not exist and one more file: the
    image holds the kernel, the file and the two sample files in slots 1
    to 4. *)
Example missing_between_files :
  ∃ image,
    build 1 demo_two_fs (λ _, demo_clock) "build/kernel.bin"
      ["missing.txt"%string; "user/init.rc"%string] = Ok image ∧
    holds_file image 1 (str "KERNEL.BIN") demo_payload ∧
    holds_file image 2 (str "init.rc") [104; 105; 10] ∧
    holds_file image 3 (str "CONFIG.TXT") config_data ∧
    holds_file image 4 (str "README.TXT") readme_data.
Proof.
  pose proof (unwrap_bytes_Ok
                (build 1 demo_two_fs (λ _, demo_clock) "build/kernel.bin"
                   ["missing.txt"%string; "user/init.rc"%string])) as Hbuild.
  remember (unwrap_bytes _) as image eqn:Himage in Hbuild. clear Himage.
  assert (build 1 demo_two_fs (λ _, demo_clock) "build/kernel.bin"
            ["missing.txt"%string; "user/init.rc"%string] = Ok image) as Hok
    by (apply Hbuild; vm_compute; reflexivity).
  clear Hbuild. exists image. split; [exact Hok|].
  destruct (build_holds 1 demo_two_fs (λ _, demo_clock) "build/kernel.bin"
              ["missing.txt"%string; "user/init.rc"%string] image ltac:(lia) Hok)
    as (_ & _ & Hholds).
  { change (existing_files demo_two_fs ["missing.txt"%string; "user/init.rc"%string])
      with [(str "init.rc", [104; 105; 10])].
    apply Forall_cons. split; [vm_compute; discriminate|apply Forall_nil_2]. }
  change (kernel_file demo_two_fs "build/kernel.bin"
          ++ existing_files demo_two_fs ["missing.txt"%string; "user/init.rc"%string]
          ++ sample_files)
    with [(str "KERNEL.BIN", demo_payload); (str "init.rc", [104; 105; 10]);
          (str "CONFIG.TXT", config_data); (str "README.TXT", readme_data)] in Hholds.
  split; [exact (Hholds 0%nat _ _ eq_refl)|].
  split; [exact (Hholds 1%nat _ _ eq_refl)|].
  split; [exact (Hholds 2%nat _ _ eq_refl)|exact (Hholds 3%nat _ _ eq_refl)].
Qed.
